(** * ServiLocal: a shallow embedding of the server-side bookkeeping

    The development follows the TypeScript sources of the marketplace server:
    the node-cache wrapper ([server/cache.ts]), token issuance and checking
    ([server/auth.ts]), the WebSocket registry ([server/websocket.ts]), the
    PSE payment stub ([server/payments.ts]), two-factor login
    ([server/twoFactorAuth.ts]), the relational storage layer
    ([server/storage.ts], [shared/schema.ts]) and the route handlers
    ([server/routes.ts]).

    Conventions.  A JavaScript string is a [string], read as a sequence of
    code units below 256.  A JavaScript number that the code only compares or
    copies is a [Z] when it is an integer quantity (identifiers, clock
    readings in milliseconds or seconds) and a [JsNumber] when any double may
    arrive.  A [Promise] that rejects and a [throw] are both the [Throw]
    outcome of the [Result] type; state is passed explicitly. *)

From stdpp Require Import base option list gmap strings fin_maps fin_sets.
From Stdlib Require Import ZArith QArith Lia Ascii String DecimalString DecimalZ.

Close Scope Q_scope.
Open Scope string_scope.
Open Scope list_scope.

(** ** Outcomes of a call *)

Inductive Exn : Type :=
  | Error (message : string)        (* [new Error(message)] *)
  | TypeError (message : string)    (* raised by the runtime *)
  | ZodError (issues : list string) (* raised by [schema.parse] *)
  | DbError (message : string).     (* raised by the database driver *)

Inductive Result (A : Type) : Type :=
  | Ok (a : A)
  | Throw (e : Exn).
Arguments Ok {A} a.
Arguments Throw {A} e.

Definition bindR {A B} (r : Result A) (k : A -> Result B) : Result B :=
  match r with
  | Ok a => k a
  | Throw e => Throw e
  end.

Notation "'try!' x <- r ; k" := (bindR r (fun x => k))
  (at level 10, x pattern, r at level 100, k at level 200).

(** ** JavaScript values and the built-in operations the server relies on *)

Module Js.

(** A number, when any double may arrive.  Finite doubles are rationals,
    and the order between two doubles is the order between the rationals
    they denote. *)
Inductive JsNumber : Type :=
  | NaN
  | NegInfinity
  | PosInfinity
  | Finite (q : Q).

(** [a < b] *)
Definition lt (a b : JsNumber) : bool :=
  match a, b with
  | NaN, _ | _, NaN => false
  | _, NegInfinity => false
  | NegInfinity, _ => true
  | PosInfinity, _ => false
  | Finite _, PosInfinity => true
  | Finite x, Finite y => negb (Qle_bool y x)
  end.

(** [a >= b] *)
Definition ge (a b : JsNumber) : bool :=
  match a, b with
  | NaN, _ | _, NaN => false
  | _, NegInfinity => true
  | NegInfinity, _ => false
  | PosInfinity, _ => true
  | Finite _, PosInfinity => false
  | Finite x, Finite y => Qle_bool y x
  end.

Definition ofZ (z : Z) : JsNumber := Finite (inject_Z z).

(** A value found in a JSON request body.  A number that is not an integer
    is kept as its text.  An object is kept as the text that the
    validation middleware makes of it, and an array as the texts that the
    middleware makes of its items, which it tests one by one. *)
Inductive JsVal : Type :=
  | JNull
  | JBool (b : bool)
  | JNum (z : Z)
  | JFraction (text : string)
  | JStr (s : string)
  | JObject (rendering : string)
  | JArray (items : list string).

(** [String(n)] for an integer [n]. *)
Definition decimal (n : Z) : string := NilZero.string_of_int (Z.to_int n).

(** White space and line terminators among the code units below 256:
    TAB, LF, VT, FF, CR, SP and NBSP. *)
Definition isWhiteSpace (c : ascii) : bool :=
  let n := nat_of_ascii c in
  ((9 <=? n) && (n <=? 13) || (n =? 32) || (n =? 160))%nat.

Fixpoint trimStart (s : string) : string :=
  match s with
  | EmptyString => EmptyString
  | String c s' => if isWhiteSpace c then trimStart s' else s
  end.

Fixpoint trimEnd (s : string) : string :=
  match s with
  | EmptyString => EmptyString
  | String c s' =>
      match trimEnd s' with
      | EmptyString => if isWhiteSpace c then EmptyString else String c EmptyString
      | r => String c r
      end
  end.

(** [String.prototype.trim] *)
Definition trim (s : string) : string := trimEnd (trimStart s).

(** The longest prefix of decimal digits, as a decimal numeral. *)
Fixpoint decimalPrefix (s : string) : Decimal.uint :=
  match s with
  | EmptyString => Decimal.Nil
  | String c s' =>
      match uint_of_char c (Some (decimalPrefix s')) with
      | Some d => d
      | None => Decimal.Nil
      end
  end.

Definition decimalValue (s : string) : option Z :=
  match decimalPrefix s with
  | Decimal.Nil => None
  | d => Some (Z.of_uint d)
  end.

Definition hexDigit (c : ascii) : option Z :=
  let n := Z.of_nat (nat_of_ascii c) in
  if ((48 <=? n) && (n <=? 57))%Z then Some (n - 48)%Z
  else if ((97 <=? n) && (n <=? 102))%Z then Some (n - 87)%Z
  else if ((65 <=? n) && (n <=? 70))%Z then Some (n - 55)%Z
  else None.

(** The value of the longest prefix of hexadecimal digits of [s], read
    after the digits accumulated in [acc]. *)
Fixpoint hexValueFrom (acc : option Z) (s : string) : option Z :=
  match s with
  | EmptyString => acc
  | String c s' =>
      match hexDigit c with
      | Some d => hexValueFrom (Some (16 * default 0%Z acc + d)%Z) s'
      | None => acc
      end
  end.

(** [parseInt(s)] with no radix argument; [None] is [NaN].  The result is
    exact; the rounding that a double applies beyond 2^53 is not modelled
    (every caller hands the result to a 32-bit integer column). *)
Definition parseInt (s : string) : option Z :=
  let s1 := trimStart s in
  let '(negative, s2) :=
    match s1 with
    | String "-" r => (true, r)
    | String "+" r => (false, r)
    | _ => (false, s1)
    end in
  let magnitude :=
    match s2 with
    | String "0" (String "x" r) => hexValueFrom None r
    | String "0" (String "X" r) => hexValueFrom None r
    | _ => decimalValue s2
    end in
  (fun m => if negative : bool then (- m)%Z else m) <$> magnitude.

(** [object.name(...)]: the call goes through when the object has a
    function under that name, and raises a [TypeError] when the property is
    [undefined].  [w] is the state that the call would act on. *)
Definition callMethod {F A W} (object name : string) (method : option F)
    (call : F -> Result A * W) (w : W) : Result A * W :=
  match method with
  | Some f => call f
  | None => (Throw (TypeError (object +:+ "." +:+ name +:+ " is not a function")), w)
  end.

End Js.

(** ** [server/cache.ts]: the node-cache wrapper *)

Module Cache.

(** node-cache keeps, per key, the value [v] and the expiry instant [t]
    (milliseconds; 0 when the entry never expires). *)
Record Entry (V : Type) : Type := mkEntry { v : V; t : Z }.
Arguments mkEntry {V} v t.
Arguments v {V} e.
Arguments t {V} e.

(** [String.prototype.startsWith] and [String.prototype.includes]. *)
Fixpoint startsWith (s p : string) {struct p} : bool :=
  match p with
  | EmptyString => true
  | String a p' =>
      match s with
      | EmptyString => false
      | String b s' => if Ascii.eqb a b then startsWith s' p' else false
      end
  end.

Fixpoint includes (s p : string) : bool :=
  startsWith s p ||
  match s with
  | EmptyString => false
  | String _ s' => includes s' p
  end.

Section Store.
Context {V : Type}.

(** [this.cache.keys()] is [Object.keys(this.data)]. *)
Definition keys (data : gmap string (Entry V)) : list string :=
  elements (dom data).

(** [this.cache.del(keys)]: every listed key that is present is removed. *)
Definition del (ks : list string) (data : gmap string (Entry V))
  : gmap string (Entry V) :=
  foldl (fun d k => match d !! k with Some _ => delete k d | None => d end)
        data ks.

(** [CacheManager.invalidatePattern]. *)
Definition invalidatePattern (pattern : string)
    (data : gmap string (Entry V)) : gmap string (Entry V) :=
  let keys := keys data in
  let matchingKeys := filter (fun key => includes key pattern = true) keys in
  del matchingKeys data.
End Store.

End Cache.

(** ** [shared/schema.ts]: the tables *)

(** An optional, nullable property of an insert or update object. *)
Inductive Field (A : Type) : Type :=
  | Absent            (* the property is missing or [undefined] *)
  | Null              (* the property is [null] *)
  | Given (a : A).
Arguments Absent {A}.
Arguments Null {A}.
Arguments Given {A} a.

(** The column value that an insert stores for a nullable column with
    default [d]. *)
Definition stored {A} (d : option A) (f : Field A) : option A :=
  match f with
  | Absent => d
  | Null => None
  | Given a => Some a
  end.

(** The column value after an update that carries [f], when it was [old]. *)
Definition updated {A} (old : option A) (f : Field A) : option A :=
  match f with
  | Absent => old
  | Null => None
  | Given a => Some a
  end.

Module User.
(** A row of [users].  [password] is [None] only in the copy of a row from
    which [authenticate] has erased it. *)
Record t : Type := mk {
  id : Z;
  username : string;
  email : string;
  password : option string;
  fullName : option string;
  phone : option string;
  role : string;
  isActive : bool;
  createdAt : Z;
  updatedAt : Z
}.

(** [typeof users.$inferInsert], without the columns that no caller
    supplies ([id], [createdAt], [updatedAt]). *)
Record insert : Type := mkInsert {
  i_username : string;
  i_email : string;
  i_password : string;
  i_fullName : Field string;
  i_phone : Field string;
  i_role : option string;
  i_isActive : option bool
}.
End User.

Module Category.
Record t : Type := mk {
  id : Z;
  name : string;
  description : option string;
  icon : option string;
  isActive : option bool;
  createdAt : option Z;
  updatedAt : option Z
}.

(** The output of [insertCategorySchema].  A JSON body cannot carry a
    [Date], so a timestamp property is either missing or [null]. *)
Record insert : Type := mkInsert {
  i_id : option Z;
  i_name : string;
  i_description : Field string;
  i_icon : Field string;
  i_isActive : Field bool;
  i_createdAt : Field Empty_set;
  i_updatedAt : Field Empty_set
}.
End Category.

Module Service.
Record t : Type := mk {
  id : Z;
  userId : string;
  categoryId : Z;
  title : string;
  description : option string;
  price : option Z;
  location : option string;
  contactPhone : option string;
  contactEmail : option string;
  availability : option string;
  isApproved : option bool;
  isFeatured : option bool;
  rating : option string;
  reviewCount : option Z;
  createdAt : option Z;
  updatedAt : option Z
}.

(** [.set({ isApproved: true, updatedAt: new Date() })] on one row. *)
Definition approve (now : Z) (s : t) : t :=
  mk (id s) (userId s) (categoryId s) (title s) (description s) (price s)
     (location s) (contactPhone s) (contactEmail s) (availability s)
     (Some true) (isFeatured s) (rating s) (reviewCount s)
     (createdAt s) (Some now).
End Service.

Module Ticket.
Inductive Status : Type := open | in_progress | resolved | closed.
Inductive Priority : Type := low | medium | high | urgent.

Record t : Type := mk {
  id : Z;
  ticketNumber : string;
  name : string;
  email : string;
  subject : string;
  message : string;
  status : option Status;
  priority : option Priority;
  categoryId : option Z;
  adminResponse : option string;
  createdAt : option Z;
  updatedAt : option Z
}.

(** The output of [insertSupportTicketSchema]; as for categories, a
    timestamp property is missing or [null]. *)
Record insert : Type := mkInsert {
  i_id : option Z;
  i_ticketNumber : string;
  i_name : string;
  i_email : string;
  i_subject : string;
  i_message : string;
  i_status : Field Status;
  i_priority : Field Priority;
  i_categoryId : Field Z;
  i_adminResponse : Field string;
  i_createdAt : Field Empty_set;
  i_updatedAt : Field Empty_set
}.

(** [Partial<InsertSupportTicket>]: every property may be missing.  A
    column that is [NOT NULL] has no [null] in its property type. *)
Record partial : Type := mkPartial {
  p_ticketNumber : option string;
  p_name : option string;
  p_email : option string;
  p_subject : option string;
  p_message : option string;
  p_status : Field Status;
  p_priority : Field Priority;
  p_categoryId : Field Z;
  p_adminResponse : Field string
}.

(** [.set({ ...ticket, updatedAt: new Date() })] on one row. *)
Definition set (p : partial) (now : Z) (r : t) : t :=
  mk (id r)
     (default (ticketNumber r) (p_ticketNumber p))
     (default (name r) (p_name p))
     (default (email r) (p_email p))
     (default (subject r) (p_subject p))
     (default (message r) (p_message p))
     (updated (status r) (p_status p))
     (updated (priority r) (p_priority p))
     (updated (categoryId r) (p_categoryId p))
     (updated (adminResponse r) (p_adminResponse p))
     (createdAt r)
     (Some now).
End Ticket.

(** ** [server/storage.ts]: the storage layer *)

Module Storage.

(** The database: the rows of each table in insertion order, and the next
    value of each [serial] sequence.  [supportCategories] keeps the ids
    only; they serve the foreign key of [support_tickets]. *)
Record Db : Type := mkDb {
  users : list User.t;
  users_seq : Z;
  categories : list Category.t;
  categories_seq : Z;
  services : list Service.t;
  supportCategories : list Z;
  supportTickets : list Ticket.t;
  supportTickets_seq : Z
}.

Definition set_users (rows : list User.t) (seq : Z) (db : Db) : Db :=
  mkDb rows seq (categories db) (categories_seq db) (services db)
       (supportCategories db) (supportTickets db) (supportTickets_seq db).

Definition set_categories (rows : list Category.t) (seq : Z) (db : Db) : Db :=
  mkDb (users db) (users_seq db) rows seq (services db)
       (supportCategories db) (supportTickets db) (supportTickets_seq db).

Definition set_services (rows : list Service.t) (db : Db) : Db :=
  mkDb (users db) (users_seq db) (categories db) (categories_seq db) rows
       (supportCategories db) (supportTickets db) (supportTickets_seq db).

Definition set_supportTickets (rows : list Ticket.t) (seq : Z) (db : Db) : Db :=
  mkDb (users db) (users_seq db) (categories db) (categories_seq db)
       (services db) (supportCategories db) rows seq.

(** Binding a JavaScript number to an [integer] column: [NaN] and values
    outside 32 bits are refused by the database. *)
Definition int4 (n : Z) : bool := ((- 2 ^ 31 <=? n) && (n <? 2 ^ 31))%Z.

Definition bindInteger (v : option Z) : Result Z :=
  match v with
  | None => Throw (DbError "invalid input syntax for type integer")
  | Some n => if int4 n then Ok n else Throw (DbError "integer out of range")
  end.

(** [const [row] = await query]: the first row, or [undefined]. *)
Definition first {A} (rows : list A) : option A := head rows.

(** *** Users *)

Definition getUser (id : string) (db : Db) : Result (option User.t) :=
  try! n <- bindInteger (Js.parseInt id);
  Ok (first (filter (fun u => User.id u = n) (users db))).

Definition getUserByUsername (username : string) (db : Db) : option User.t :=
  first (filter (fun u => User.username u = username) (users db)).

Definition getUserByEmail (email : string) (db : Db) : option User.t :=
  first (filter (fun u => User.email u = email) (users db)).

(** [createUser]: the row takes the next sequence value whether or not the
    insert then succeeds; [username] and [email] are unique. *)
Definition createUser (data : User.insert) (now : Z) (db : Db)
  : Result User.t * Db :=
  let row :=
    User.mk (users_seq db) (User.i_username data) (User.i_email data)
            (Some (User.i_password data))
            (stored None (User.i_fullName data))
            (stored None (User.i_phone data))
            (default "user" (User.i_role data))
            (default true (User.i_isActive data))
            now now in
  if bool_decide (Exists (fun u => User.id u = User.id row
                                   \/ User.username u = User.username row
                                   \/ User.email u = User.email row) (users db))
  then (Throw (DbError "duplicate key value violates unique constraint"),
        set_users (users db) (users_seq db + 1) db)
  else (Ok row, set_users (users db ++ [row]) (users_seq db + 1) db).

(** *** Categories *)

Definition createCategory (data : Category.insert) (now : Z) (db : Db)
  : Result Category.t * Db :=
  let '(id, seq) :=
    match Category.i_id data with
    | Some id => (id, categories_seq db)
    | None => (categories_seq db, (categories_seq db + 1)%Z)
    end in
  let row :=
    Category.mk id (Category.i_name data)
                (stored None (Category.i_description data))
                (stored None (Category.i_icon data))
                (stored (Some true) (Category.i_isActive data))
                (match Category.i_createdAt data with Absent => Some now | _ => None end)
                (match Category.i_updatedAt data with Absent => Some now | _ => None end) in
  if negb (int4 id)
  then (Throw (DbError "integer out of range"), db)
  else if bool_decide (Exists (fun c => Category.id c = id
                                        \/ Category.name c = Category.name row)
                              (categories db))
  then (Throw (DbError "duplicate key value violates unique constraint"),
        set_categories (categories db) seq db)
  else (Ok row, set_categories (categories db ++ [row]) seq db).

(** *** Services *)

(** [approveService]: every row with the given id is updated, and the
    first updated row is returned. *)
Definition approveService (id : option Z) (now : Z) (db : Db)
  : Result (option Service.t) * Db :=
  match bindInteger id with
  | Throw e => (Throw e, db)
  | Ok n =>
      let rows :=
        map (fun s => if bool_decide (Service.id s = n)
                      then Service.approve now s else s) (services db) in
      (Ok (first (filter (fun s => Service.id s = n) rows)),
       set_services rows db)
  end.

(** *** Support tickets *)

Definition foreignKeyHolds (categoryId : option Z) (db : Db) : bool :=
  match categoryId with
  | None => true
  | Some c => bool_decide (c ∈ supportCategories db)
  end.

(** [createSupportTicket], called at clock reading [now] (milliseconds). *)
Definition createSupportTicket (ticket : Ticket.insert) (now : Z) (db : Db)
  : Result Ticket.t * Db :=
  let ticketNumber := "ST-" +:+ Js.decimal now in
  let '(id, seq) :=
    match Ticket.i_id ticket with
    | Some id => (id, supportTickets_seq db)
    | None => (supportTickets_seq db, (supportTickets_seq db + 1)%Z)
    end in
  let row :=
    Ticket.mk id ticketNumber
              (Ticket.i_name ticket) (Ticket.i_email ticket)
              (Ticket.i_subject ticket) (Ticket.i_message ticket)
              (stored (Some Ticket.open) (Ticket.i_status ticket))
              (stored (Some Ticket.medium) (Ticket.i_priority ticket))
              (stored None (Ticket.i_categoryId ticket))
              (stored None (Ticket.i_adminResponse ticket))
              (match Ticket.i_createdAt ticket with Absent => Some now | _ => None end)
              (match Ticket.i_updatedAt ticket with Absent => Some now | _ => None end) in
  if negb (int4 id)
  then (Throw (DbError "integer out of range"), db)
  else if bool_decide (Exists (fun r => Ticket.id r = id
                                        \/ Ticket.ticketNumber r = ticketNumber)
                              (supportTickets db))
          || negb (foreignKeyHolds (Ticket.categoryId row) db)
  then (Throw (DbError "constraint violation"),
        set_supportTickets (supportTickets db) seq db)
  else (Ok row, set_supportTickets (supportTickets db ++ [row]) seq db).

(** [updateSupportTicket]: every row with the given id is updated, and the
    first updated row is returned.  The database refuses the update when
    it gives a ticket number that another row has, or a category that does
    not exist. *)
Definition updateSupportTicket (id : Z) (ticket : Ticket.partial) (now : Z) (db : Db)
  : Result (option Ticket.t) * Db :=
  match bindInteger (Some id) with
  | Throw e => (Throw e, db)
  | Ok n =>
      let rows :=
        map (fun r => if bool_decide (Ticket.id r = n)
                      then Ticket.set ticket now r else r) (supportTickets db) in
      let changed := filter (fun r => Ticket.id r = n) rows in
      let others := filter (fun r => Ticket.id r <> n) rows in
      let duplicateNumber :=
        match Ticket.p_ticketNumber ticket, changed with
        | Some number, [_] =>
            bool_decide (Exists (fun r => Ticket.ticketNumber r = number) others)
        | Some _, _ :: _ :: _ => true
        | _, _ => false
        end in
      let missingCategory :=
        match Ticket.p_categoryId ticket, changed with
        | Given c, _ :: _ => negb (bool_decide (c ∈ supportCategories db))
        | _, _ => false
        end in
      if duplicateNumber || missingCategory
      then (Throw (DbError "constraint violation"), db)
      else (Ok (first changed),
            set_supportTickets rows (supportTickets_seq db) db)
  end.

(** The names of the methods that class [DatabaseStorage] defines. *)
Definition DatabaseStorage_methods : list string :=
  [ "getUser"; "getUserByUsername"; "getUserByEmail"; "createUser"; "updateUser";
    "getCategories"; "getCategoryById"; "createCategory"; "updateCategory";
    "deleteCategory"; "getServices"; "getServiceById"; "getServicesByUserId";
    "createService"; "updateService"; "deleteService"; "approveService";
    "featureService"; "getContent"; "getContentByKey"; "createContent";
    "updateContent"; "deleteContent"; "getSuggestions"; "createSuggestion";
    "updateSuggestionStatus"; "getDonations"; "createDonation";
    "updateDonationStatus"; "getMessagesByServiceId"; "createMessage";
    "getReviewsByServiceId"; "createReview"; "approveReview"; "deleteReview";
    "getAdvertisements"; "getActiveAdvertisements";
    "getAdvertisementsByPosition"; "createAdvertisement";
    "updateAdvertisement"; "updateAdvertisementStatus"; "deleteAdvertisement";
    "getSupportCategories"; "createSupportCategory"; "getSupportArticles";
    "getSupportArticleBySlug"; "createSupportArticle"; "updateSupportArticle";
    "getFaqItems"; "createFaqItem"; "getSupportTickets"; "createSupportTicket";
    "updateSupportTicket" ].

End Storage.

(** ** The [jsonwebtoken] library, as far as [server/auth.ts] uses it *)

Module Jwt.

(** The claims carried by a token.  [jwt.sign] adds [exp]; [version] and
    [type] are absent from tokens that were signed without them. *)
Record Payload : Type := mkPayload {
  userId : Z;
  version : option Z;
  type_ : option string;
  iat : Z;
  exp : Z
}.

(** A token string is either the serialisation of a payload signed under
    some key, or text that does not parse as a token.  Signatures are taken
    to be unforgeable: a token verifies under a key exactly when it was
    signed under that key. *)
Inductive Token : Type :=
  | Signed (p : Payload) (key : string)
  | Malformed (raw : string).

(** [Math.floor(Date.now() / 1000)] for a clock reading in milliseconds. *)
Definition seconds (now : Z) : Z := (now / 1000)%Z.

(** [jwt.sign(payload, key, { expiresIn })] for a payload that carries its
    own [iat]: the expiry is counted from that [iat]. *)
Definition jwt_sign (uid : Z) (ver : option Z) (ty : option string)
    (issuedAt : Z) (key : string) (expiresIn : Z) : Token :=
  Signed (mkPayload uid ver ty issuedAt (issuedAt + expiresIn)) key.

(** [jwt.verify(token, key)] at clock reading [now]. *)
Definition jwt_verify (token : Token) (key : string) (now : Z) : Result Payload :=
  match token with
  | Malformed _ => Throw (Error "jwt malformed")
  | Signed p k =>
      if negb (String.eqb k key) then Throw (Error "invalid signature")
      else if (exp p <=? seconds now)%Z then Throw (Error "jwt expired")
      else Ok p
  end.

End Jwt.

(** ** [server/websocket.ts]: the connection registry *)

Module WebSocket.

(** A socket object, known by its identity. *)
Definition Socket : Type := nat.

(** [req.userId]: the decimal user id that [verifyClient] stored on the
    request, or [undefined] when it stored none. *)
Definition UserKey : Type := option string.

(** The registry, together with the [close] listeners that
    [handleConnection] has attached and that have not fired yet: each is a
    closure over the socket it is attached to and over the [userId] and
    [connectionId] of its connection. *)
Record State : Type := mkState {
  connections : gmap string Socket;
  userConnections : gmap UserKey (gset string);
  listeners : list (Socket * UserKey * string)
}.

Definition initial : State := mkState ∅ ∅ [].

(** [generateConnectionId()], for the clock reading [now] and the suffix
    [rnd] that [Math.random().toString(36).substring(7)] produced. *)
Definition generateConnectionId (now : Z) (rnd : string) : string :=
  "conn_" +:+ Js.decimal now +:+ "_" +:+ rnd.

(** The registry part of [handleConnection(ws, req)]. *)
Definition handleConnection (ws : Socket) (userId : UserKey)
    (now : Z) (rnd : string) (s : State) : State :=
  let connectionId := generateConnectionId now rnd in
  let connections1 := <[connectionId := ws]> (connections s) in
  let users1 :=
    match userConnections s !! userId with
    | Some _ => userConnections s
    | None => <[userId := ∅]> (userConnections s)
    end in
  let users2 := alter (fun ids => ids ∪ {[connectionId]}) userId users1 in
  mkState connections1 users2 (listeners s ++ [(ws, userId, connectionId)]).

(** The body of the [close] listener of one connection. *)
Definition onClose (userId : UserKey) (connectionId : string)
    (conns : gmap string Socket) (users : gmap UserKey (gset string))
  : gmap string Socket * gmap UserKey (gset string) :=
  let conns1 := delete connectionId conns in
  let users1 := alter (fun ids => ids ∖ {[connectionId]}) userId users in
  let users2 :=
    match users1 !! userId with
    | Some ids => if (size ids =? 0)%nat then delete userId users1 else users1
    | None => users1
    end in
  (conns1, users2).

(** Socket [ws] emits [close]: its listeners run in the order in which they
    were attached, and never again. *)
Definition handleClose (ws : Socket) (s : State) : State :=
  let fired := filter (fun l => l.1.1 = ws) (listeners s) in
  let kept := filter (fun l => l.1.1 <> ws) (listeners s) in
  let '(conns, users) :=
    foldl (fun cu l => onClose l.1.2 l.2 cu.1 cu.2)
          (connections s, userConnections s) fired in
  mkState conns users kept.

Inductive Event : Type :=
  | Connection (ws : Socket) (userId : UserKey) (now : Z) (rnd : string)
  | Close (ws : Socket).

Definition step (s : State) (e : Event) : State :=
  match e with
  | Connection ws userId now rnd => handleConnection ws userId now rnd s
  | Close ws => handleClose ws s
  end.

Definition run (s : State) (events : list Event) : State := foldl step s events.

(** Every [Connection] event of the run draws an id that is not a key of
    [connections] at that moment. *)
Fixpoint freshIds (s : State) (events : list Event) : Prop :=
  match events with
  | [] => True
  | e :: rest =>
      match e with
      | Connection _ _ now rnd => connections s !! generateConnectionId now rnd = None
      | Close _ => True
      end /\ freshIds (step s e) rest
  end.

(** The set of [userId] contains [connectionId]. *)
Definition ownsIn (users : gmap UserKey (gset string))
    (userId : UserKey) (connectionId : string) : Prop :=
  exists ids, users !! userId = Some ids /\ connectionId ∈ ids.

Definition owns (s : State) : UserKey -> string -> Prop :=
  ownsIn (userConnections s).

(** The registry invariant, in the words of the specification. *)
Definition registryInvariant (s : State) : Prop :=
  (forall userId connectionId,
      owns s userId connectionId -> is_Some (connections s !! connectionId))
  /\ (forall connectionId, is_Some (connections s !! connectionId) ->
      exists userId, owns s userId connectionId
        /\ forall other, owns s other connectionId -> other = userId)
  /\ (forall userId ids, userConnections s !! userId = Some ids -> ids <> ∅).

(** What the pending listeners add to the invariant: each belongs to a
    registered connection, and no two share a connection id. *)
Definition listenersInvariant (s : State) : Prop :=
  (forall ws userId connectionId, (ws, userId, connectionId) ∈ listeners s ->
      connections s !! connectionId = Some ws /\ owns s userId connectionId)
  /\ NoDup (map snd (listeners s)).

Definition fullInvariant (s : State) : Prop :=
  registryInvariant s /\ listenersInvariant s.

End WebSocket.

(** ** Requests and responses *)

Module Http.

(** What a handler passes to [res.json]. *)
Inductive Body : Type :=
  | Message (message : string)
  | MessageErrors (message : string) (errors : list string)
  | Registered (user : User.t) (token : Jwt.Token) (message : string)
  | JsonService (service : option Service.t)
  | JsonCategory (category : Category.t)
  | JsonTicket (ticket : Ticket.t).

Record Response : Type := mkResponse { status : Z; body : Body }.

(** The parts of a request that the modelled routes read.  [bearer] is the
    token that follows ["Bearer "] in the [Authorization] header;
    [sessionUserId] is [req.session.userId]. *)
Record Request : Type := mkRequest {
  bearer : option Jwt.Token;
  sessionUserId : option Z;
  hasSession : bool;
  params_id : string;
  json : gmap string Js.JsVal
}.

(** A middleware either answers the request or calls [next()]. *)
Inductive Outcome (A : Type) : Type :=
  | Respond (r : Response)
  | Next (a : A).
Arguments Respond {A} r.
Arguments Next {A} a.

End Http.

(** ** [server/auth.ts]: token issuance, token checking, middleware *)

Module Auth.
Import Jwt.

Section WithEnvironment.
(** [process.env.JWT_SECRET] *)
Variable env_JWT_SECRET : option string.

Definition JWT_SECRET : string :=
  match env_JWT_SECRET with
  | Some s => if String.eqb s "" then
                "development_jwt_secret_change_in_production_ABC123DEF456GHI789XYZ"
              else s
  | None => "development_jwt_secret_change_in_production_ABC123DEF456GHI789XYZ"
  end.

(** [generateToken(userId, version = 1)] at clock reading [now]. *)
Definition generateToken (uid : Z) (ver : option Z) (now : Z) : Token :=
  jwt_sign uid (Some (default 1%Z ver)) None (seconds now)
           JWT_SECRET (24 * 60 * 60).

(** [generateRefreshToken(userId, version = 1)] at clock reading [now]. *)
Definition generateRefreshToken (uid : Z) (ver : option Z) (now : Z) : Token :=
  jwt_sign uid (Some (default 1%Z ver)) (Some "refresh") (seconds now)
           JWT_SECRET (7 * 24 * 60 * 60).

(** [Date.now() / 1000 - decoded.iat], a fraction of seconds.  The clock
    is a whole number of milliseconds, so the comparison with
    [12 * 60 * 60] below has the same outcome in double precision as in
    exact arithmetic. *)
Definition tokenAge (now : Z) (decoded : Payload) : Q :=
  (inject_Z now / 1000 - inject_Z (iat decoded))%Q.

Definition isRefresh (decoded : Payload) : bool :=
  match type_ decoded with
  | Some ty => String.eqb ty "refresh"
  | None => false
  end.

(** [verifyToken(token)] at clock reading [now]; [None] is [null]. *)
Definition verifyToken (token : Token) (now : Z) : option Payload :=
  match jwt_verify token JWT_SECRET now with
  | Ok decoded =>
      if negb (Qle_bool (tokenAge now decoded) (12 * 60 * 60))
         && negb (isRefresh decoded)
      then None
      else Some decoded
  | Throw _ => None
  end.

(** [Number.MAX_SAFE_INTEGER] *)
Definition MAX_SAFE_INTEGER : Z := (2 ^ 53 - 1)%Z.

(** The characters of [/^[A-Za-z0-9\-_\.]+$/]. *)
Definition isTokenChar (c : ascii) : bool :=
  let n := nat_of_ascii c in
  ((65 <=? n) && (n <=? 90) || (97 <=? n) && (n <=? 122)
   || (48 <=? n) && (n <=? 57) || (n =? 45) || (n =? 95) || (n =? 46))%nat.

(** The two format tests that [authenticate] applies to the token text.
    The serialisation of a signed token consists of base64url characters
    and dots and is between 10 and 500 characters long. *)
Definition tokenFormatOk (token : Token) : bool :=
  match token with
  | Signed _ _ => true
  | Malformed raw =>
      negb ((500 <? String.length raw) || (String.length raw <? 10))%nat
      && forallb isTokenChar (list_ascii_of_string raw)
  end.

(** A user id that is neither [null] nor [0]. *)
Definition truthy (v : option Z) : bool :=
  match v with
  | Some n => negb (n =? 0)%Z
  | None => false
  end.

Definition unauthorized (message : string) : Http.Outcome User.t :=
  Http.Respond (Http.mkResponse 401 (Http.Message message)).

(** [authenticate(req, res, next)] at clock reading [now]; [Next u] is
    [next()] with [req.user] set to [u]. *)
Definition authenticate (req : Http.Request) (now : Z) (db : Storage.Db)
  : Http.Outcome User.t :=
  match
    match Http.bearer req with
    | Some token =>
        if negb (tokenFormatOk token) then None
        else Some (userId <$> verifyToken token now)
    | None => Some None
    end
  with
  | None => unauthorized "Invalid token format"
  | Some fromToken =>
      let userId :=
        match Http.sessionUserId req with
        | Some s =>
            if negb (truthy fromToken) && negb (s =? 0)%Z
               && (0 <? s)%Z && (s <? MAX_SAFE_INTEGER)%Z
            then Some s else fromToken
        | None => fromToken
        end in
      match userId with
      | None => unauthorized "Unauthorized"
      | Some u =>
          if negb (truthy userId) then unauthorized "Unauthorized"
          else if ((u <=? 0) || (MAX_SAFE_INTEGER <? u))%Z
          then unauthorized "Invalid user ID"
          else
            match Storage.getUser (Js.decimal u) db with
            | Throw _ => unauthorized "Unauthorized"
            | Ok None => unauthorized "Unauthorized"
            | Ok (Some user) =>
                if negb (User.isActive user) then unauthorized "Unauthorized"
                else
                  Http.Next
                    (User.mk (User.id user) (User.username user) (User.email user)
                             None (User.fullName user) (User.phone user)
                             (User.role user) (User.isActive user)
                             (User.createdAt user) (User.updatedAt user))
            end
      end
  end.
End WithEnvironment.

(** [requireRole(roles)], applied to [req.user]. *)
Definition requireRole (roles : list string) (user : option User.t)
  : Http.Outcome unit :=
  match user with
  | Some u =>
      if bool_decide (User.role u ∈ roles) then Http.Next tt
      else Http.Respond (Http.mkResponse 403 (Http.Message "Forbidden"))
  | None => Http.Respond (Http.mkResponse 403 (Http.Message "Forbidden"))
  end.

Definition requireAdmin : option User.t -> Http.Outcome unit := requireRole ["admin"].

End Auth.

(** ** [server/routes.ts]: validation and the route handlers *)

Module Routes.
Import Js Http.

(** *** Character classes of the validation patterns *)

Definition code (c : ascii) : nat := nat_of_ascii c.

Definition isLower (c : ascii) : bool := ((97 <=? code c) && (code c <=? 122))%nat.
Definition isUpper (c : ascii) : bool := ((65 <=? code c) && (code c <=? 90))%nat.
Definition isDigit (c : ascii) : bool := ((48 <=? code c) && (code c <=? 57))%nat.

(** [[a-zA-Z0-9_]] *)
Definition isWordChar (c : ascii) : bool :=
  isLower c || isUpper c || isDigit c || (code c =? 95)%nat.

(** [[@$!%*?&]] *)
Definition isPasswordSymbol (c : ascii) : bool :=
  bool_decide (code c ∈ [64; 36; 33; 37; 42; 63; 38]).

(** [[A-Za-z\d@$!%*?&]] *)
Definition isPasswordChar (c : ascii) : bool :=
  isLower c || isUpper c || isDigit c || isPasswordSymbol c.

(** The accented letters of the name pattern: á é í ó ú Á É Í Ó Ú ñ Ñ. *)
Definition isAccented (c : ascii) : bool :=
  bool_decide (code c ∈ [225; 233; 237; 243; 250; 193; 201; 205; 211; 218; 241; 209]).

(** [[a-zA-ZáéíóúÁÉÍÓÚñÑ\s]] *)
Definition isNameChar (c : ascii) : bool :=
  isLower c || isUpper c || isAccented c || isWhiteSpace c.

(** [[\d\s\-\(\)]] *)
Definition isPhoneChar (c : ascii) : bool :=
  isDigit c || isWhiteSpace c || bool_decide (code c ∈ [45; 40; 41]).

(** A character that [.] does not match. *)
Definition isLineTerminator (c : ascii) : bool :=
  bool_decide (code c ∈ [10; 13]).

Definition chars (s : string) : list ascii := list_ascii_of_string s.

(** [isLength({ min, max })] *)
Definition isLength (min max : nat) (s : string) : bool :=
  ((min <=? String.length s) && (String.length s <=? max))%nat.

(** [/^[a-zA-Z0-9_]+$/] *)
Definition matchesUsername (s : string) : bool :=
  negb (String.eqb s "") && forallb isWordChar (chars s).

(** The characters before the first line terminator. *)
Fixpoint firstLine (cs : list ascii) : list ascii :=
  match cs with
  | [] => []
  | c :: cs' => if isLineTerminator c then [] else c :: firstLine cs'
  end.

(** [/^(?=.*[a-z])(?=.*[A-Z])(?=.*\d)(?=.*[@$!%*?&])[A-Za-z\d@$!%*?&]/]:
    each look-ahead searches the first line of the text. *)
Definition matchesPassword (s : string) : bool :=
  let line := firstLine (chars s) in
  existsb isLower line && existsb isUpper line && existsb isDigit line
  && existsb isPasswordSymbol line
  && match chars s with
     | c :: _ => isPasswordChar c
     | [] => false
     end.

(** [/^[a-zA-ZáéíóúÁÉÍÓÚñÑ\s]+$/] *)
Definition matchesFullName (s : string) : bool :=
  negb (String.eqb s "") && forallb isNameChar (chars s).

(** [/^\+?[\d\s\-\(\)]{7,15}$/] *)
Definition matchesPhone (s : string) : bool :=
  let rest (t : string) :=
    isLength 7 15 t && forallb isPhoneChar (chars t) in
  rest s || match s with
            | String "+" t => rest t
            | _ => false
            end.

(** The text that the validation middleware makes of a value that is not
    an array. *)
Definition render (v : JsVal) : string :=
  match v with
  | JNull => ""
  | JBool b => if b then "true" else "false"
  | JNum z => decimal z
  | JFraction text => text
  | JStr s => s
  | JObject rendering => rendering
  | JArray _ => ""
  end.

(** The texts that a validator of the middleware tests for a body
    property: one for a missing property or a value that is not an array,
    and one per item for an array. *)
Definition fieldTexts (body : gmap string JsVal) (field : string) : list string :=
  match body !! field with
  | None => [""]
  | Some (JArray items) => items
  | Some v => [render v]
  end.

(** [encode] of the html-entities package with its default options. *)
Definition encodeChar (c : ascii) : string :=
  if (code c =? 38)%nat then "&amp;"
  else if (code c =? 60)%nat then "&lt;"
  else if (code c =? 62)%nat then "&gt;"
  else if (code c =? 34)%nat then "&quot;"
  else if (code c =? 39)%nat then "&apos;"
  else String c EmptyString.

Fixpoint encode (s : string) : string :=
  match s with
  | EmptyString => EmptyString
  | String c s' => encodeChar c +:+ encode s'
  end.

(** *** Schemas *)

Definition requiredString (body : gmap string JsVal) (field : string)
  : option string :=
  match body !! field with
  | Some (JStr s) => Some s
  | _ => None
  end.

Definition optionalString (body : gmap string JsVal) (field : string)
  : option (Field string) :=
  match body !! field with
  | None => Some Absent
  | Some JNull => Some Null
  | Some (JStr s) => Some (Given s)
  | Some _ => None
  end.

Definition optionalBoolean (body : gmap string JsVal) (field : string)
  : option (Field bool) :=
  match body !! field with
  | None => Some Absent
  | Some JNull => Some Null
  | Some (JBool b) => Some (Given b)
  | Some _ => None
  end.

Definition optionalInteger (body : gmap string JsVal) (field : string)
  : option (Field Z) :=
  match body !! field with
  | None => Some Absent
  | Some JNull => Some Null
  | Some (JNum z) => Some (Given z)
  | Some _ => None
  end.

(** A property that is not nullable: the value, if any. *)
Definition optionalId (body : gmap string JsVal) (field : string)
  : option (option Z) :=
  match body !! field with
  | None => Some None
  | Some (JNum z) => Some (Some z)
  | Some _ => None
  end.

Definition optionalDate (body : gmap string JsVal) (field : string)
  : option (Field Empty_set) :=
  match body !! field with
  | None => Some Absent
  | Some JNull => Some Null
  | Some _ => None
  end.

Definition optionalStatus (body : gmap string JsVal) (field : string)
  : option (Field Ticket.Status) :=
  match body !! field with
  | None => Some Absent
  | Some JNull => Some Null
  | Some (JStr s) =>
      if String.eqb s "open" then Some (Given Ticket.open)
      else if String.eqb s "in_progress" then Some (Given Ticket.in_progress)
      else if String.eqb s "resolved" then Some (Given Ticket.resolved)
      else if String.eqb s "closed" then Some (Given Ticket.closed)
      else None
  | Some _ => None
  end.

Definition optionalPriority (body : gmap string JsVal) (field : string)
  : option (Field Ticket.Priority) :=
  match body !! field with
  | None => Some Absent
  | Some JNull => Some Null
  | Some (JStr s) =>
      if String.eqb s "low" then Some (Given Ticket.low)
      else if String.eqb s "medium" then Some (Given Ticket.medium)
      else if String.eqb s "high" then Some (Given Ticket.high)
      else if String.eqb s "urgent" then Some (Given Ticket.urgent)
      else None
  | Some _ => None
  end.

(** The issue list of a parse: the names of the properties that failed. *)
Definition issue {A} (field : string) (parsed : option A) : list string :=
  match parsed with
  | Some _ => []
  | None => [field]
  end.

(** [schema.parse]: the parsed object when every property parses, and
    otherwise a [ZodError] that lists the failing properties. *)
Definition parseResult {A} (parsed : option A) (issues : list string) : Result A :=
  match parsed with
  | Some a => Ok a
  | None => Throw (ZodError issues)
  end.

(** [registerSchema.parse(body)] *)
Definition registerSchema_parse (body : gmap string JsVal) : Result User.insert :=
  let username := requiredString body "username" in
  let email := requiredString body "email" in
  let password := requiredString body "password" in
  let fullName := optionalString body "fullName" in
  let phone := optionalString body "phone" in
  parseResult
    (u ← username; e ← email; p ← password; f ← fullName; ph ← phone;
     Some (User.mkInsert u e p f ph None None))
    (issue "username" username ++ issue "email" email
     ++ issue "password" password ++ issue "fullName" fullName
     ++ issue "phone" phone).

(** [insertCategorySchema.parse(body)] *)
Definition insertCategorySchema_parse (body : gmap string JsVal)
  : Result Category.insert :=
  let id := optionalId body "id" in
  let name := requiredString body "name" in
  let description := optionalString body "description" in
  let icon := optionalString body "icon" in
  let isActive := optionalBoolean body "isActive" in
  let createdAt := optionalDate body "createdAt" in
  let updatedAt := optionalDate body "updatedAt" in
  parseResult
    (i ← id; n ← name; d ← description; ic ← icon; a ← isActive;
     c ← createdAt; u ← updatedAt;
     Some (Category.mkInsert i n d ic a c u))
    (issue "id" id ++ issue "name" name ++ issue "description" description
     ++ issue "icon" icon ++ issue "isActive" isActive
     ++ issue "createdAt" createdAt ++ issue "updatedAt" updatedAt).

(** [insertSupportTicketSchema.parse(body)] *)
Definition insertSupportTicketSchema_parse (body : gmap string JsVal)
  : Result Ticket.insert :=
  let id := optionalId body "id" in
  let ticketNumber := requiredString body "ticketNumber" in
  let name := requiredString body "name" in
  let email := requiredString body "email" in
  let subject := requiredString body "subject" in
  let message := requiredString body "message" in
  let status := optionalStatus body "status" in
  let priority := optionalPriority body "priority" in
  let categoryId := optionalInteger body "categoryId" in
  let adminResponse := optionalString body "adminResponse" in
  let createdAt := optionalDate body "createdAt" in
  let updatedAt := optionalDate body "updatedAt" in
  parseResult
    (i ← id; t ← ticketNumber; n ← name; e ← email; s ← subject; m ← message;
     st ← status; p ← priority; c ← categoryId; a ← adminResponse;
     ca ← createdAt; ua ← updatedAt;
     Some (Ticket.mkInsert i t n e s m st p c a ca ua))
    (issue "id" id ++ issue "ticketNumber" ticketNumber ++ issue "name" name
     ++ issue "email" email ++ issue "subject" subject
     ++ issue "message" message ++ issue "status" status
     ++ issue "priority" priority ++ issue "categoryId" categoryId
     ++ issue "adminResponse" adminResponse ++ issue "createdAt" createdAt
     ++ issue "updatedAt" updatedAt).

(** *** Handlers *)

Definition respond (status : Z) (message : string) : Response :=
  mkResponse status (Message message).

Section WithLibraries.
(** [process.env.JWT_SECRET] *)
Variable env_JWT_SECRET : option string.
(** [isEmail] and [normalizeEmail] of the validator package; the latter
    answers [false] ([None]) for text it cannot split into two parts. *)
Variable isEmail : string -> bool.
Variable normalizeEmail : string -> option string.
(** [bcrypt.hash(password, SALT_ROUNDS)] *)
Variable hashPassword : string -> string.

(** One validator of a chain: an error for every tested text that fails. *)
Definition check (field : string) (test : string -> bool) (texts : list string)
  : list string :=
  flat_map (fun text => if test text then [] else [field]) texts.

(** The [normalizeEmail] sanitizer: a value that is not an array is
    replaced by the normal form of its text, and an array by the array of
    the normal forms of its items. *)
Definition normalized (text : string) : JsVal :=
  match normalizeEmail text with
  | Some e => JStr e
  | None => JBool false
  end.

Definition sanitizeEmail (body : gmap string JsVal) : gmap string JsVal :=
  match body !! "email" with
  | Some (JArray items) => <["email" := JArray (render <$> (normalized <$> items))]> body
  | Some v => <["email" := normalized (render v)]> body
  | None => <["email" := normalized ""]> body
  end.

(** [validateRegistration]: the failing properties, one entry per failing
    test, and the body after the sanitizer. *)
Definition validateRegistration (body : gmap string JsVal)
  : list string * gmap string JsVal :=
  let username := fieldTexts body "username" in
  let email := fieldTexts body "email" in
  let password := fieldTexts body "password" in
  let fullName := fieldTexts body "fullName" in
  let phone := fieldTexts body "phone" in
  (check "username" (isLength 3 50) username
   ++ check "username" matchesUsername username
   ++ check "email" isEmail email
   ++ check "password" (isLength 8 128) password
   ++ check "password" matchesPassword password
   ++ check "fullName" (isLength 2 100) fullName
   ++ check "fullName" matchesFullName fullName
   ++ check "phone" matchesPhone phone,
   sanitizeEmail body).

(** The loop of [sanitizeInput] over the properties of the body. *)
Definition sanitizeBody (body : gmap string JsVal) : gmap string JsVal :=
  (fun v => match v with
            | JStr s => JStr (encode (trim s))
            | _ => v
            end) <$> body.

(** [sanitizeInput]: answers 400 when validation left errors, and
    otherwise trims and encodes every string property of the body. *)
Definition sanitizeInput (errors : list string) (body : gmap string JsVal)
  : Outcome (gmap string JsVal) :=
  match errors with
  | _ :: _ => Respond (mkResponse 400 (MessageErrors "Invalid input data" errors))
  | [] => Next (sanitizeBody body)
  end.

(** The handler of [POST /api/register], after its middleware. *)
Definition registerHandler (hasSession : bool) (body : gmap string JsVal)
    (now : Z) (db : Storage.Db) : Response * Storage.Db * option Z :=
  match registerSchema_parse body with
  | Throw (ZodError issues) =>
      (mkResponse 400 (MessageErrors "Invalid input data" issues), db, None)
  | Throw _ => (respond 500 "Registration failed", db, None)
  | Ok validated =>
      match Storage.getUserByUsername (User.i_username validated) db with
      | Some _ => (respond 400 "Username already exists", db, None)
      | None =>
          match Storage.getUserByEmail (User.i_email validated) db with
          | Some _ => (respond 400 "Email already exists", db, None)
          | None =>
              let hashedPassword := hashPassword (User.i_password validated) in
              match Storage.createUser
                      (User.mkInsert (User.i_username validated)
                         (User.i_email validated) hashedPassword
                         (User.i_fullName validated) (User.i_phone validated)
                         (User.i_role validated) (User.i_isActive validated))
                      now db with
              | (Throw _, db') => (respond 500 "Registration failed", db', None)
              | (Ok user, db') =>
                  let token := Auth.generateToken env_JWT_SECRET (User.id user) None now in
                  (mkResponse 201
                     (Registered
                        (User.mk (User.id user) (User.username user)
                           (User.email user) None (User.fullName user)
                           (User.phone user) (User.role user)
                           (User.isActive user) (User.createdAt user)
                           (User.updatedAt user))
                        token "User registered successfully"),
                   db',
                   if hasSession then Some (User.id user) else None)
              end
          end
      end
  end.

(** [POST /api/register]: [validateRegistration], [sanitizeInput], handler.
    The third component is the value written to [req.session.userId]. *)
Definition postRegister (req : Request) (now : Z) (db : Storage.Db)
  : Response * Storage.Db * option Z :=
  let '(errors, body) := validateRegistration (json req) in
  match sanitizeInput errors body with
  | Respond r => (r, db, None)
  | Next body' => registerHandler (hasSession req) body' now db
  end.

(** The field errors that a registration request draws: those of the
    validation middleware or, when it has none, those of the schema. *)
Definition registrationIssues (req : Request) : list string :=
  let '(errors, body) := validateRegistration (json req) in
  match errors with
  | [] =>
      match registerSchema_parse (sanitizeBody body) with
      | Throw (ZodError issues) => issues
      | _ => []
      end
  | _ => errors
  end.

(** [PATCH /api/services/:id/approve]: [authenticate], handler. *)
Definition approveHandler (user : User.t) (req : Request) (now : Z)
    (db : Storage.Db) : Response * Storage.Db :=
  match Storage.getUser (decimal (User.id user)) db with
  | Throw _ => (respond 500 "Failed to approve service", db)
  | Ok stored =>
      if negb (bool_decide (User.role <$> stored = Some "admin"))
      then (respond 403 "Admin access required", db)
      else
        let id := parseInt (params_id req) in
        match Storage.approveService id now db with
        | (Throw _, db') => (respond 500 "Failed to approve service", db')
        | (Ok service, db') => (mkResponse 200 (JsonService service), db')
        end
  end.

Definition patchApprove (req : Request) (now : Z) (db : Storage.Db)
  : Response * Storage.Db :=
  match Auth.authenticate env_JWT_SECRET req now db with
  | Respond r => (r, db)
  | Next user => approveHandler user req now db
  end.

(** [POST /api/categories]: [authenticate], [requireAdmin], handler. *)
Definition categoriesHandler (req : Request) (now : Z) (db : Storage.Db)
  : Response * Storage.Db :=
  match insertCategorySchema_parse (json req) with
  | Throw _ => (respond 500 "Failed to create category", db)
  | Ok categoryData =>
      match Storage.createCategory categoryData now db with
      | (Throw _, db') => (respond 500 "Failed to create category", db')
      | (Ok category, db') => (mkResponse 200 (JsonCategory category), db')
      end
  end.

Definition postCategories (req : Request) (now : Z) (db : Storage.Db)
  : Response * Storage.Db :=
  match Auth.authenticate env_JWT_SECRET req now db with
  | Respond r => (r, db)
  | Next user =>
      match Auth.requireAdmin (Some user) with
      | Respond r => (r, db)
      | Next _ => categoriesHandler req now db
      end
  end.

(** [POST /api/support/tickets] *)
Definition postSupportTickets (req : Request) (now : Z) (db : Storage.Db)
  : Response * Storage.Db :=
  match insertSupportTicketSchema_parse (json req) with
  | Throw _ => (respond 500 "Failed to create support ticket", db)
  | Ok ticketData =>
      match Storage.createSupportTicket ticketData now db with
      | (Throw _, db') => (respond 500 "Failed to create support ticket", db')
      | (Ok ticket, db') => (mkResponse 200 (JsonTicket ticket), db')
      end
  end.
End WithLibraries.

End Routes.

(** ** [server/monitoring.ts], [server/payments.ts], [server/twoFactorAuth.ts] *)

Module Monitoring.

Record SecurityEvent : Type := mkEvent {
  event : string;
  level : string;
  subject : string   (* the payment id or user id among the details *)
}.

(** What the payment and two-factor code can touch: the database, the
    security log that [logSecurityEvent] writes to the console, and the
    one-time-password checks handed to the speakeasy package, each with its
    secret and token. *)
Record World : Type := mkWorld {
  db : Storage.Db;
  securityLog : list SecurityEvent;
  totpChecks : list (string * string)
}.

Definition logSecurityEvent (event subject level : string) (w : World) : World :=
  mkWorld (db w) (securityLog w ++ [mkEvent event level subject]) (totpChecks w).

End Monitoring.

Module Payments.
Import Monitoring.

Record PSEPayment : Type := mkPSEPayment {
  bank : string;
  documentType : string;
  documentNumber : string;
  amount : Js.JsNumber;
  description : string
}.

(** The object handed to [storage.createPaymentRecord]. *)
Record PaymentRecord : Type := mkPaymentRecord {
  r_id : string;
  r_amount : Js.JsNumber;
  r_currency : string;
  r_status : string;
  r_paymentMethod : string;
  r_bank : string;
  r_documentType : string;
  r_documentNumber : string;
  r_description : string
}.

Record PaymentIntent : Type := mkPaymentIntent {
  id : string;
  i_amount : Js.JsNumber;
  currency : string;
  status : string;
  paymentMethod : string;
  metadata : PSEPayment
}.

(** The properties of the storage object that this file calls. *)
Record PaymentStorage : Type := mkPaymentStorage {
  createPaymentRecord : option (PaymentRecord -> Storage.Db -> Result unit * Storage.Db)
}.

(** The exported [storage] is an instance of [DatabaseStorage], and that
    class defines no [createPaymentRecord]
    (see [Storage.DatabaseStorage_methods]). *)
Definition storage : PaymentStorage := mkPaymentStorage None.

(** The body of [createPSEPayment(payment)] over a storage object [store],
    for the clock reading [now] and the suffix [rnd] that
    [Math.random().toString(36).substring(7)] produced. *)
Definition createPSEPaymentWith (store : PaymentStorage) (payment : PSEPayment)
    (now : Z) (rnd : string) (w : World) : Result PaymentIntent * World :=
  let paymentId := "pse_" +:+ Js.decimal now +:+ "_" +:+ rnd in
  if Js.lt (amount payment) (Js.ofZ 5000)
  then (Throw (Error "Monto mínimo para PSE es $5,000 COP"), w)
  else if negb (bool_decide (documentType payment ∈ ["CC"; "CE"; "NIT"]))
  then (Throw (Error "Tipo de documento inválido"), w)
  else
    match
      Js.callMethod "storage" "createPaymentRecord" (createPaymentRecord store)
        (fun f =>
           let '(r, db') :=
             f (mkPaymentRecord paymentId (amount payment) "COP" "pending" "pse"
                  (bank payment) (documentType payment)
                  (documentNumber payment) (description payment))
               (db w) in
           (r, mkWorld db' (securityLog w) (totpChecks w)))
        w
    with
    | (Throw e, w') => (Throw e, w')
    | (Ok _, w') =>
        (Ok (mkPaymentIntent paymentId (amount payment) "COP" "pending" "pse" payment),
         logSecurityEvent "pse_payment_created" paymentId "info" w')
    end.

(** [createPSEPayment], as exported: it calls the exported [storage]. *)
Definition createPSEPayment : PSEPayment -> Z -> string -> World
                              -> Result PaymentIntent * World :=
  createPSEPaymentWith storage.

End Payments.

Module TwoFactor.
Import Monitoring.

(** The stored two-factor record of a user. *)
Record UserTwoFactor : Type := mkUserTwoFactor {
  secret : string;
  backupCodes : list string;
  isActive : bool
}.

(** The properties of the storage object that [validate2FALogin] calls. *)
Record TwoFactorStorage : Type := mkTwoFactorStorage {
  getUserTwoFactor :
    option (string -> Storage.Db -> Result (option UserTwoFactor));
  removeUsedBackupCode :
    option (string -> string -> Storage.Db -> Result unit * Storage.Db)
}.

(** The exported [storage] is an instance of [DatabaseStorage], and that
    class defines neither method (see [Storage.DatabaseStorage_methods]). *)
Definition storage : TwoFactorStorage := mkTwoFactorStorage None None.

Section WithLibraries.
(** [speakeasy.totp.verify] with a window of two periods, at a clock
    reading. *)
Variable totpVerify : string -> string -> Z -> bool.
(** [String.prototype.toUpperCase] *)
Variable toUpperCase : string -> string.

(** [verify2FAToken(secret, token)] *)
Definition verify2FAToken (secret token : string) (now : Z) (w : World)
  : bool * World :=
  (totpVerify secret token now,
   mkWorld (db w) (securityLog w) (totpChecks w ++ [(secret, token)])).

(** The body of [validate2FALogin(userId, token)] over a storage object
    [store]. *)
Definition validate2FALoginWith (store : TwoFactorStorage)
    (userId token : string) (now : Z) (w : World) : Result bool * World :=
  match
    Js.callMethod "storage" "getUserTwoFactor" (getUserTwoFactor store)
      (fun f => (f userId (db w), w)) w
  with
  | (Throw e, w') => (Throw e, w')
  | (Ok user2FA, w') =>
      match user2FA with
      | None => (Ok true, w')
      | Some record =>
          if negb (isActive record) then (Ok true, w')
          else
            let '(valid, w1) := verify2FAToken (secret record) token now w' in
            if valid then (Ok true, w1)
            else if bool_decide (toUpperCase token ∈ backupCodes record)
            then
              match
                Js.callMethod "storage" "removeUsedBackupCode" (removeUsedBackupCode store)
                  (fun f =>
                     let '(r, db') := f userId (toUpperCase token) (db w1) in
                     (r, mkWorld db' (securityLog w1) (totpChecks w1)))
                  w1
              with
              | (Throw e, w2) => (Throw e, w2)
              | (Ok _, w2) => (Ok true, w2)
              end
            else (Ok false, w1)
      end
  end.

(** [validate2FALogin], as exported: it calls the exported [storage]. *)
Definition validate2FALogin : string -> string -> Z -> World
                              -> Result bool * World :=
  validate2FALoginWith storage.
End WithLibraries.

End TwoFactor.

(** ** The vocabulary of the specification *)

(** [p] occurs in [k] as a substring. *)
Definition isSubstring (p k : string) : Prop :=
  exists pre post, k = pre +:+ p +:+ post.

(** An amount of at least 5000 and a document type among CC, CE and NIT. *)
Definition validPSEInput (payment : Payments.PSEPayment) : Prop :=
  Js.ge (Payments.amount payment) (Js.ofZ 5000) = true
  /\ Payments.documentType payment ∈ ["CC"; "CE"; "NIT"].

(** The stage of a status in the lifecycle open, in_progress,
    resolved/closed. *)
Definition stage (s : Ticket.Status) : nat :=
  match s with
  | Ticket.open => 0
  | Ticket.in_progress => 1
  | Ticket.resolved => 2
  | Ticket.closed => 2
  end.

(** A status change that stays within the lifecycle and does not go back. *)
Definition movesForward (old new : option Ticket.Status) : Prop :=
  match old, new with
  | Some a, Some b => stage a <= stage b
  | _, _ => False
  end.

(** ** Sample data *)

Module Sample.
Import Js Http.

Definition alice : User.t :=
  User.mk 1 "alice" "alice@example.com" (Some "$2b$12$C6UzMDM.H6dfI") None None
          "admin" true 0 0.

Definition bob : User.t :=
  User.mk 2 "bob" "bob@example.com" (Some "$2b$12$e0MYzXyjpJS7P") None None
          "user" true 0 0.

Definition plumbing : Service.t :=
  Service.mk 10 "2" 1 "Plomeria" None None None None None None
             (Some false) (Some false) None (Some 0%Z) None None.

Definition db : Storage.Db :=
  Storage.mkDb [alice; bob] 3 [] 1 [plumbing] [] [] 1.

(** A registration that repeats the username of [alice] with a password
    that is too short. *)
Definition duplicateRegistration : Request :=
  mkRequest None None true ""
    (list_to_map [("username", JStr "alice"); ("email", JStr "al@example.com");
                  ("password", JStr "short"); ("fullName", JStr "Alicia Diaz");
                  ("phone", JStr "+57 300 1234567")]).

(** The same registration with a password that passes. *)
Definition duplicateRegistrationValid : Request :=
  mkRequest None None true ""
    (list_to_map [("username", JStr "alice"); ("email", JStr "al@example.com");
                  ("password", JStr "Secreto1!"); ("fullName", JStr "Alicia Diaz");
                  ("phone", JStr "+57 300 1234567")]).

(** Requests on the session of [bob] and of [alice] for service 10. *)
Definition approveByBob : Request := mkRequest None (Some 2%Z) true "10" ∅.
Definition approveByAlice : Request := mkRequest None (Some 1%Z) true "10" ∅.

(** [alice] posts a category without a name. *)
Definition categoryWithoutName : Request :=
  mkRequest None (Some 1%Z) true "" {["description" := JStr "Hogar"]}.

Definition ticket : Ticket.insert :=
  Ticket.mkInsert None "" "Ana" "ana@example.com" "Ayuda" "No puedo entrar"
                  Absent Absent Absent Absent Absent Absent.

  (** The same ticket, asked for with status [closed]. *)
Definition ticketClosed : Ticket.insert :=
  Ticket.mkInsert None "" "Ana" "ana@example.com" "Ayuda" "No puedo entrar"
                  (Given Ticket.closed) Absent Absent Absent Absent Absent.

Definition setStatus (s : Ticket.Status) : Ticket.partial :=
  Ticket.mkPartial None None None None None (Given s) Absent Absent Absent.

(** The ticket is created, set to [resolved], and set to [open] again. *)
Definition created : Storage.Db :=
  (Storage.createSupportTicket ticket 1700000000000 db).2.
Definition thenResolved : Storage.Db :=
  (Storage.updateSupportTicket 1 (setStatus Ticket.resolved) 1700000001000 created).2.
Definition thenReopened : Storage.Db :=
  (Storage.updateSupportTicket 1 (setStatus Ticket.open) 1700000002000 thenResolved).2.

Definition world : Monitoring.World := Monitoring.mkWorld db [] [].

Definition payment : Payments.PSEPayment :=
  Payments.mkPSEPayment "bancolombia" "CC" "1020304050" (ofZ 5000) "Pago".

End Sample.

(** * Further operations *)

(** ** [server/cache.ts]: reading, writing, the limiter and the sessions *)

Module CacheManager.
Import Cache.

Section Values.
Context {V : Type}.
(** Whether a cached value counts as true in a condition. *)
Variable truthy : V -> bool.

(** [this.cache.get(key)] at clock reading [now]: an entry whose expiry
    instant has passed is deleted and reads as [undefined]. *)
Definition get (key : string) (now : Z) (data : gmap string (Entry V))
  : option V * gmap string (Entry V) :=
  match data !! key with
  | Some e =>
      if negb (t e =? 0)%Z && (t e <? now)%Z then (None, delete key data)
      else (Some (v e), data)
  | None => (None, data)
  end.

(** [this.cache.set(key, value, ttl)] at clock reading [now], for a time to
    live in seconds; a time to live of 0 stands for no expiry. *)
Definition set (key : string) (value : V) (ttl now : Z)
    (data : gmap string (Entry V)) : gmap string (Entry V) :=
  <[key := mkEntry value (if (ttl =? 0)%Z then 0 else now + ttl * 1000)%Z]> data.

(** [getServices(key, fetcher, ttl = 300)].  [fetcher] is the outcome that
    the fetcher has if it is called; the second component of the result
    tells whether it was called. *)
Definition getServices (key : string) (fetcher : Result V) (ttl : option Z)
    (now : Z) (data : gmap string (Entry V))
  : Result V * bool * gmap string (Entry V) :=
  let '(cached, data1) := get key now data in
  match cached with
  | Some c => if truthy c then (Ok c, false, data1) else
      match fetcher with
      | Ok d => (Ok d, true, set key d (default 300%Z ttl) now data1)
      | Throw e => (Throw e, true, data1)
      end
  | None =>
      match fetcher with
      | Ok d => (Ok d, true, set key d (default 300%Z ttl) now data1)
      | Throw e => (Throw e, true, data1)
      end
  end.

(** [setUserSession(userId, sessionData, ttl = 24 * 60 * 60)] *)
Definition setUserSession (userId : string) (sessionData : V) (ttl : option Z)
    (now : Z) (data : gmap string (Entry V)) : gmap string (Entry V) :=
  set ("session:" +:+ userId) sessionData (default (24 * 60 * 60)%Z ttl) now data.

(** [getUserSession(userId)] *)
Definition getUserSession (userId : string) (now : Z) (data : gmap string (Entry V))
  : option V * gmap string (Entry V) :=
  get ("session:" +:+ userId) now data.

(** [clearUserSession(userId)] *)
Definition clearUserSession (userId : string) (data : gmap string (Entry V))
  : gmap string (Entry V) :=
  del ["session:" +:+ userId] data.
End Values.

(** [Math.ceil(n / 1000)] for an integer [n]. *)
Definition ceilThousandth (n : Z) : Z := ((n + 999) / 1000)%Z.

(** The key of the counter of one user and action. *)
Definition rateLimitKey (userId action : string) : string :=
  "rate_limit:" +:+ userId +:+ ":" +:+ action.

(** [checkUserRateLimit(userId, action, maxAttempts = 10,
    windowMs = 15 * 60 * 1000)], on the entries that hold numbers. *)
Definition checkUserRateLimit (userId action : string)
    (maxAttempts windowMs : option Z) (now : Z) (data : gmap string (Entry Z))
  : bool * gmap string (Entry Z) :=
  let key := rateLimitKey userId action in
  let '(cached, data1) := get key now data in
  let attempts := default 0%Z cached in
  if (default 10%Z maxAttempts <=? attempts)%Z then (false, data1)
  else (true,
        set key (attempts + 1)%Z
            (ceilThousandth (default (15 * 60 * 1000)%Z windowMs)) now data1).

(** The answers to a series of calls of [checkUserRateLimit] for one user
    and action, made at the clock readings [times] one after the other. *)
Fixpoint burst (userId action : string) (maxAttempts windowMs : option Z)
    (times : list Z) (data : gmap string (Entry Z)) : list bool :=
  match times with
  | [] => []
  | now :: rest =>
      let '(allowed, data1) :=
        checkUserRateLimit userId action maxAttempts windowMs now data in
      allowed :: burst userId action maxAttempts windowMs rest data1
  end.

(** The counter under [key] is [c]: it is absent and [c] is 0, or it is
    stored and stays readable at every clock reading of [times]. *)
Definition counterIs (key : string) (c : Z) (times : list Z)
    (data : gmap string (Entry Z)) : Prop :=
  (data !! key = None /\ c = 0%Z)
  \/ exists expiry, data !! key = Some (mkEntry c expiry)
                    /\ forall now, now ∈ times -> (expiry = 0 \/ now <= expiry)%Z.

End CacheManager.

(** ** [server/auth.ts] and [server/routes.ts]: what is left of a user row *)

(** [{ ...user, password: undefined }], and the object that remains after
    [const { password, ...userWithoutPassword } = user]. *)
Definition withoutPassword (user : User.t) : User.t :=
  User.mk (User.id user) (User.username user) (User.email user) None
          (User.fullName user) (User.phone user) (User.role user)
          (User.isActive user) (User.createdAt user) (User.updatedAt user).

(** The request without its [Authorization] header, and without its
    session. *)
Definition withoutBearer (req : Http.Request) : Http.Request :=
  Http.mkRequest None (Http.sessionUserId req) (Http.hasSession req)
                 (Http.params_id req) (Http.json req).

Definition withoutSession (req : Http.Request) : Http.Request :=
  Http.mkRequest (Http.bearer req) None (Http.hasSession req)
                 (Http.params_id req) (Http.json req).

(** The [users] table as the database keeps it: ids, usernames and emails
    are unique, and every id is positive and was drawn from the
    sequence. *)
Definition usersInvariant (db : Storage.Db) : Prop :=
  NoDup (User.id <$> Storage.users db)
  /\ NoDup (User.username <$> Storage.users db)
  /\ NoDup (User.email <$> Storage.users db)
  /\ Forall (fun u => (0 < User.id u < Storage.users_seq db)%Z) (Storage.users db).

(** The row that [createUser] inserts for [data] at clock reading [now]. *)
Definition newUserRow (data : User.insert) (now : Z) (db : Storage.Db) : User.t :=
  User.mk (Storage.users_seq db) (User.i_username data) (User.i_email data)
          (Some (User.i_password data))
          (stored None (User.i_fullName data))
          (stored None (User.i_phone data))
          (default "user" (User.i_role data))
          (default true (User.i_isActive data))
          now now.

(** ** [server/routes.ts]: [POST /api/login] *)

Module Login.
Import Js Http Routes.

(** [escape] of the validator package: the ampersand, both quotes, the
    angle brackets, both slashes and the backtick become entities. *)
Definition escapeChar (c : ascii) : string :=
  if (code c =? 38)%nat then "&amp;"
  else if (code c =? 34)%nat then "&quot;"
  else if (code c =? 39)%nat then "&#x27;"
  else if (code c =? 60)%nat then "&lt;"
  else if (code c =? 62)%nat then "&gt;"
  else if (code c =? 47)%nat then "&#x2F;"
  else if (code c =? 92)%nat then "&#x5C;"
  else if (code c =? 96)%nat then "&#96;"
  else String c EmptyString.

Fixpoint escape (s : string) : string :=
  match s with
  | EmptyString => EmptyString
  | String c s' => escapeChar c +:+ escape s'
  end.

(** The [escape] sanitizer on [username]: a value that is not an array is
    replaced by the escaped form of its text, and an array by the array of
    the escaped forms of its items. *)
Definition sanitizeUsername (body : gmap string JsVal) : gmap string JsVal :=
  match body !! "username" with
  | Some (JArray items) => <["username" := JArray (escape <$> items)]> body
  | Some v => <["username" := JStr (escape (render v))]> body
  | None => <["username" := JStr (escape "")]> body
  end.

(** [validateLogin]: the failing properties and the body after the
    sanitizer. *)
Definition validateLogin (body : gmap string JsVal) : list string * gmap string JsVal :=
  (check "username" (isLength 3 50) (fieldTexts body "username")
   ++ check "password" (isLength 1 128) (fieldTexts body "password"),
   sanitizeUsername body).

(** [loginSchema.parse(body)]: the username and the password. *)
Definition loginSchema_parse (body : gmap string JsVal) : Result (string * string) :=
  let username := requiredString body "username" in
  let password := requiredString body "password" in
  parseResult (u ← username; p ← password; Some (u, p))
              (issue "username" username ++ issue "password" password).

(** What [logSecurityEvent] is given by the login handler: the event, its
    level, and the [username], [reason] and [userId] among the details. *)
Record Event : Type := mkEvent {
  event : string;
  level : string;
  username : string;
  reason : option string;
  userId : option Z
}.

Section WithLibraries.
(** [process.env.JWT_SECRET] *)
Variable env_JWT_SECRET : option string.
(** [bcrypt.compare(password, hash)] *)
Variable comparePassword : string -> string -> bool.

(** The handler of [POST /api/login], after its middleware: the answer,
    the value written to [req.session.userId], and the security events
    logged.  The database is only read. *)
Definition loginHandler (hasSession : bool) (body : gmap string JsVal)
    (now : Z) (db : Storage.Db) : Response * option Z * list Event :=
  match loginSchema_parse body with
  | Throw (ZodError issues) =>
      (mkResponse 400 (MessageErrors "Invalid input data" issues), None, [])
  | Throw _ => (respond 500 "Login failed", None, [])
  | Ok (username, password) =>
      let failed (why : string) :=
        (respond 401 "Invalid credentials", None,
         [mkEvent "failed_login_attempt" "warning" username (Some why) None]) in
      match Storage.getUserByUsername username db with
      | None => failed "user_not_found_or_inactive"
      | Some user =>
          if negb (User.isActive user) then failed "user_not_found_or_inactive"
          else
            match User.password user with
            | None => (respond 500 "Login failed", None, [])
            | Some hash =>
                if negb (comparePassword password hash)
                then failed "invalid_password"
                else
                  (mkResponse 200
                     (Registered (withoutPassword user)
                        (Auth.generateToken env_JWT_SECRET (User.id user) None now)
                        "Login successful"),
                   (if hasSession then Some (User.id user) else None),
                   [mkEvent "successful_login" "info" username None
                            (Some (User.id user))])
            end
      end
  end.

(** [POST /api/login]: [validateLogin], [sanitizeInput], handler. *)
Definition postLogin (req : Request) (now : Z) (db : Storage.Db)
  : Response * option Z * list Event :=
  let '(errors, body) := validateLogin (json req) in
  match sanitizeInput errors body with
  | Respond r => (r, None, [])
  | Next body' => loginHandler (hasSession req) body' now db
  end.
End WithLibraries.

End Login.

(** ** [server/storage.ts] and [server/routes.ts]: deleting a category *)

Module Catalog.
Import Js Http Routes.

(** [deleteCategory(id)].  [services.category_id] references
    [categories.id], and no other table does: the database refuses the
    delete when a row that it would remove is still referenced. *)
Definition deleteCategory (id : option Z) (db : Storage.Db)
  : Result unit * Storage.Db :=
  match Storage.bindInteger id with
  | Throw e => (Throw e, db)
  | Ok n =>
      if bool_decide (Exists (fun c => Category.id c = n) (Storage.categories db))
         && bool_decide (Exists (fun s => Service.categoryId s = n)
                                (Storage.services db))
      then (Throw (DbError "violates foreign key constraint"), db)
      else (Ok tt,
            Storage.set_categories
              (filter (fun c => Category.id c <> n) (Storage.categories db))
              (Storage.categories_seq db) db)
  end.

(** Every service belongs to a stored category. *)
Definition servicesHaveCategories (db : Storage.Db) : Prop :=
  Forall (fun s => Exists (fun c => Category.id c = Service.categoryId s)
                          (Storage.categories db))
         (Storage.services db).

Section WithEnvironment.
(** [process.env.JWT_SECRET] *)
Variable env_JWT_SECRET : option string.

(** The handler of [DELETE /api/categories/:id], after its middleware. *)
Definition deleteCategoryHandler (user : User.t) (req : Request) (db : Storage.Db)
  : Response * Storage.Db :=
  match Storage.getUser (decimal (User.id user)) db with
  | Throw _ => (respond 500 "Failed to delete category", db)
  | Ok stored =>
      if negb (bool_decide (User.role <$> stored = Some "admin"))
      then (respond 403 "Admin access required", db)
      else
        let id := parseInt (params_id req) in
        match deleteCategory id db with
        | (Throw _, db') => (respond 500 "Failed to delete category", db')
        | (Ok _, db') => (respond 200 "Category deleted successfully", db')
        end
  end.

(** [DELETE /api/categories/:id]: [authenticate], [requireAdmin], handler. *)
Definition deleteCategories (req : Request) (now : Z) (db : Storage.Db)
  : Response * Storage.Db :=
  match Auth.authenticate env_JWT_SECRET req now db with
  | Respond r => (r, db)
  | Next user =>
      match Auth.requireAdmin (Some user) with
      | Respond r => (r, db)
      | Next _ => deleteCategoryHandler user req db
      end
  end.
End WithEnvironment.

End Catalog.

(** ** [server/websocket.ts]: the handshake and the sending functions *)

Module Messaging.
Import WebSocket.

(** Every registered connection still has its [close] listener. *)
Definition everyConnectionHasListener (s : State) : Prop :=
  forall connectionId, is_Some (connections s !! connectionId) ->
    connectionId ∈ map snd (listeners s).

(** What a call of an [async] function hands back: a promise, here with
    the value it settles to. *)
Inductive Promise (A : Type) : Type := Resolved (a : A).
Arguments Resolved {A} a.

(** The truth value of a promise in a condition: it is an object. *)
Definition promiseIsTruthy {A} (p : Promise A) : bool :=
  match p with
  | Resolved _ => true
  end.

Section WithEnvironment.
(** [process.env.JWT_SECRET] *)
Variable env_JWT_SECRET : option string.

(** [verifyClient(info)] for the [token] parameter of the request URL: the
    promise it returns and the [req.userId] it leaves.  The body has no
    [await], so it has run by the time the promise is handed back. *)
Definition verifyClient (token : option Jwt.Token) (now : Z)
  : Promise bool * UserKey :=
  match token with
  | None => (Resolved false, None)
  | Some (Jwt.Malformed EmptyString) => (Resolved false, None)
  | Some t =>
      match Auth.verifyToken env_JWT_SECRET t now with
      | None => (Resolved false, None)
      | Some decoded => (Resolved true, Some (Js.decimal (Jwt.userId decoded)))
      end
  end.

(** The upgrade that the [ws] package makes of a well-formed request on
    the path of the server, with a [verifyClient] of one parameter: the
    handshake is refused when the value that [verifyClient] returns is
    falsy, and otherwise the server emits [connection], which runs
    [handleConnection].  [None] is the refusal. *)
Definition handleUpgrade (token : option Jwt.Token) (ws : Socket)
    (now : Z) (rnd : string) (s : State) : option State :=
  let '(verified, userId) := verifyClient token now in
  if negb (promiseIsTruthy verified) then None
  else Some (handleConnection ws userId now rnd s).
End WithEnvironment.

Section Sending.
(** [ws.readyState === WebSocket.OPEN] *)
Variable isOpen : Socket -> bool.

(** [sendToUser(userId, message)]: the sockets on which [send] is called.
    The model keeps which sockets are sent to, not the order of the
    sends. *)
Definition sendToUser (userId : string) (s : State) : list Socket :=
  match userConnections s !! Some userId with
  | None => []
  | Some ids =>
      filter (fun ws => isOpen ws = true)
             (omap (fun connectionId => connections s !! connectionId)
                   (elements ids))
  end.

(** [broadcastServiceUpdate(serviceId, type)]: the sockets on which [send]
    is called. *)
Definition broadcastServiceUpdate (s : State) : list Socket :=
  filter (fun ws => isOpen ws = true) (snd <$> map_to_list (connections s)).

(** The body of [broadcastToAdmins(message)] over a storage object with
    the property [getUsersByRole]. *)
Definition broadcastToAdminsWith
    (getUsersByRole : option (string -> Storage.Db -> Result (list User.t)))
    (db : Storage.Db) (s : State) : Result (list Socket) :=
  (Js.callMethod "storage" "getUsersByRole" getUsersByRole
     (fun f =>
        (try! adminUsers <- f "admin" db;
         Ok (flat_map (fun admin => sendToUser (Js.decimal (User.id admin)) s)
                      adminUsers),
         tt))
     tt).1.

(** [broadcastToAdmins], as exported: it calls the exported [storage],
    whose class defines no [getUsersByRole]
    (see [Storage.DatabaseStorage_methods]). *)
Definition broadcastToAdmins : Storage.Db -> State -> Result (list Socket) :=
  broadcastToAdminsWith None.
End Sending.

End Messaging.

(** ** [server/health.ts]: the health monitor *)

Module Health.
Import Cache.

(** The [status] of one [HealthCheck] and of the whole [HealthStatus]. *)
Inductive Check : Type := CheckHealthy | CheckUnhealthy.
Inductive Status : Type := Healthy | Degraded | Unhealthy.

#[global] Instance Check_eq_dec : EqDecision Check.
Proof. solve_decision. Defined.

(** [HealthStatus['services']], with the status of each check. *)
Record Services : Type := mkServices {
  database : Check;
  cache : Check;
  storage : Check;
  auth : Check
}.

(** [determineOverallStatus(services)] *)
Definition determineOverallStatus (services : Services) : Status :=
  let serviceStatuses :=
    [database services; cache services; storage services; auth services] in
  let unhealthyCount :=
    List.length (filter (fun s => s = CheckUnhealthy) serviceStatuses) in
  if (unhealthyCount =? 0)%nat then Healthy
  else if (unhealthyCount <=? 1)%nat then Degraded
  else Unhealthy.

(** [checkDatabase] and [checkStorage]: healthy when the query they make
    does not throw. *)
Definition checkDatabase {A} (getCategories : Result A) : Check :=
  match getCategories with
  | Ok _ => CheckHealthy
  | Throw _ => CheckUnhealthy
  end.

Definition checkStorage {A} (getServices : Result A) : Check :=
  match getServices with
  | Ok _ => CheckHealthy
  | Throw _ => CheckUnhealthy
  end.

Section WithCache.
Context {V : Type}.
(** Whether a cached value counts as true in a condition, and the object
    [{ test: true }]. *)
Variable truthy : V -> bool.
Variable test : V.

(** [checkCache()]: the key is made at clock reading [keyTime], the session
    is stored at [setTime] and read at [getTime]. *)
Definition checkCache (keyTime setTime getTime : Z) (data : gmap string (Entry V))
  : Check * gmap string (Entry V) :=
  let testKey := "health_check_" +:+ Js.decimal keyTime in
  let data1 := CacheManager.setUserSession testKey test (Some 10%Z) setTime data in
  let '(result, data2) := CacheManager.getUserSession testKey getTime data1 in
  let data3 := CacheManager.clearUserSession testKey data2 in
  match result with
  | Some r => if negb (truthy r) then (CheckUnhealthy, data3) else (CheckHealthy, data3)
  | None => (CheckUnhealthy, data3)
  end.
End WithCache.

Section WithEnvironment.
(** [process.env.JWT_SECRET] *)
Variable env_JWT_SECRET : option string.

(** [checkAuth()]: the token is made at clock reading [signTime] and
    verified at [verifyTime]. *)
Definition checkAuth (signTime verifyTime : Z) : Check :=
  let testToken := Auth.generateToken env_JWT_SECRET 999999 None signTime in
  match Auth.verifyToken env_JWT_SECRET testToken verifyTime with
  | Some decoded =>
      if negb (Jwt.userId decoded =? 999999)%Z then CheckUnhealthy else CheckHealthy
  | None => CheckUnhealthy
  end.
End WithEnvironment.

(** How bad a status is. *)
Definition severity (status : Status) : nat :=
  match status with
  | Healthy => 0
  | Degraded => 1
  | Unhealthy => 2
  end.

(** Every check that is unhealthy in [before] is unhealthy in [after]. *)
Definition noCheckRecovers (before after : Services) : Prop :=
  (database before = CheckUnhealthy -> database after = CheckUnhealthy)
  /\ (cache before = CheckUnhealthy -> cache after = CheckUnhealthy)
  /\ (storage before = CheckUnhealthy -> storage after = CheckUnhealthy)
  /\ (auth before = CheckUnhealthy -> auth after = CheckUnhealthy).

End Health.

(** A storage call that writes to the database of the world. *)
Definition writing {A} (w : Monitoring.World) (r : Result A * Storage.Db)
  : Result A * Monitoring.World :=
  (r.1, Monitoring.mkWorld r.2 (Monitoring.securityLog w) (Monitoring.totpChecks w)).

(** ** [server/twoFactorAuth.ts]: switching two-factor login on and off *)

Module TwoFactorSetup.
Import Js Http Routes Monitoring TwoFactor.

(** The properties of the storage object that [enable2FA] and [disable2FA]
    call, besides [getUser]. *)
Record SetupStorage : Type := mkSetupStorage {
  getTempTwoFactorSecret :
    option (string -> Storage.Db -> Result (option UserTwoFactor));
  activateTwoFactor :
    option (string -> UserTwoFactor -> Storage.Db -> Result unit * Storage.Db);
  deleteTempTwoFactorSecret :
    option (string -> Storage.Db -> Result unit * Storage.Db);
  deactivateTwoFactor :
    option (string -> Storage.Db -> Result unit * Storage.Db)
}.

(** The exported [storage] is an instance of [DatabaseStorage], and that
    class defines none of the four (see [Storage.DatabaseStorage_methods]). *)
Definition storage : SetupStorage := mkSetupStorage None None None None.

Section WithLibraries.
(** [process.env.JWT_SECRET] *)
Variable env_JWT_SECRET : option string.
(** [speakeasy.totp.verify] with a window of two periods, at a clock
    reading. *)
Variable totpVerify : string -> string -> Z -> bool.
(** [bcrypt.compare(password, hash)] on two strings. *)
Variable comparePassword : string -> string -> bool.

(** The body of [enable2FA(userId, token)] over a storage object [store]. *)
Definition enable2FAWith (store : SetupStorage) (userId token : string)
    (now : Z) (w : World) : Result bool * World :=
  match
    callMethod "storage" "getTempTwoFactorSecret" (getTempTwoFactorSecret store)
      (fun f => (f userId (db w), w)) w
  with
  | (Throw e, w') => (Throw e, w')
  | (Ok None, w') => (Ok false, w')
  | (Ok (Some tempData), w') =>
      let '(isValid, w1) := verify2FAToken totpVerify (secret tempData) token now w' in
      if negb isValid then (Ok false, w1)
      else
        match
          callMethod "storage" "activateTwoFactor" (activateTwoFactor store)
            (fun f => writing w1 (f userId tempData (db w1))) w1
        with
        | (Throw e, w2) => (Throw e, w2)
        | (Ok _, w2) =>
            match
              callMethod "storage" "deleteTempTwoFactorSecret"
                (deleteTempTwoFactorSecret store)
                (fun f => writing w2 (f userId (db w2))) w2
            with
            | (Throw e, w3) => (Throw e, w3)
            | (Ok _, w3) => (Ok true, w3)
            end
        end
  end.

(** [enable2FA], as exported: it calls the exported [storage]. *)
Definition enable2FA : string -> string -> Z -> World -> Result bool * World :=
  enable2FAWith storage.

(** [comparePassword(password, hash)] for the value that the caller hands
    in as the password ([None] is [undefined]) and the [password] of the
    row: [bcrypt.compare] refuses a missing argument and an argument that is
    not a string. *)
Definition compare (password : option JsVal) (hash : option string) : Result bool :=
  match password, hash with
  | None, _ | Some JNull, _ | _, None =>
      Throw (Error "data and hash arguments required")
  | Some (JStr p), Some h => Ok (comparePassword p h)
  | Some _, Some _ => Throw (Error "data and hash must be strings")
  end.

(** The body of [disable2FA(userId, password)] over a storage object
    [store]. *)
Definition disable2FAWith (store : SetupStorage) (userId : string)
    (password : option JsVal) (w : World) : Result bool * World :=
  match Storage.getUser userId (db w) with
  | Throw e => (Throw e, w)
  | Ok None => (Ok false, w)
  | Ok (Some user) =>
      match compare password (User.password user) with
      | Throw e => (Throw e, w)
      | Ok isValidPassword =>
          if negb isValidPassword then (Ok false, w)
          else
            match
              callMethod "storage" "deactivateTwoFactor" (deactivateTwoFactor store)
                (fun f => writing w (f userId (db w))) w
            with
            | (Throw e, w') => (Throw e, w')
            | (Ok _, w') => (Ok true, w')
            end
      end
  end.

(** [disable2FA], as exported. *)
Definition disable2FA : string -> option JsVal -> World -> Result bool * World :=
  disable2FAWith storage.

(** [POST /api/auth/2fa/disable] over a storage object: [authenticate],
    handler. *)
Definition postDisable2FAWith (store : SetupStorage) (req : Request) (now : Z)
    (w : World) : Response * World :=
  match Auth.authenticate env_JWT_SECRET req now (db w) with
  | Respond r => (r, w)
  | Next user =>
      let password := json req !! "password" in
      match disable2FAWith store (decimal (User.id user)) password w with
      | (Throw _, w') => (respond 500 "Failed to disable 2FA", w')
      | (Ok success, w') =>
          if success
          then (respond 200 "2FA disabled successfully",
                logSecurityEvent "2fa_disabled" (decimal (User.id user)) "warning" w')
          else (respond 400 "Invalid password", w')
      end
  end.

Definition postDisable2FA : Request -> Z -> World -> Response * World :=
  postDisable2FAWith storage.
End WithLibraries.

End TwoFactorSetup.

(** ** [server/payments.ts] and [server/routes.ts]: the payment webhook *)

Module Webhook.
Import Js Monitoring.

(** What the handler reads of the event that [constructEvent] returns: its
    [type] and the [id] of the payment intent in [data.object]. *)
Record StripeEvent : Type := mkStripeEvent {
  type : string;
  paymentIntentId : string
}.

(** The property of the storage object that [handlePaymentWebhook] calls. *)
Record WebhookStorage : Type := mkWebhookStorage {
  updatePaymentStatus :
    option (string -> string -> Storage.Db -> Result unit * Storage.Db)
}.

(** The exported [storage] is an instance of [DatabaseStorage], and that
    class defines no [updatePaymentStatus]
    (see [Storage.DatabaseStorage_methods]). *)
Definition storage : WebhookStorage := mkWebhookStorage None.

Section WithStripe.
(** [process.env.STRIPE_SECRET_KEY] and [process.env.STRIPE_WEBHOOK_SECRET] *)
Variable env_STRIPE_SECRET_KEY : option string.
Variable env_STRIPE_WEBHOOK_SECRET : option string.
(** [stripe.webhooks.constructEvent(payload, signature, secret)] for the
    request body, the [stripe-signature] header and the secret. *)
Variable constructEvent :
  gmap string JsVal -> option string -> option string -> Result StripeEvent.

(** [stripe] is an object when the key is set and not empty, and [null]
    otherwise. *)
Definition stripeConfigured : bool :=
  match env_STRIPE_SECRET_KEY with
  | Some key => negb (String.eqb key "")
  | None => false
  end.

(** The body of [handlePaymentWebhook(event, signature)] over a storage
    object [store].  The details of [webhook_error] carry the error message
    and no subject. *)
Definition handlePaymentWebhookWith (store : WebhookStorage)
    (event : gmap string JsVal) (signature : option string) (w : World)
  : Result unit * World :=
  if stripeConfigured then
    match constructEvent event signature env_STRIPE_WEBHOOK_SECRET with
    | Throw e => (Throw e, logSecurityEvent "webhook_error" "" "error" w)
    | Ok stripeEvent =>
        if String.eqb (type stripeEvent) "payment_intent.succeeded" then
          match
            callMethod "storage" "updatePaymentStatus" (updatePaymentStatus store)
              (fun f => writing w (f (paymentIntentId stripeEvent) "succeeded" (db w)))
              w
          with
          | (Throw e, w') => (Throw e, logSecurityEvent "webhook_error" "" "error" w')
          | (Ok _, w') =>
              (Ok tt,
               logSecurityEvent "payment_confirmed" (paymentIntentId stripeEvent)
                                "info" w')
          end
        else (Ok tt, w)
    end
  else (Ok tt, w).

(** [handlePaymentWebhook], as exported. *)
Definition handlePaymentWebhook
  : gmap string JsVal -> option string -> World -> Result unit * World :=
  handlePaymentWebhookWith storage.

(** [POST /api/payments/webhook] for a request with the given body and
    [stripe-signature] header: the status of the answer, 200 with
    [{ received: true }] or 400 with ['Webhook error']. *)
Definition postWebhookWith (store : WebhookStorage) (body : gmap string JsVal)
    (signature : option string) (w : World) : Z * World :=
  match handlePaymentWebhookWith store body signature w with
  | (Ok _, w') => (200%Z, w')
  | (Throw _, w') => (400%Z, w')
  end.

Definition postWebhook : gmap string JsVal -> option string -> World -> Z * World :=
  postWebhookWith storage.
End WithStripe.

End Webhook.

(** ** [server/routes.ts] and [server/cache.ts]: the statistics *)

Module Stats.
Import Cache.

(** The object that [GET /api/stats] answers with. *)
Record t : Type := mk {
  services : Z;
  providers : Z;
  reviews : Z;
  categories : Z
}.

Section WithOrder.
(** The order in which the database returns the rows of
    [orderBy(desc(services.createdAt))] and of [orderBy(categories.name)]. *)
Variable orderServices : list Service.t -> list Service.t.
Variable orderCategories : list Category.t -> list Category.t.

(** [getServices({ approved })]: the filter on [isApproved], which is the
    only one that the callers modelled here give. *)
Definition getServices (approved : bool) (db : Storage.Db) : list Service.t :=
  orderServices (filter (fun s => Service.isApproved s = Some approved)
                        (Storage.services db)).

(** [getCategories()] *)
Definition getCategories (db : Storage.Db) : list Category.t :=
  orderCategories (filter (fun c => Category.isActive c = Some true)
                          (Storage.categories db)).

(** The counts of [GET /api/stats] and of the fetcher of [getCachedStats].
    Every stored count is a 32-bit integer, so the sum is exact as long as
    it stays below 2^53. *)
Definition getStats (db : Storage.Db) : t :=
  let services := getServices true db in
  let categories := getCategories db in
  let providers :=
    size (list_to_set (Service.userId <$> services) : gset string) in
  let totalReviews :=
    foldl (fun sum service => (sum + default 0 (Service.reviewCount service))%Z)
          0%Z services in
  mk (Z.of_nat (List.length services)) (Z.of_nat providers) totalReviews
     (Z.of_nat (List.length categories)).

(** [getCachedStats()] at clock reading [now]: the cached object is the
    counts with [lastUpdated], and as an object it counts as true. *)
Definition getCachedStats (now : Z) (db : Storage.Db)
    (data : gmap string (Entry (t * Z)))
  : Result (t * Z) * bool * gmap string (Entry (t * Z)) :=
  CacheManager.getServices (fun _ => true) "stats:global" (Ok (getStats db, now))
                           (Some 600%Z) now data.
End WithOrder.

End Stats.

(** ** Further sample data *)

Module Cases.
Import Js Http.

(** A registration under a username and an email that [Sample.db] does not
    hold. *)
Definition registration : Request :=
  mkRequest None None true ""
    (list_to_map [("username", JStr "carol"); ("email", JStr "carol@example.com");
                  ("password", JStr "Secreto1!"); ("fullName", JStr "Carolina Ruiz");
                  ("phone", JStr "+57 300 7654321")]).

(** The row that the registration leaves at clock reading 1700000000000
    when the hash is the identity. *)
Definition carol : User.t :=
  User.mk 3 "carol" "carol@example.com" (Some "Secreto1!") (Some "Carolina Ruiz")
          (Some "+57 300 7654321") "user" true 1700000000000 1700000000000.

(** The login of the same user. *)
Definition login : Request :=
  mkRequest None None true ""
    (list_to_map [("username", JStr "carol"); ("password", JStr "Secreto1!")]).

(** A catalogue with two categories, of which the first has a service. *)
Definition hogar : Category.t :=
  Category.mk 1 "Hogar" None None (Some true) (Some 0%Z) (Some 0%Z).

Definition jardin : Category.t :=
  Category.mk 2 "Jardin" None None (Some true) (Some 0%Z) (Some 0%Z).

Definition catalog : Storage.Db :=
  Storage.mkDb [Sample.alice; Sample.bob] 3 [hogar; jardin] 3 [Sample.plumbing] [] [] 1.

(** [Sample.alice], an admin, asks to delete category 1. *)
Definition deleteHogar : Request := mkRequest None (Some 1%Z) true "1" ∅.

(** The body that the contact form of the support page posts: the form
    fields, with no [ticketNumber]. *)
Definition contactForm : Request :=
  mkRequest None None true ""
    (list_to_map [("name", JStr "Ana"); ("email", JStr "ana@example.com");
                  ("subject", JStr "Ayuda"); ("message", JStr "No puedo entrar");
                  ("categoryId", JNull); ("priority", JStr "medium")]).

(** [Sample.alice] asks to switch two-factor login off. *)
Definition disable2FA : Request :=
  mkRequest None (Some 1%Z) true "" {["password" := JStr "Secreto1!"]}.

(** A storage object that holds a temporary secret for every user and
    accepts every write. *)
Definition setupStore : TwoFactorSetup.SetupStorage :=
  TwoFactorSetup.mkSetupStorage
    (Some (fun _ _ => Ok (Some (TwoFactor.mkUserTwoFactor "JBSWY3DPEHPK3PXP" [] false))))
    (Some (fun _ _ db => (Ok tt, db)))
    (Some (fun _ db => (Ok tt, db)))
    (Some (fun _ db => (Ok tt, db))).

End Cases.

(** * Properties *)

(** ** The built-in operations on sample inputs *)

Example parseInt_samples :
  Js.parseInt "10" = Some 10%Z /\ Js.parseInt "  -42" = Some (-42)%Z
  /\ Js.parseInt "12abc" = Some 12%Z /\ Js.parseInt "0x1F" = Some 31%Z
  /\ Js.parseInt "abc" = None /\ Js.parseInt "" = None /\ Js.parseInt "0x" = None.
Proof. repeat split; reflexivity. Qed.

Example trim_samples :
  Js.trim "  a b  " = "a b" /\ Js.trim "" = "" /\ Js.trim "   " = "".
Proof. repeat split; reflexivity. Qed.

Example includes_samples :
  Cache.includes "services:all" "services" = true
  /\ Cache.includes "stats:global" "services" = false
  /\ Cache.includes "stats:global" "" = true
  /\ Cache.includes "" "a" = false.
Proof. repeat split; reflexivity. Qed.

Example lt_samples :
  Js.lt (Js.ofZ 4999) (Js.ofZ 5000) = true
  /\ Js.lt (Js.Finite (9999 # 2)) (Js.ofZ 5000) = true
  /\ Js.lt (Js.ofZ 5000) (Js.ofZ 5000) = false
  /\ Js.lt Js.NaN (Js.ofZ 5000) = false.
Proof. repeat split; reflexivity. Qed.

Example validation_samples :
  Routes.matchesUsername "ana_99" = true /\ Routes.matchesUsername "ana 99" = false
  /\ Routes.matchesPassword "Secreto1!" = true
  /\ Routes.matchesPassword "secreto1!" = false
  /\ Routes.matchesFullName "Alicia Diaz" = true
  /\ Routes.matchesPhone "+57 300 1234567" = true
  /\ Routes.matchesPhone "12345" = false
  /\ Routes.encode "a<b & c" = "a&lt;b &amp; c".
Proof. repeat split; reflexivity. Qed.

Section CacheFacts.
Import Cache.
Context {V : Type}.
Implicit Types (data : gmap string (Entry V)) (k p : string).

Lemma startsWith_spec s p : startsWith s p = true <-> exists post, s = p +:+ post.
Proof.
  revert s; induction p as [|a p IH]; intros s; simpl.
  - split; [intros _; exists s; reflexivity | reflexivity].
  - destruct s as [|b s]; simpl.
    + split; [done | intros [post H]; discriminate].
    + destruct (Ascii.eqb_spec a b) as [->|Hne].
      * rewrite IH. split; intros [post H]; exists post; [by rewrite H | by injection H].
      * split; [done | intros [post H]; injection H; congruence].
Qed.

Lemma includes_spec k p : includes k p = true <-> isSubstring p k.
Proof.
  unfold isSubstring. induction k as [|c k IH]; simpl.
  - rewrite orb_false_r, startsWith_spec. split.
    + intros [post H]. by exists "", post.
    + intros [pre [post H]]. destruct pre; [by exists post | discriminate].
  - rewrite orb_true_iff, startsWith_spec, IH. split.
    + intros [[post H] | [pre [post H]]].
      * by exists "", post.
      * exists (String c pre), post. simpl. by rewrite H.
    + intros [pre [post H]]. destruct pre as [|c' pre]; simpl in H.
      * left. by exists post.
      * right. injection H as _ H. by exists pre, post.
Qed.

Lemma del_step_lookup k' data k :
  (match data !! k' with Some _ => delete k' data | None => data end) !! k
  = if bool_decide (k = k') then None else data !! k.
Proof.
  case_bool_decide as Hk.
  - subst k'. destruct (data !! k) eqn:E; [apply lookup_delete_eq | exact E].
  - destruct (data !! k') eqn:E; [by rewrite lookup_delete_ne | done].
Qed.

Lemma del_lookup ks data k :
  del ks data !! k = if bool_decide (k ∈ ks) then None else data !! k.
Proof.
  unfold del. revert data; induction ks as [|k' ks IH]; intros data; simpl.
  - done.
  - rewrite IH, del_step_lookup.
    destruct (decide (k = k')) as [->|Hne].
    + rewrite (bool_decide_eq_true_2 (k' ∈ k' :: ks)) by apply list_elem_of_here.
      rewrite (bool_decide_eq_true_2 (k' = k')) by done.
      by case_bool_decide.
    + rewrite (bool_decide_eq_false_2 (k = k')) by done.
      assert (Hiff : k ∈ k' :: ks <-> k ∈ ks)
        by (rewrite elem_of_cons; tauto).
      by rewrite (bool_decide_ext _ _ Hiff).
Qed.

Lemma invalidatePattern_lookup p data k :
  invalidatePattern p data !! k = if includes k p then None else data !! k.
Proof.
  unfold invalidatePattern, keys. rewrite del_lookup.
  case_bool_decide as Hin.
  - apply list_elem_of_filter in Hin as [-> _]. done.
  - destruct (includes k p) eqn:E; [|done].
    destruct (data !! k) eqn:Ek; [|done].
    exfalso. apply Hin. apply list_elem_of_filter. split; [done|].
    apply elem_of_elements, elem_of_dom. eauto.
Qed.

(** C5.  [invalidatePattern p] removes a key exactly when [p] occurs in it
    as a substring, and every other key keeps its entry (value and expiry
    instant) unchanged. *)
Theorem invalidatePattern_deletes_exactly_matching p data k :
  (isSubstring p k /\ invalidatePattern p data !! k = None) \/
  (~ isSubstring p k /\ invalidatePattern p data !! k = data !! k).
Proof.
  rewrite invalidatePattern_lookup, <- includes_spec.
  destruct (includes k p); [left | right]; split; congruence.
Qed.

End CacheFacts.

(** ** Facts about [server/auth.ts] *)

Section AuthFacts.
Import Jwt Auth.
Variable env : option string.

Lemma tokenAge_gt_iff now p c :
  Qle_bool (tokenAge now p) (inject_Z c) = false <->
  (1000 * (iat p + c) < now)%Z.
Proof.
  rewrite <- not_true_iff_false, Qle_bool_iff.
  unfold tokenAge, Qle, Qminus, Qplus, Qdiv, Qmult, Qinv, Qopp, inject_Z; simpl.
  lia.
Qed.

Lemma seconds_elapsed issued now :
  (12 * 60 * 60 * 1000 < now - issued)%Z ->
  (1000 * (seconds issued + 12 * 60 * 60) < now)%Z.
Proof.
  unfold seconds. intros H.
  pose proof (Z.mul_div_le issued 1000 ltac:(lia)). lia.
Qed.

(** C10.  A token made by [generateToken] at clock reading [issued] is
    turned down by [verifyToken] at every later reading [now] that is more
    than twelve hours after [issued]; while fewer than twenty-four hours of
    token lifetime have run, the library check [jwt.verify] itself still
    accepts the token, so the refusal comes from the age test alone.  A
    token made by [generateRefreshToken] is returned by [verifyToken] for
    as long as its own seven-day expiry has not passed. *)
Theorem verifyToken_twelve_hour_cutoff (uid : Z) (ver : option Z) (issued now : Z) :
  (12 * 60 * 60 * 1000 < now - issued)%Z ->
  verifyToken env (generateToken env uid ver issued) now = None
  /\ ((seconds now < seconds issued + 24 * 60 * 60)%Z ->
      jwt_verify (generateToken env uid ver issued) (JWT_SECRET env) now
      = Ok (mkPayload uid (Some (default 1%Z ver)) None (seconds issued)
                      (seconds issued + 24 * 60 * 60)))
  /\ ((seconds now < seconds issued + 7 * 24 * 60 * 60)%Z ->
      verifyToken env (generateRefreshToken env uid ver issued) now
      = Some (mkPayload uid (Some (default 1%Z ver)) (Some "refresh")
                        (seconds issued) (seconds issued + 7 * 24 * 60 * 60))).
Proof.
  intros Hage. apply seconds_elapsed in Hage.
  unfold verifyToken, generateToken, generateRefreshToken, jwt_sign, jwt_verify.
  rewrite String.eqb_refl; simpl negb.
  split; [|split].
  - destruct (_ <=? _)%Z; [done|].
    change (12 * 60 * 60)%Q with (inject_Z (12 * 60 * 60)).
    rewrite (proj2 (tokenAge_gt_iff now _ _)) by (simpl; lia). done.
  - intros Hexp. cbn [exp]. by rewrite (proj2 (Z.leb_gt _ _)) by lia.
  - intros Hexp. cbn [exp]. rewrite (proj2 (Z.leb_gt _ _)) by lia.
    unfold isRefresh; simpl. by rewrite andb_false_r.
Qed.

End AuthFacts.

Lemma verifyToken_twelve_hour_cutoff_witness :
  (12 * 60 * 60 * 1000 < 1700043200124 - 1700000000123)%Z
  /\ Auth.verifyToken None (Auth.generateToken None 7 None 1700000000123)
       1700043200124 = None
  /\ Jwt.jwt_verify (Auth.generateToken None 7 None 1700000000123)
       (Auth.JWT_SECRET None) 1700043200124
     = Ok (Jwt.mkPayload 7 (Some 1%Z) None 1700000000 1700086400)
  /\ Auth.verifyToken None (Auth.generateRefreshToken None 7 None 1700000000123)
       1700043200124
     = Some (Jwt.mkPayload 7 (Some 1%Z) (Some "refresh") 1700000000 1700604800).
Proof.
  destruct (verifyToken_twelve_hour_cutoff None 7 None 1700000000123 1700043200124)
    as (H1 & H2 & H3); [lia|].
  split; [lia|].
  split; [exact H1|].
  split; [apply H2 | apply H3]; vm_compute; reflexivity.
Defined.

(** ** Facts about [server/websocket.ts] *)

Section WebSocketFacts.
Import WebSocket.

Lemma initial_invariant : registryInvariant initial /\ listenersInvariant initial.
Proof.
  unfold registryInvariant, listenersInvariant, owns, ownsIn, initial; simpl.
  repeat split.
  - intros u c (ids & H & _). by rewrite lookup_empty in H.
  - intros c [x H]. by rewrite lookup_empty in H.
  - intros u ids H. by rewrite lookup_empty in H.
  - by apply elem_of_nil in H.
  - by apply elem_of_nil in H.
  - constructor.
Qed.

Lemma handleConnection_users ws userId now rnd s other :
  userConnections (handleConnection ws userId now rnd s) !! other
  = if decide (userId = other)
    then Some (default ∅ (userConnections s !! userId)
               ∪ {[generateConnectionId now rnd]})
    else userConnections s !! other.
Proof.
  unfold handleConnection; simpl. rewrite lookup_alter.
  destruct (userConnections s !! userId) as [ids|] eqn:E.
  - case_decide; [by rewrite E | done].
  - case_decide.
    + by rewrite lookup_insert_eq.
    + by rewrite lookup_insert_ne.
Qed.

Lemma owns_handleConnection ws userId now rnd s other c :
  owns (handleConnection ws userId now rnd s) other c
  <-> owns s other c \/ (other = userId /\ c = generateConnectionId now rnd).
Proof.
  unfold owns, ownsIn. setoid_rewrite handleConnection_users.
  case_decide as Hu.
  - subst other. split.
    + intros (ids & [= <-] & Hin).
      apply elem_of_union in Hin as [Hin | Hin%elem_of_singleton].
      * left. destruct (userConnections s !! userId) as [old|]; simpl in Hin.
        -- by exists old.
        -- by apply not_elem_of_empty in Hin.
      * by right.
    + intros [(ids & E & Hin) | [_ ->]]; eexists; (split; [done|]).
      * rewrite E; simpl. set_solver.
      * set_solver.
  - split.
    + intros H; by left.
    + intros [H | [-> _]]; [done | congruence].
Qed.

Lemma onClose_users userId c conns users other :
  (onClose userId c conns users).2 !! other
  = if decide (userId = other)
    then ids ← users !! userId;
         if decide (ids ∖ {[c]} = ∅) then None else Some (ids ∖ {[c]})
    else users !! other.
Proof.
  unfold onClose; simpl. rewrite lookup_alter_eq.
  destruct (users !! userId) as [ids|] eqn:E; simpl.
  - destruct (Nat.eqb_spec (size (ids ∖ {[c]})) 0) as [H0 | H0].
    + apply size_empty_iff, leibniz_equiv in H0.
      rewrite lookup_delete, lookup_alter.
      case_decide; [by rewrite decide_True | done].
    + rewrite lookup_alter, E; simpl.
      case_decide; [|done].
      rewrite decide_False; [done|].
      intros Hemp. apply H0. rewrite Hemp. apply size_empty.
  - rewrite lookup_alter, E. by case_decide; subst.
Qed.

Lemma ownsIn_onClose userId c conns users other c' :
  ownsIn (onClose userId c conns users).2 other c'
  <-> ownsIn users other c' /\ ~ (other = userId /\ c' = c).
Proof.
  unfold ownsIn. setoid_rewrite onClose_users.
  case_decide as Hu.
  - subst other. destruct (users !! userId) as [ids|]; simpl.
    + case_decide as Hemp.
      * split; [by intros (? & [=] & _)|].
        intros [(ids' & [= <-] & Hin) Hne]. exfalso.
        assert (c' ∈ ids ∖ {[c]}) as Hc by set_solver.
        rewrite Hemp in Hc. by apply not_elem_of_empty in Hc.
      * split.
        -- intros (ids' & [= <-] & [Hin Hnc]%elem_of_difference). split.
           ++ by exists ids.
           ++ intros [_ ->]. apply Hnc. by apply elem_of_singleton.
        -- intros [(ids' & [= <-] & Hin) Hne]. eexists; split; [done|]. set_solver.
    + split; [by intros (? & [=] & _) | by intros [(? & [=] & _) _]].
  - split; [intros H; split; [done | intros [-> _]; done] | by intros [H _]].
Qed.

Lemma handleConnection_preserves ws userId now rnd s :
  connections s !! generateConnectionId now rnd = None ->
  fullInvariant s -> fullInvariant (handleConnection ws userId now rnd s).
Proof.
  set (c := generateConnectionId now rnd).
  intros Hfresh [(Ha & Hb & Hc) [Hl Hnd]].
  assert (Hconn : forall k, connections (handleConnection ws userId now rnd s) !! k
                       = if decide (c = k) then Some ws else connections s !! k).
  { intros k. unfold handleConnection; simpl. apply lookup_insert. }
  assert (Hnot : forall u, ~ owns s u c).
  { intros u Hu. apply Ha in Hu as [x Hx]. congruence. }
  split; [split; [|split] | split].
  - intros u k [Hu | [-> ->]]%owns_handleConnection; rewrite Hconn.
    + case_decide; [done | by eapply Ha].
    + by rewrite decide_True.
  - intros k. rewrite Hconn. case_decide as Hk.
    + subst k. intros _. exists userId. split.
      * apply owns_handleConnection. by right.
      * intros other [Ho | [-> _]]%owns_handleConnection; [by apply Hnot in Ho | done].
    + intros [u [Hu Huniq]]%Hb. exists u. split.
      * apply owns_handleConnection. by left.
      * intros other [Ho | [_ ->]]%owns_handleConnection; [by apply Huniq | done].
  - intros u ids. rewrite handleConnection_users. case_decide.
    + intros [= <-] Hempty.
      apply (not_elem_of_empty (C:=gset string) (generateConnectionId now rnd)).
      rewrite <- Hempty. apply elem_of_union. right. by apply elem_of_singleton.
    + apply Hc.
  - intros ws' u' c' Hin. rewrite Hconn, owns_handleConnection.
    unfold handleConnection in Hin; simpl in Hin.
    apply elem_of_app in Hin as [Hin | Hin%list_elem_of_singleton].
    + apply Hl in Hin as [H1 H2]. split; [|by left].
      case_decide as Hk; [|done]. subst c'. by apply Hnot in H2.
    + injection Hin as -> -> ->. split; [by rewrite decide_True | by right].
  - unfold handleConnection; simpl. rewrite map_app; simpl.
    apply NoDup_app. split; [done|]. split; [|apply NoDup_singleton].
    intros k Hk Hk'%list_elem_of_singleton. subst k.
    apply list_elem_of_fmap in Hk as ([[ws' u'] c'] & Hc' & Hin). simpl in Hc'.
    subst c'. apply Hl in Hin as [_ Hin]. by apply Hnot in Hin.
Qed.

Lemma onClose_preserves conns users l ls :
  fullInvariant (mkState conns users (l :: ls)) ->
  fullInvariant (mkState (onClose l.1.2 l.2 conns users).1
                         (onClose l.1.2 l.2 conns users).2 ls).
Proof.
  destruct l as [[ws userId] c]. cbn [fst snd].
  intros [(Ha & Hb & Hc) [Hl Hnd]]. unfold owns in *.
  cbn [connections userConnections listeners map] in *.
  destruct (Hl ws userId c) as [Hws Hown]; [apply list_elem_of_here|].
  apply NoDup_cons in Hnd as [Hnotin Hnd].
  destruct (Hb c) as (owner & _ & Huniq); [by eexists|].
  pose proof (Huniq _ Hown) as Howner.
  assert (Hconn : forall k, (onClose userId c conns users).1 !! k
                       = if decide (c = k) then None else conns !! k).
  { intros k. unfold onClose; simpl. apply lookup_delete. }
  split; [split; [|split] | split]; unfold owns;
    cbn [connections userConnections listeners].
  - intros u k [Hu Hne]%ownsIn_onClose. rewrite Hconn. case_decide as Hk.
    + subst k. exfalso. apply Hne. split; [|done].
      rewrite (Huniq _ Hu). done.
    + by eapply Ha.
  - intros k. rewrite Hconn. case_decide as Hk; [by intros [? ?]|].
    intros [u [Hu Hu']]%Hb. exists u. split.
    + apply ownsIn_onClose. split; [done | intros [_ ->]; done].
    + intros other [Ho _]%ownsIn_onClose. by apply Hu'.
  - intros u ids. rewrite onClose_users. case_decide.
    + destruct (users !! userId) as [old|]; simpl; [|done].
      case_decide; [done | by intros [= <-]].
    + apply Hc.
  - intros ws' u' c' Hin.
    assert (Hne : c' <> c).
    { intros ->. apply Hnotin. apply list_elem_of_fmap. by exists (ws', u', c). }
    destruct (Hl ws' u' c') as [H1 H2]; [by apply list_elem_of_further|].
    split.
    + rewrite Hconn. by rewrite decide_False.
    + apply ownsIn_onClose. split; [exact H2 | intros [_ ?]; done].
  - done.
Qed.

Lemma fullInvariant_listeners conns users ls ls' :
  ls ≡ₚ ls' ->
  fullInvariant (mkState conns users ls) -> fullInvariant (mkState conns users ls').
Proof.
  intros Hp [Hreg [Hl Hnd]]. split; [exact Hreg|]. split.
  - intros ws u c Hin. apply (Hl ws u c). cbn [listeners] in *. by rewrite Hp.
  - cbn [listeners] in *. by rewrite <- Hp.
Qed.

Lemma foldl_onClose_preserves fired rest conns users :
  fullInvariant (mkState conns users (fired ++ rest)) ->
  fullInvariant
    (mkState (foldl (fun cu l => onClose l.1.2 l.2 cu.1 cu.2) (conns, users) fired).1
             (foldl (fun cu l => onClose l.1.2 l.2 cu.1 cu.2) (conns, users) fired).2
             rest).
Proof.
  revert conns users. induction fired as [|l fired IH]; intros conns users Hinv.
  - exact Hinv.
  - cbn [foldl]. apply onClose_preserves in Hinv.
    destruct (onClose l.1.2 l.2 (conns, users).1 (conns, users).2) as [conns' users'] eqn:E.
    cbn [fst snd] in E. rewrite E in Hinv. by apply IH.
Qed.

Lemma handleClose_preserves ws s :
  fullInvariant s -> fullInvariant (handleClose ws s).
Proof.
  intros Hinv. unfold handleClose.
  pose proof (foldl_onClose_preserves
                (filter (fun l => l.1.1 = ws) (listeners s))
                (filter (fun l => l.1.1 <> ws) (listeners s))
                (connections s) (userConnections s)) as Hfold.
  destruct (foldl _ _ _) as [conns users]. apply Hfold.
  apply (fullInvariant_listeners _ _ (listeners s)).
  - symmetry. apply filter_app_complement.
  - by destruct s.
Qed.

Lemma step_preserves s e :
  freshIds s [e] -> fullInvariant s -> fullInvariant (step s e).
Proof.
  destruct e as [ws userId now rnd | ws]; intros [Hfresh _]; simpl.
  - by apply handleConnection_preserves.
  - apply handleClose_preserves.
Qed.

Lemma run_preserves events : forall s,
  freshIds s events -> fullInvariant s -> fullInvariant (run s events).
Proof.
  induction events as [|e events IH]; intros s Hfresh Hinv; [exact Hinv|].
  destruct Hfresh as [Hhead Hrest]. apply IH; [exact Hrest|].
  apply step_preserves; [by split | exact Hinv].
Qed.

(** C6, as amended.  Starting from the empty registry, after every
    connection and disconnection event of a run in which each new
    connection draws an id that is not currently a key of [connections],
    every id in some user's set is a key of [connections], every key of
    [connections] is in the set of exactly one user, and no user is mapped
    to the empty set. *)
Theorem registryInvariant_holds_for_fresh_ids events :
  freshIds initial events -> registryInvariant (run initial events).
Proof.
  intros Hfresh. apply (run_preserves events initial Hfresh), initial_invariant.
Qed.

(** C6, as stated.  Two connections that draw the same id at the same clock
    reading leave that id in the sets of two users. *)
Lemma registryInvariant_broken_by_id_collision :
  ~ registryInvariant
      (run initial [Connection 1 (Some "1") 1700000000000 "k3x9q";
                    Connection 2 (Some "2") 1700000000000 "k3x9q"]).
Proof.
  intros (_ & Hb & _).
  set (c := generateConnectionId 1700000000000 "k3x9q") in *.
  destruct (Hb c) as (u & _ & Huniq).
  { cbn [run foldl step]. unfold handleConnection at 1. cbn [connections].
    rewrite lookup_insert_eq. by eexists. }
  assert (H1 : Some "1" = u).
  { apply Huniq. cbn [run foldl step]. unfold owns.
    apply owns_handleConnection. left. apply owns_handleConnection. by right. }
  assert (H2 : Some "2" = u).
  { apply Huniq. cbn [run foldl step]. apply owns_handleConnection. by right. }
  congruence.
Qed.

End WebSocketFacts.

Lemma registryInvariant_holds_for_fresh_ids_witness :
  WebSocket.freshIds WebSocket.initial
    [WebSocket.Connection 1 (Some "1") 1700000000000 "k3x9q";
     WebSocket.Connection 2 (Some "1") 1700000000000 "a81zc";
     WebSocket.Connection 3 None 1700000000001 "k3x9q";
     WebSocket.Close 1;
     WebSocket.Close 3]
  /\ WebSocket.registryInvariant
       (WebSocket.run WebSocket.initial
          [WebSocket.Connection 1 (Some "1") 1700000000000 "k3x9q";
           WebSocket.Connection 2 (Some "1") 1700000000000 "a81zc";
           WebSocket.Connection 3 None 1700000000001 "k3x9q";
           WebSocket.Close 1;
           WebSocket.Close 3]).
Proof.
  assert (Hfresh : WebSocket.freshIds WebSocket.initial
    [WebSocket.Connection 1 (Some "1") 1700000000000 "k3x9q";
     WebSocket.Connection 2 (Some "1") 1700000000000 "a81zc";
     WebSocket.Connection 3 None 1700000000001 "k3x9q";
     WebSocket.Close 1;
     WebSocket.Close 3]).
  { cbn [WebSocket.freshIds]. repeat split; vm_compute; reflexivity. }
  split; [exact Hfresh | exact (registryInvariant_holds_for_fresh_ids _ Hfresh)].
Defined.

(** ** Facts about [server/routes.ts] *)

Section CharacterFacts.
Import Js Routes.

Lemma wordChar_plain c :
  isWordChar c = true -> isWhiteSpace c = false /\ encodeChar c = String c EmptyString.
Proof.
  unfold isWordChar, isLower, isUpper, isDigit, isWhiteSpace, encodeChar, code.
  generalize (nat_of_ascii c); intros n.
  rewrite !orb_true_iff, !andb_true_iff, !Nat.leb_le, Nat.eqb_eq.
  intros H. split.
  - apply not_true_iff_false.
    rewrite !orb_true_iff, !andb_true_iff, !Nat.leb_le, !Nat.eqb_eq. lia.
  - by rewrite !(proj2 (Nat.eqb_neq n _)) by lia.
Qed.

Lemma trimEnd_plain s :
  forallb (fun c => negb (isWhiteSpace c)) (chars s) = true -> trimEnd s = s.
Proof.
  induction s as [|c s IH]; simpl; [done|].
  rewrite andb_true_iff, negb_true_iff. intros [Hc Hs].
  rewrite (IH Hs), Hc. by destruct s.
Qed.

Lemma trim_plain s :
  forallb (fun c => negb (isWhiteSpace c)) (chars s) = true -> trim s = s.
Proof.
  intros H. unfold trim.
  assert (trimStart s = s) as ->; [|by apply trimEnd_plain].
  destruct s as [|c s]; simpl in *; [done|].
  apply andb_true_iff in H as [Hc _]. apply negb_true_iff in Hc. by rewrite Hc.
Qed.

Lemma encode_plain s :
  forallb (fun c => String.eqb (encodeChar c) (String c EmptyString)) (chars s) = true ->
  encode s = s.
Proof.
  induction s as [|c s IH]; simpl; [done|].
  rewrite andb_true_iff, String.eqb_eq. intros [Hc Hs].
  by rewrite Hc, (IH Hs).
Qed.

(** Text that passes the username pattern is left alone by [sanitizeInput]. *)
Lemma username_unchanged s :
  matchesUsername s = true -> encode (trim s) = s.
Proof.
  unfold matchesUsername. rewrite andb_true_iff. intros [_ Hall].
  assert (Hplain : forall c, c ∈ chars s ->
            isWhiteSpace c = false /\ encodeChar c = String c EmptyString).
  { intros c Hc. apply wordChar_plain.
    rewrite forallb_forall in Hall. apply Hall. by apply list_elem_of_In. }
  rewrite trim_plain.
  - apply encode_plain. apply forallb_forall. intros c Hc%list_elem_of_In.
    apply String.eqb_eq. by apply Hplain.
  - apply forallb_forall. intros c Hc%list_elem_of_In.
    apply negb_true_iff. by apply Hplain.
Qed.

Lemma decimalPrefix_string_of_uint d :
  decimalPrefix (NilEmpty.string_of_uint d) = d.
Proof. induction d; simpl; by rewrite ?IHd. Qed.

Lemma parseInt_digits d :
  d <> Decimal.Nil ->
  parseInt (NilEmpty.string_of_uint d) = Some (Z.of_uint d).
Proof.
  intros Hd.
  assert (Hdec : decimalValue (NilEmpty.string_of_uint d) = Some (Z.of_uint d)).
  { unfold decimalValue. rewrite decimalPrefix_string_of_uint. by destruct d. }
  rewrite <- Hdec.
  destruct d as [|d|d|d|d|d|d|d|d|d|d]; try done;
    destruct d; reflexivity.
Qed.

(** [parseInt(String(n))] is [n] for every non-negative integer [n]. *)
Lemma parseInt_decimal n : (0 <= n)%Z -> parseInt (decimal n) = Some n.
Proof.
  intros Hn. unfold decimal. destruct n as [|p|p]; [reflexivity| |lia].
  cbn [Z.to_int NilZero.string_of_int].
  pose proof (DecimalPos.Unsigned.to_uint_nonnil p) as Hnil.
  assert (NilZero.string_of_uint (Pos.to_uint p)
          = NilEmpty.string_of_uint (Pos.to_uint p)) as ->.
  { unfold NilZero.string_of_uint. by destruct (Pos.to_uint p). }
  rewrite parseInt_digits by done.
  unfold Z.of_uint. by rewrite DecimalPos.Unsigned.of_to.
Qed.

End CharacterFacts.

Section RegisterFacts.
Import Js Http Routes.
Variable env : option string.
Variable isEmail : string -> bool.
Variable normalizeEmail : string -> option string.
Variable hashPassword : string -> string.

Lemma registerSchema_parse_throw body e :
  registerSchema_parse body = Throw e ->
  exists i issues, e = ZodError (i :: issues).
Proof.
  unfold registerSchema_parse, parseResult.
  destruct (requiredString body "username"), (requiredString body "email"),
    (requiredString body "password"), (optionalString body "fullName"),
    (optionalString body "phone"); simpl; intros [= <-]; by eexists _, _.
Qed.

Lemma registerSchema_parse_username body validated :
  registerSchema_parse body = Ok validated ->
  body !! "username" = Some (JStr (User.i_username validated)).
Proof.
  unfold registerSchema_parse, parseResult, requiredString.
  destruct (body !! "username") as [[| | | |s| |]|]; simpl; try done.
  destruct (body !! "email") as [[| | | |?| |]|]; simpl; try done.
  destruct (body !! "password") as [[| | | |?| |]|]; simpl; try done.
  destruct (optionalString body "fullName"); simpl; try done.
  destruct (optionalString body "phone"); simpl; try done.
  by intros [= <-].
Qed.

Lemma getUserByUsername_member u db :
  u ∈ Storage.users db -> is_Some (Storage.getUserByUsername (User.username u) db).
Proof.
  intros Hu. unfold Storage.getUserByUsername, Storage.first.
  destruct (filter _ _) as [|x l] eqn:E; [|by eexists].
  assert (u ∈ filter (fun v => User.username v = User.username u) (Storage.users db))
    as Hin by (by apply list_elem_of_filter).
  rewrite E in Hin. by apply elem_of_nil in Hin.
Qed.

Lemma sanitizeEmail_other body field :
  field <> "email" ->
  sanitizeBody (sanitizeEmail normalizeEmail body) !! field = sanitizeBody body !! field.
Proof.
  intros Hne. unfold sanitizeBody, sanitizeEmail. rewrite !lookup_fmap.
  destruct (body !! "email") as [[]|]; by rewrite lookup_insert_ne.
Qed.

Lemma validateRegistration_username body body' s :
  body !! "username" = Some (JStr s) ->
  validateRegistration isEmail normalizeEmail body = ([], body') ->
  matchesUsername s = true
  /\ sanitizeBody body' !! "username" = sanitizeBody body !! "username".
Proof.
  unfold validateRegistration, fieldTexts. intros Hname. rewrite Hname.
  intros [= Herrors <-]. split.
  - unfold check in Herrors. cbn [flat_map] in Herrors.
    destruct (isLength 3 50 s); [|done].
    by destruct (matchesUsername s).
  - by apply sanitizeEmail_other.
Qed.

(** C1, as amended.  When the username of a [POST /api/register] request is
    that of a stored user, the answer is 400 and nothing changes: no user is
    created and no session is written.  The message is ['Username already
    exists'] when the request draws no field error, and ['Invalid input
    data'] with the field errors otherwise. *)
Theorem postRegister_duplicate_username req now db u :
  u ∈ Storage.users db ->
  json req !! "username" = Some (JStr (User.username u)) ->
  postRegister env isEmail normalizeEmail hashPassword req now db
  = (mkResponse 400
       match registrationIssues isEmail normalizeEmail req with
       | [] => Message "Username already exists"
       | issues => MessageErrors "Invalid input data" issues
       end,
     db, None).
Proof.
  intros Hu Hname. unfold postRegister, registrationIssues.
  destruct (validateRegistration isEmail normalizeEmail (json req))
    as [errors body] eqn:Ev.
  destruct errors as [|e errors]; [|reflexivity].
  apply (validateRegistration_username _ _ _ Hname) in Ev as [Hmatch Hbody].
  assert (Hsan : sanitizeBody body !! "username" = Some (JStr (User.username u))).
  { rewrite Hbody. unfold sanitizeBody. rewrite lookup_fmap, Hname. simpl.
    by rewrite (username_unchanged _ Hmatch). }
  cbn [sanitizeInput]. unfold registerHandler.
  destruct (registerSchema_parse (sanitizeBody body)) as [validated|e] eqn:Ep.
  - apply registerSchema_parse_username in Ep. rewrite Hsan in Ep.
    injection Ep as <-.
    by destruct (getUserByUsername_member u db Hu) as [found ->].
  - by destruct (registerSchema_parse_throw _ _ Ep) as (i & issues & ->).
Qed.

End RegisterFacts.

Section ApproveFacts.
Import Js Http Routes.
Variable env : option string.

Lemma getUser_id id db user :
  Storage.getUser id db = Ok (Some user) -> parseInt id = Some (User.id user).
Proof.
  unfold Storage.getUser, Storage.bindInteger, Storage.first.
  destruct (parseInt id) as [n|]; simpl; [|done].
  destruct (Storage.int4 n); simpl; [|done].
  intros [= Hhead]. apply head_Some_elem_of, list_elem_of_filter in Hhead as [-> _].
  done.
Qed.

(** What [authenticate] has established when it calls [next()]: the user
    on the request is a copy of the active row that [getUser] returns for
    its id. *)
Lemma authenticate_next req now db user :
  Auth.authenticate env req now db = Next user ->
  exists row,
    Storage.getUser (decimal (User.id user)) db = Ok (Some row)
    /\ User.id row = User.id user /\ User.role row = User.role user
    /\ User.isActive row = true.
Proof.
  unfold Auth.authenticate, Auth.unauthorized.
  repeat case_match; try discriminate; intros [= <-]; cbn [User.id User.role].
  all: match goal with
       | H : Storage.getUser (decimal ?u) ?d = Ok (Some ?r) |- _ =>
           pose proof (getUser_id _ _ _ H) as Hid;
           rewrite parseInt_decimal in Hid by lia;
           injection Hid as Hid; rewrite <- Hid;
           exists r; repeat split; try done;
           by destruct (User.isActive r)
       end.
Qed.

Lemma approveService_rows n now db :
  Storage.int4 n = true ->
  Storage.approveService (Some n) now db
  = (Ok (Storage.first
           (filter (fun s => Service.id s = n)
              (map (fun s => if bool_decide (Service.id s = n)
                             then Service.approve now s else s)
                   (Storage.services db)))),
     Storage.set_services
       (map (fun s => if bool_decide (Service.id s = n)
                      then Service.approve now s else s)
            (Storage.services db)) db).
Proof. intros Hn. unfold Storage.approveService, Storage.bindInteger. by rewrite Hn. Qed.

(** C2.  On [PATCH /api/services/:id/approve], a request that
    [authenticate] lets through for a user whose role is not ['admin'] is
    answered 403 and the database is left as it was.  For an admin, when
    the route parameter reads as the 32-bit integer [n], the answer is 200
    and afterwards every service with id [n] has [isApproved] true (and
    is otherwise the row it was, up to [updatedAt]), while the services
    with another id and all other tables are as before. *)
Theorem patchApprove_admin_only req now db user :
  Auth.authenticate env req now db = Next user ->
  (User.role user <> "admin" ->
   patchApprove env req now db = (respond 403 "Admin access required", db))
  /\ (User.role user = "admin" ->
      forall n, parseInt (params_id req) = Some n -> Storage.int4 n = true ->
      exists returned db',
        patchApprove env req now db = (mkResponse 200 (JsonService returned), db')
        /\ Storage.services db'
           = map (fun s => if bool_decide (Service.id s = n)
                           then Service.approve now s else s)
                 (Storage.services db)
        /\ (forall s, s ∈ Storage.services db' -> Service.id s = n ->
            Service.isApproved s = Some true)
        /\ db' = Storage.set_services (Storage.services db') db).
Proof.
  intros Hauth. unfold patchApprove. rewrite Hauth.
  destruct (authenticate_next _ _ _ _ Hauth) as (row & Hget & _ & Hrole & _).
  unfold approveHandler. rewrite Hget. cbn [fmap option_fmap option_map].
  split.
  - intros Hne. rewrite bool_decide_eq_false_2; [done|].
    intros [= H]. congruence.
  - intros Hadmin n Hparse Hint.
    rewrite bool_decide_eq_true_2 by congruence. cbn [negb].
    rewrite Hparse, (approveService_rows n now db Hint).
    eexists _, _. split; [reflexivity|]. split; [reflexivity|]. split; [|reflexivity].
    intros s Hs Hid. cbn [Storage.set_services Storage.services] in Hs.
    apply list_elem_of_In, in_map_iff in Hs as (s0 & <- & _).
    destruct (decide (Service.id s0 = n)) as [Hs0 | Hs0].
    + by rewrite bool_decide_eq_true_2.
    + rewrite bool_decide_eq_false_2 in Hid by done. done.
Qed.

End ApproveFacts.

(** C1, as stated.  A registration that repeats a stored username and fails
    validation is answered 400 with ['Invalid input data'], not with
    ['Username already exists']. *)
Lemma postRegister_duplicate_username_invalid_input :
  Sample.alice ∈ Storage.users Sample.db
  /\ Http.json Sample.duplicateRegistration !! "username"
     = Some (Js.JStr (User.username Sample.alice))
  /\ Routes.postRegister None (fun _ => true) Some (fun p => p)
       Sample.duplicateRegistration 1700000000000 Sample.db
     = (Http.mkResponse 400
          (Http.MessageErrors "Invalid input data" ["password"; "password"]),
        Sample.db, None)
  /\ Http.body
       (Routes.postRegister None (fun _ => true) Some (fun p => p)
          Sample.duplicateRegistration 1700000000000 Sample.db).1.1
     <> Http.Message "Username already exists".
Proof.
  split; [apply list_elem_of_here|].
  split; [vm_compute; reflexivity|].
  split; [vm_compute; reflexivity|].
  vm_compute. discriminate.
Qed.

Lemma postRegister_duplicate_username_witness :
  Sample.alice ∈ Storage.users Sample.db
  /\ Http.json Sample.duplicateRegistrationValid !! "username"
     = Some (Js.JStr (User.username Sample.alice))
  /\ Routes.postRegister None (fun _ => true) Some (fun p => p)
       Sample.duplicateRegistrationValid 1700000000000 Sample.db
     = (Http.mkResponse 400 (Http.Message "Username already exists"),
        Sample.db, None).
Proof.
  assert (Hin : Sample.alice ∈ Storage.users Sample.db) by apply list_elem_of_here.
  assert (Hname : Http.json Sample.duplicateRegistrationValid !! "username"
                  = Some (Js.JStr (User.username Sample.alice)))
    by (vm_compute; reflexivity).
  split; [exact Hin|]. split; [exact Hname|].
  exact (postRegister_duplicate_username None (fun _ => true) Some (fun p => p)
           Sample.duplicateRegistrationValid 1700000000000 Sample.db Sample.alice
           Hin Hname).
Defined.

Lemma patchApprove_admin_only_witness :
  Auth.authenticate None Sample.approveByBob 1700000000000 Sample.db
  = Http.Next (User.mk 2 "bob" "bob@example.com" None None None "user" true 0 0)
  /\ Routes.patchApprove None Sample.approveByBob 1700000000000 Sample.db
     = (Routes.respond 403 "Admin access required", Sample.db)
  /\ Auth.authenticate None Sample.approveByAlice 1700000000000 Sample.db
     = Http.Next (User.mk 1 "alice" "alice@example.com" None None None "admin" true 0 0)
  /\ exists returned db',
       Routes.patchApprove None Sample.approveByAlice 1700000000000 Sample.db
       = (Http.mkResponse 200 (Http.JsonService returned), db')
       /\ Storage.services db' = [Service.approve 1700000000000 Sample.plumbing].
Proof.
  assert (Hbob : Auth.authenticate None Sample.approveByBob 1700000000000 Sample.db
                 = Http.Next (User.mk 2 "bob" "bob@example.com" None None None
                                      "user" true 0 0))
    by (vm_compute; reflexivity).
  assert (Halice : Auth.authenticate None Sample.approveByAlice 1700000000000 Sample.db
                   = Http.Next (User.mk 1 "alice" "alice@example.com" None None None
                                        "admin" true 0 0))
    by (vm_compute; reflexivity).
  split; [exact Hbob|]. split.
  - apply (proj1 (patchApprove_admin_only None _ _ _ _ Hbob)). discriminate.
  - split; [exact Halice|].
    destruct (proj2 (patchApprove_admin_only None _ _ _ _ Halice) eq_refl 10%Z)
      as (returned & db' & Hres & Hrows & _); [reflexivity | reflexivity |].
    exists returned, db'. split; [exact Hres | exact Hrows].
Defined.

Section ValidationFacts.
Import Js Http Routes.

(** In [POST /api/categories] a body that fails the schema is answered 500. *)
Lemma categoriesHandler_schema_failure req now db e :
  insertCategorySchema_parse (json req) = Throw e ->
  categoriesHandler req now db = (respond 500 "Failed to create category", db).
Proof. intros H. unfold categoriesHandler. by rewrite H. Qed.

(** In [POST /api/register] a body that fails the schema is answered 400
    with the field errors. *)
Lemma registerHandler_schema_failure env hashPassword session body now db e :
  registerSchema_parse body = Throw e ->
  exists issues,
    e = ZodError issues
    /\ registerHandler env hashPassword session body now db
       = (mkResponse 400 (MessageErrors "Invalid input data" issues), db, None).
Proof.
  intros H. unfold registerHandler. rewrite H.
  destruct (registerSchema_parse_throw _ _ H) as (i & issues & ->). by eexists.
Qed.

(** C3.  The body that [alice], an admin, posts to [POST /api/categories]
    has no [name] and fails the schema; the handler answers 500 with
    ['Failed to create category'], not 400 with field errors. *)
Theorem postCategories_schema_failure_is_500 :
  insertCategorySchema_parse (json Sample.categoryWithoutName)
  = Throw (ZodError ["name"])
  /\ postCategories None Sample.categoryWithoutName 1700000000000 Sample.db
     = (respond 500 "Failed to create category", Sample.db).
Proof. split; vm_compute; reflexivity. Qed.

End ValidationFacts.

(** ** Facts about support tickets *)

Section TicketFacts.
Import Js Http Routes.

Lemma createSupportTicket_status ticket now db row db' :
  Storage.createSupportTicket ticket now db = (Ok row, db') ->
  Ticket.status row = stored (Some Ticket.open) (Ticket.i_status ticket).
Proof.
  unfold Storage.createSupportTicket.
  destruct (Ticket.i_id ticket); repeat case_match; try discriminate;
    by intros [= <- _].
Qed.

Lemma updateSupportTicket_rows id p now db returned db' :
  Storage.updateSupportTicket id p now db = (Ok returned, db') ->
  Storage.supportTickets db'
  = map (fun r => if bool_decide (Ticket.id r = id) then Ticket.set p now r else r)
        (Storage.supportTickets db).
Proof.
  unfold Storage.updateSupportTicket, Storage.bindInteger.
  destruct (Storage.int4 id); [|discriminate].
  destruct (_ || _); [discriminate|]. by intros [= _ <-].
Qed.

Lemma insertSupportTicketSchema_parse_status body ticket :
  insertSupportTicketSchema_parse body = Ok ticket ->
  body !! "status" = None -> Ticket.i_status ticket = Absent.
Proof.
  intros Hparse Hnone. revert Hparse.
  unfold insertSupportTicketSchema_parse, parseResult, optionalStatus.
  rewrite Hnone.
  destruct (optionalId body "id"); [|done].
  destruct (requiredString body "ticketNumber"); [|done].
  destruct (requiredString body "name"); [|done].
  destruct (requiredString body "email"); [|done].
  destruct (requiredString body "subject"); [|done].
  destruct (requiredString body "message"); [|done].
  destruct (optionalPriority body "priority"); [|done].
  destruct (optionalInteger body "categoryId"); [|done].
  destruct (optionalString body "adminResponse"); [|done].
  destruct (optionalDate body "createdAt"); [|done].
  destruct (optionalDate body "updatedAt"); [|done].
  by intros [= <-].
Qed.

(** C7, as amended.  A ticket is created with the status that the request
    carries, and with [open] when it carries none; in particular a ticket
    made by [POST /api/support/tickets] from a body without [status] is
    [open].  [updateSupportTicket] writes to every ticket with the given id
    the status that its argument carries, whatever the status was, and
    keeps the status when the argument carries none; the other tickets are
    as before. *)
Theorem ticket_status_is_what_the_caller_gives :
  (forall ticket now db row db',
      Storage.createSupportTicket ticket now db = (Ok row, db') ->
      Ticket.status row = stored (Some Ticket.open) (Ticket.i_status ticket))
  /\ (forall req now db ticket db',
      postSupportTickets req now db = (mkResponse 200 (JsonTicket ticket), db') ->
      json req !! "status" = None ->
      Ticket.status ticket = Some Ticket.open)
  /\ (forall id p now db returned db',
      Storage.updateSupportTicket id p now db = (Ok returned, db') ->
      Storage.supportTickets db'
      = map (fun r => if bool_decide (Ticket.id r = id)
                      then Ticket.set p now r else r)
            (Storage.supportTickets db)
      /\ forall r, Ticket.status (Ticket.set p now r)
                   = updated (Ticket.status r) (Ticket.p_status p)).
Proof.
  split; [exact createSupportTicket_status|]. split.
  - intros req now db ticket db'. unfold postSupportTickets.
    destruct (insertSupportTicketSchema_parse (json req)) as [data|e] eqn:Ep;
      [|discriminate].
    destruct (Storage.createSupportTicket data now db) as [[row|e] db1] eqn:Ec;
      [|discriminate].
    intros [= <- <-] Hnone.
    rewrite (createSupportTicket_status _ _ _ _ _ Ec).
    by rewrite (insertSupportTicketSchema_parse_status _ _ Ep Hnone).
  - intros id p now db returned db' Hu. split.
    + exact (updateSupportTicket_rows _ _ _ _ _ _ Hu).
    + reflexivity.
Qed.

(** C7, as stated.  A ticket that was created [open] and then set to
    [resolved] is set back to [open] by a further [updateSupportTicket];
    and a ticket is created [closed] when the request says so. *)
Lemma updateSupportTicket_moves_status_back :
  map Ticket.status (Storage.supportTickets Sample.created) = [Some Ticket.open]
  /\ map Ticket.status (Storage.supportTickets Sample.thenResolved)
     = [Some Ticket.resolved]
  /\ map Ticket.status (Storage.supportTickets Sample.thenReopened)
     = [Some Ticket.open]
  /\ ~ movesForward (Some Ticket.resolved) (Some Ticket.open)
  /\ map Ticket.status
       (Storage.supportTickets
          (Storage.createSupportTicket Sample.ticketClosed 1700000000000 Sample.db).2)
     = [Some Ticket.closed].
Proof.
  split; [vm_compute; reflexivity|].
  split; [vm_compute; reflexivity|].
  split; [vm_compute; reflexivity|].
  split; [unfold movesForward, stage; lia | vm_compute; reflexivity].
Qed.

End TicketFacts.

Lemma ticket_status_is_what_the_caller_gives_witness :
  (exists row db',
      Storage.createSupportTicket Sample.ticket 1700000000000 Sample.db = (Ok row, db')
      /\ Ticket.status row = Some Ticket.open)
  /\ (exists returned db',
      Storage.updateSupportTicket 1 (Sample.setStatus Ticket.resolved)
        1700000001000 Sample.created = (Ok returned, db')
      /\ map Ticket.status (Storage.supportTickets db') = [Some Ticket.resolved]).
Proof.
  destruct ticket_status_is_what_the_caller_gives as (Hcreate & _ & Hupdate).
  split.
  - destruct (Storage.createSupportTicket Sample.ticket 1700000000000 Sample.db)
      as [[row|e] db'] eqn:E; [|vm_compute in E; discriminate].
    exists row, db'. split; [reflexivity|].
    exact (Hcreate _ _ _ _ _ E).
  - destruct (Storage.updateSupportTicket 1 (Sample.setStatus Ticket.resolved)
                1700000001000 Sample.created)
      as [[returned|e] db'] eqn:E; [|vm_compute in E; discriminate].
    exists returned, db'. split; [reflexivity|].
    destruct (Hupdate _ _ _ _ _ _ E) as [-> _]. vm_compute. reflexivity.
Defined.

(** ** Facts about [server/payments.ts] and [server/twoFactorAuth.ts] *)

Section PaymentFacts.
Import Monitoring Payments.

Lemma createPaymentRecord_not_defined :
  "createPaymentRecord" ∉ Storage.DatabaseStorage_methods.
Proof.
  intros H. apply (bool_decide_eq_true_2 _) in H. vm_compute in H. discriminate.
Qed.

Lemma ge_not_lt a b : Js.ge a b = true -> Js.lt a b = false.
Proof.
  destruct a, b; simpl; try done. intros H. by rewrite H.
Qed.

(** Over a storage object that does have a [createPaymentRecord] which
    accepts the record, the body stores through exactly one call of that
    method and returns the pending intent. *)
Lemma createPSEPaymentWith_stores_pending f payment now rnd w db' :
  validPSEInput payment ->
  f (mkPaymentRecord ("pse_" +:+ Js.decimal now +:+ "_" +:+ rnd)
       (amount payment) "COP" "pending" "pse" (bank payment)
       (documentType payment) (documentNumber payment) (description payment))
    (db w) = (Ok tt, db') ->
  createPSEPaymentWith (mkPaymentStorage (Some f)) payment now rnd w
  = (Ok (mkPaymentIntent ("pse_" +:+ Js.decimal now +:+ "_" +:+ rnd)
           (amount payment) "COP" "pending" "pse" payment),
     logSecurityEvent "pse_payment_created"
       ("pse_" +:+ Js.decimal now +:+ "_" +:+ rnd) "info"
       (mkWorld db' (securityLog w) (totpChecks w))).
Proof.
  intros [Hamount Hdoc] Hf. unfold createPSEPaymentWith.
  rewrite (ge_not_lt _ _ Hamount), (bool_decide_eq_true_2 _ Hdoc).
  cbn [negb Js.callMethod createPaymentRecord]. by rewrite Hf.
Qed.

(** C4.  On an input with an amount of at least 5000 and a document type
    among CC, CE and NIT, [createPSEPayment] raises a [TypeError] at its
    call of [storage.createPaymentRecord]: nothing is stored and no intent
    is returned.  The rest of the body is as it should be: over a storage
    object that has the method and accepts the record, the body hands it
    one record and returns one intent, both pending, in COP, by pse and
    with the amount of the input, and besides that only writes to the
    security log. *)
Theorem createPSEPayment_valid_input_throws payment now rnd w :
  validPSEInput payment ->
  createPSEPayment payment now rnd w
  = (Throw (TypeError "storage.createPaymentRecord is not a function"), w)
  /\ forall f db',
      f (mkPaymentRecord ("pse_" +:+ Js.decimal now +:+ "_" +:+ rnd)
           (amount payment) "COP" "pending" "pse" (bank payment)
           (documentType payment) (documentNumber payment) (description payment))
        (db w) = (Ok tt, db') ->
      createPSEPaymentWith (mkPaymentStorage (Some f)) payment now rnd w
      = (Ok (mkPaymentIntent ("pse_" +:+ Js.decimal now +:+ "_" +:+ rnd)
               (amount payment) "COP" "pending" "pse" payment),
         logSecurityEvent "pse_payment_created"
           ("pse_" +:+ Js.decimal now +:+ "_" +:+ rnd) "info"
           (mkWorld db' (securityLog w) (totpChecks w))).
Proof.
  intros Hvalid. split.
  - destruct Hvalid as [Hamount Hdoc].
    unfold createPSEPayment, createPSEPaymentWith.
    by rewrite (ge_not_lt _ _ Hamount), (bool_decide_eq_true_2 _ Hdoc).
  - intros f db'. by apply createPSEPaymentWith_stores_pending.
Qed.

(** C8.  [createPSEPayment] raises an error on every input, also on those
    that pass both input tests, and leaves the database and the logs as
    they were.  The two tests themselves refuse what they should: an input
    with a number below 5000 or a document type outside CC, CE, NIT gets
    the error of the first test that fails. *)
Theorem createPSEPayment_always_throws payment now rnd w :
  (exists e, createPSEPayment payment now rnd w = (Throw e, w))
  /\ (Js.lt (amount payment) (Js.ofZ 5000) = true ->
      createPSEPayment payment now rnd w
      = (Throw (Error "Monto mínimo para PSE es $5,000 COP"), w))
  /\ (Js.lt (amount payment) (Js.ofZ 5000) = false ->
      documentType payment ∉ ["CC"; "CE"; "NIT"] ->
      createPSEPayment payment now rnd w
      = (Throw (Error "Tipo de documento inválido"), w)).
Proof.
  unfold createPSEPayment, createPSEPaymentWith. split; [|split].
  - destruct (Js.lt _ _); [by eexists|].
    destruct (negb _); by eexists.
  - by intros ->.
  - intros -> Hdoc. by rewrite (bool_decide_eq_false_2 _ Hdoc).
Qed.

End PaymentFacts.

Lemma createPSEPayment_valid_input_throws_witness :
  validPSEInput Sample.payment
  /\ Payments.createPSEPayment Sample.payment 1700000000000 "k3x9q" Sample.world
     = (Throw (TypeError "storage.createPaymentRecord is not a function"),
        Sample.world).
Proof.
  assert (Hvalid : validPSEInput Sample.payment).
  { split; [reflexivity | apply list_elem_of_here]. }
  split; [exact Hvalid|].
  exact (proj1 (createPSEPayment_valid_input_throws _ 1700000000000 "k3x9q" _ Hvalid)).
Defined.

Lemma createPSEPayment_always_throws_witness :
  Js.lt (Payments.amount Sample.payment) (Js.ofZ 5000) = false
  /\ Payments.documentType Sample.payment ∈ ["CC"; "CE"; "NIT"]
  /\ exists e,
       Payments.createPSEPayment Sample.payment 1700000000000 "k3x9q" Sample.world
       = (Throw e, Sample.world).
Proof.
  split; [reflexivity|]. split; [apply list_elem_of_here|].
  exact (proj1 (createPSEPayment_always_throws Sample.payment 1700000000000 "k3x9q"
                  Sample.world)).
Defined.

Section TwoFactorFacts.
Import Monitoring TwoFactor.
Variable totpVerify : string -> string -> Z -> bool.
Variable toUpperCase : string -> string.

Lemma getUserTwoFactor_not_defined :
  "getUserTwoFactor" ∉ Storage.DatabaseStorage_methods.
Proof.
  intros H. apply (bool_decide_eq_true_2 _) in H. vm_compute in H. discriminate.
Qed.

(** Over a storage object that does have a [getUserTwoFactor], a user
    whose record is absent or not active is let through for every token,
    with no one-time-password check and no change of state. *)
Lemma validate2FALoginWith_inactive f remove userId token now w record :
  f userId (db w) = Ok record ->
  isActive <$> record <> Some true ->
  validate2FALoginWith totpVerify toUpperCase
    (mkTwoFactorStorage (Some f) remove) userId token now w
  = (Ok true, w).
Proof.
  intros Hf Hinactive. unfold validate2FALoginWith.
  cbn [Js.callMethod getUserTwoFactor]. rewrite Hf.
  destruct record as [[secret codes [|]]|]; simpl in *; congruence.
Qed.

(** C9.  [validate2FALogin] raises a [TypeError] at its first statement,
    the call of [storage.getUserTwoFactor], for every user and token; it
    returns neither [true] nor [false], and changes no state.  The early
    return that follows is as it should be: over a storage object that has
    the method and answers with an absent or inactive record, the body
    returns [true] for every token, asks for no one-time-password check and
    changes no state. *)
Theorem validate2FALogin_always_throws userId token now w :
  validate2FALogin totpVerify toUpperCase userId token now w
  = (Throw (TypeError "storage.getUserTwoFactor is not a function"), w)
  /\ forall f remove record,
      f userId (db w) = Ok record ->
      isActive <$> record <> Some true ->
      validate2FALoginWith totpVerify toUpperCase
        (mkTwoFactorStorage (Some f) remove) userId token now w
      = (Ok true, w).
Proof.
  split.
  - unfold validate2FALogin, validate2FALoginWith, storage. reflexivity.
  - intros f remove record. apply validate2FALoginWith_inactive.
Qed.

End TwoFactorFacts.

Lemma validate2FALogin_always_throws_witness :
  TwoFactor.validate2FALogin (fun _ _ _ => false) (fun s => s) "2" "123456"
    1700000000000 Sample.world
  = (Throw (TypeError "storage.getUserTwoFactor is not a function"), Sample.world)
  /\ TwoFactor.validate2FALoginWith (fun _ _ _ => false) (fun s => s)
       (TwoFactor.mkTwoFactorStorage (Some (fun _ _ => Ok None)) None)
       "2" "123456" 1700000000000 Sample.world
     = (Ok true, Sample.world).
Proof.
  destruct (validate2FALogin_always_throws (fun _ _ _ => false) (fun s => s)
              "2" "123456" 1700000000000 Sample.world) as [Hthrow Hreturn].
  split; [exact Hthrow|].
  apply (Hreturn (fun _ _ => Ok None) None None); [reflexivity | discriminate].
Defined.

(** * Further properties *)

(** ** Facts about the cache operations *)

Section CacheManagerFacts.
Import Cache CacheManager.
Context {V : Type}.
Variable truthy : V -> bool.
Implicit Types (data : gmap string (Entry V)) (key : string).

(** An entry is readable at [now] when it has no expiry instant or that
    instant has not passed. *)
Lemma get_live key now data e :
  data !! key = Some e -> (t e = 0 \/ now <= t e)%Z ->
  get key now data = (Some (v e), data).
Proof.
  intros He Hlive. unfold get. rewrite He.
  destruct (Z.eqb_spec (t e) 0) as [H0|H0]; [done|].
  destruct (Z.ltb_spec (t e) now); [lia | done].
Qed.

Lemma get_expired key now data e :
  data !! key = Some e -> (t e <> 0)%Z -> (t e < now)%Z ->
  get key now data = (None, delete key data).
Proof.
  intros He H0 Hlt. unfold get. rewrite He.
  rewrite (proj2 (Z.eqb_neq _ _) H0), (proj2 (Z.ltb_lt _ _) Hlt). done.
Qed.

Lemma get_set_live key value ttl now now' data :
  (ttl = 0 \/ now' <= now + ttl * 1000)%Z ->
  get key now' (set key value ttl now data) = (Some value, set key value ttl now data).
Proof.
  intros Hlive.
  apply (get_live key now' _ (mkEntry value (if (ttl =? 0)%Z then 0 else now + ttl * 1000)%Z)).
  - unfold set. apply lookup_insert_eq.
  - cbn [t]. destruct (Z.eqb_spec ttl 0); lia.
Qed.

(** X1.  When a call of [getServices] has fetched a value that counts as
    true, every call for the same key within the time to live (at any time,
    when the time to live is 0) returns that value without calling its
    fetcher and leaves the cache as it is.  When the fetched value counts as
    false, the next call calls its fetcher again. *)
Theorem getServices_serves_truthy_from_cache
    key (d : V) ttl now data data1 fetcher' ttl' now' :
  getServices truthy key (Ok d) ttl now data = (Ok d, true, data1) ->
  (default 300%Z ttl = 0 \/ now' <= now + default 300%Z ttl * 1000)%Z ->
  (truthy d = true ->
   getServices truthy key fetcher' ttl' now' data1 = (Ok d, false, data1))
  /\ (truthy d = false ->
      (getServices truthy key fetcher' ttl' now' data1).1.2 = true).
Proof.
  intros Hfirst Hlive.
  assert (Hdata1 : exists data0, data1 = set key d (default 300%Z ttl) now data0).
  { unfold getServices in Hfirst. destruct (get key now data) as [[c|] data0].
    - destruct (truthy c); [by injection Hfirst | injection Hfirst as <-; by eexists].
    - injection Hfirst as <-; by eexists. }
  destruct Hdata1 as [data0 ->].
  unfold getServices. rewrite (get_set_live _ _ _ _ _ _ Hlive).
  split; intros ->; [done | by destruct fetcher'].
Qed.


End CacheManagerFacts.

Lemma getServices_serves_truthy_from_cache_witness :
  CacheManager.getServices (fun n => negb (n =? 0)%Z) "stats:global" (Ok 7%Z)
    (Some 600%Z) 1700000000000 ∅
  = (Ok 7%Z, true,
     CacheManager.set "stats:global" 7%Z 600 1700000000000 ∅)
  /\ CacheManager.getServices (fun n => negb (n =? 0)%Z) "stats:global" (Ok 8%Z)
       None 1700000600000
       (CacheManager.set "stats:global" 7%Z 600 1700000000000 ∅)
     = (Ok 7%Z, false, CacheManager.set "stats:global" 7%Z 600 1700000000000 ∅).
Proof.
  assert (Hfirst : CacheManager.getServices (fun n => negb (n =? 0)%Z) "stats:global"
                     (Ok 7%Z) (Some 600%Z) 1700000000000 ∅
                   = (Ok 7%Z, true,
                      CacheManager.set "stats:global" 7%Z 600 1700000000000 ∅))
    by reflexivity.
  split; [exact Hfirst|].
  apply (proj1 (getServices_serves_truthy_from_cache _ _ _ _ _ _ _ (Ok 8%Z) None
                  1700000600000 Hfirst ltac:(right; cbn; lia))).
  reflexivity.
Defined.


Section RateLimitFacts.
Import Cache CacheManager.
Variables (userId action : string) (maxAttempts windowMs : option Z).

Let key : string := rateLimitKey userId action.
Let limit : Z := default 10%Z maxAttempts.
Let ttl : Z := ceilThousandth (default (15 * 60 * 1000)%Z windowMs).

Lemma checkUserRateLimit_blocked c now times data :
  counterIs key c (now :: times) data -> (limit <= c)%Z ->
  checkUserRateLimit userId action maxAttempts windowMs now data = (false, data).
Proof.
  intros Hc Hlim. unfold checkUserRateLimit. fold key.
  destruct Hc as [[Hnone ->] | (expiry & Hsome & Hlive)].
  - unfold get. rewrite Hnone. cbn [default from_option id]. fold limit.
    by rewrite (proj2 (Z.leb_le _ _) Hlim).
  - rewrite (get_live key now data _ Hsome) by (apply Hlive, list_elem_of_here).
    cbn [default from_option id v]. fold limit. by rewrite (proj2 (Z.leb_le _ _) Hlim).
Qed.

Lemma checkUserRateLimit_allowed c now times data :
  counterIs key c (now :: times) data -> (c < limit)%Z ->
  checkUserRateLimit userId action maxAttempts windowMs now data
  = (true, set key (c + 1)%Z ttl now data).
Proof.
  intros Hc Hlim. unfold checkUserRateLimit. fold key.
  destruct Hc as [[Hnone ->] | (expiry & Hsome & Hlive)].
  - unfold get. rewrite Hnone. cbn [default from_option id]. fold limit ttl.
    by rewrite (proj2 (Z.leb_gt _ _) Hlim).
  - rewrite (get_live key now data _ Hsome) by (apply Hlive, list_elem_of_here).
    cbn [default from_option id v]. fold limit ttl. by rewrite (proj2 (Z.leb_gt _ _) Hlim).
Qed.

Lemma burst_from_counter start times : forall c data,
  (ttl = 0 \/ forall now, now ∈ times -> start <= now <= start + ttl * 1000)%Z ->
  counterIs key c times data ->
  burst userId action maxAttempts windowMs times data
  = replicate (min (List.length times) (Z.to_nat (limit - c))) true
    ++ replicate (List.length times - Z.to_nat (limit - c)) false.
Proof.
  induction times as [|now times IH]; intros c data Hwindow Hc; [done|].
  assert (Hrest : (ttl = 0 \/ forall now', now' ∈ times ->
                     start <= now' <= start + ttl * 1000)%Z).
  { destruct Hwindow as [H0 | Hw]; [by left | right].
    intros now' Hin. apply Hw. by apply list_elem_of_further. }
  cbn [burst List.length].
  destruct (Z.lt_ge_cases c limit) as [Hlt | Hge].
  - rewrite (checkUserRateLimit_allowed c now times data Hc Hlt).
    rewrite (IH (c + 1)%Z); [|exact Hrest|].
    + replace (Z.to_nat (limit - c)) with (S (Z.to_nat (limit - (c + 1)))) by lia.
      done.
    + right. exists (if (ttl =? 0)%Z then 0 else now + ttl * 1000)%Z. split.
      * unfold set. apply lookup_insert_eq.
      * intros now' Hin. destruct (Z.eqb_spec ttl 0) as [H0 | H0]; [by left | right].
        destruct Hwindow as [? | Hw]; [done|].
        pose proof (Hw now (list_elem_of_here _ _)).
        pose proof (Hw now' (list_elem_of_further _ _ _ Hin)). lia.
  - rewrite (checkUserRateLimit_blocked c now times data Hc Hge).
    rewrite (IH c); [|exact Hrest|].
    + replace (Z.to_nat (limit - c)) with 0 by lia.
      by rewrite !Nat.min_0_r, !Nat.sub_0_r.
    + destruct Hc as [Hnone | (expiry & Hsome & Hlive)]; [by left | right].
      exists expiry. split; [done|]. intros now' Hin. apply Hlive.
      by apply list_elem_of_further.
Qed.

(** X2.  Of a series of calls of [checkUserRateLimit] for one user and
    action that starts without a counter, exactly the first [maxAttempts]
    are admitted and all later ones refused, when all calls fall within one
    window of the first clock reading; and also at any clock readings
    whatever when the window rounds to 0 seconds, because the counter then
    never expires. *)
Theorem burst_admits_first_maxAttempts start times data :
  data !! key = None ->
  (ttl = 0 \/ forall now, now ∈ times -> start <= now <= start + ttl * 1000)%Z ->
  burst userId action maxAttempts windowMs times data
  = replicate (min (List.length times) (Z.to_nat limit)) true
    ++ replicate (List.length times - Z.to_nat limit) false.
Proof.
  intros Hnone Hwindow.
  rewrite (burst_from_counter start times 0%Z data Hwindow); [|by left].
  by rewrite Z.sub_0_r.
Qed.

(** X3.  A counter whose expiry instant has passed no longer counts: the
    next call is admitted, whatever the counter was, and the count starts
    again at 1 with a new window. *)
Theorem checkUserRateLimit_starts_again_after_expiry now data e :
  data !! key = Some e -> (t e <> 0)%Z -> (t e < now)%Z -> (0 < limit)%Z ->
  checkUserRateLimit userId action maxAttempts windowMs now data
  = (true, set key 1%Z ttl now (delete key data)).
Proof.
  intros He H0 Hlt Hlim. unfold checkUserRateLimit. fold key.
  rewrite (get_expired key now data e He H0 Hlt).
  cbn [default from_option id]. fold limit ttl.
  by rewrite (proj2 (Z.leb_gt _ _) Hlim).
Qed.

End RateLimitFacts.

Lemma burst_admits_first_maxAttempts_witness :
  CacheManager.burst "7" "login" (Some 2%Z) None
    [1700000000000; 1700000300000; 1700000900000; 1700000600000]%Z ∅
  = [true; true; false; false].
Proof.
  apply (burst_admits_first_maxAttempts "7" "login" (Some 2%Z) None 1700000000000).
  - apply lookup_empty.
  - right. intros now Hin.
    change (CacheManager.ceilThousandth (default (15 * 60 * 1000)%Z None)) with 900%Z.
    repeat (apply elem_of_cons in Hin as [-> | Hin]; [lia|]).
    by apply elem_of_nil in Hin.
Defined.

Lemma checkUserRateLimit_starts_again_after_expiry_witness :
  CacheManager.checkUserRateLimit "7" "login" (Some 2%Z) None 1700000900001
    {[ CacheManager.rateLimitKey "7" "login" := Cache.mkEntry 2%Z 1700000900000 ]}
  = (true,
     CacheManager.set (CacheManager.rateLimitKey "7" "login") 1%Z 900 1700000900001
       (delete (CacheManager.rateLimitKey "7" "login")
          {[ CacheManager.rateLimitKey "7" "login" := Cache.mkEntry 2%Z 1700000900000 ]})).
Proof.
  apply (checkUserRateLimit_starts_again_after_expiry "7" "login" (Some 2%Z) None
           1700000900001 _ (Cache.mkEntry 2%Z 1700000900000)).
  - apply lookup_singleton_eq.
  - cbn. lia.
  - cbn. lia.
  - cbn. lia.
Defined.

(** ** Further facts about [server/auth.ts] *)

Section TokenFacts.
Import Jwt Auth.
Variable env : option string.

Lemma tokenAge_le_iff now p c :
  Qle_bool (tokenAge now p) (inject_Z c) = true <-> (now <= 1000 * (iat p + c))%Z.
Proof.
  rewrite Qle_bool_iff.
  unfold tokenAge, Qle, Qminus, Qplus, Qdiv, Qmult, Qinv, Qopp, inject_Z; simpl.
  lia.
Qed.

Lemma seconds_le now s : (now <= 1000 * s)%Z -> (seconds now <= s)%Z.
Proof.
  intros H. unfold seconds.
  apply Z.div_le_upper_bound; lia.
Qed.

Lemma verifyToken_generateToken (uid : Z) (ver : option Z) (issued now : Z) :
  verifyToken env (generateToken env uid ver issued) now
  = (if (now <=? 1000 * (seconds issued + 12 * 60 * 60))%Z
     then Some (mkPayload uid (Some (default 1%Z ver)) None (seconds issued)
                          (seconds issued + 24 * 60 * 60))
     else None).
Proof.
  unfold verifyToken, generateToken, jwt_sign, jwt_verify.
  rewrite String.eqb_refl; cbn [negb exp].
  destruct (Z.leb_spec now (1000 * (seconds issued + 12 * 60 * 60))) as [Hin | Hout].
  - pose proof (seconds_le _ _ Hin).
    rewrite (proj2 (Z.leb_gt _ _)) by lia.
    change (12 * 60 * 60)%Q with (inject_Z (12 * 60 * 60)).
    rewrite (proj2 (tokenAge_le_iff now _ _)) by (cbn [iat]; lia). done.
  - destruct (_ <=? _)%Z; [done|].
    change (12 * 60 * 60)%Q with (inject_Z (12 * 60 * 60)).
    rewrite (proj2 (tokenAge_gt_iff now _ _)) by (cbn [iat]; lia). done.
Qed.

Lemma verifyToken_generateRefreshToken (uid : Z) (ver : option Z) (issued now : Z) :
  verifyToken env (generateRefreshToken env uid ver issued) now
  = (if (seconds now <? seconds issued + 7 * 24 * 60 * 60)%Z
     then Some (mkPayload uid (Some (default 1%Z ver)) (Some "refresh")
                          (seconds issued) (seconds issued + 7 * 24 * 60 * 60))
     else None).
Proof.
  unfold verifyToken, generateRefreshToken, jwt_sign, jwt_verify.
  rewrite String.eqb_refl; cbn [negb exp].
  destruct (Z.ltb_spec (seconds now) (seconds issued + 7 * 24 * 60 * 60)) as [Hin | Hout].
  - rewrite (proj2 (Z.leb_gt _ _)) by lia.
    unfold isRefresh; cbn. by rewrite andb_false_r.
  - by rewrite (proj2 (Z.leb_le _ _)) by lia.
Qed.

(** X5.  An access token made by [generateToken] at clock reading [issued]
    is accepted by [verifyToken] exactly up to twelve hours after the
    second in which it was issued, and then yields the user id and version
    it was made for; a refresh token made by [generateRefreshToken] is
    accepted exactly until seven days after that second. *)
Theorem verifyToken_acceptance_window (uid : Z) (ver : option Z) (issued now : Z) :
  verifyToken env (generateToken env uid ver issued) now
  = (if (now <=? 1000 * (seconds issued + 12 * 60 * 60))%Z
     then Some (mkPayload uid (Some (default 1%Z ver)) None (seconds issued)
                          (seconds issued + 24 * 60 * 60))
     else None)
  /\ verifyToken env (generateRefreshToken env uid ver issued) now
     = (if (seconds now <? seconds issued + 7 * 24 * 60 * 60)%Z
        then Some (mkPayload uid (Some (default 1%Z ver)) (Some "refresh")
                             (seconds issued) (seconds issued + 7 * 24 * 60 * 60))
        else None).
Proof.
  split; [apply verifyToken_generateToken | apply verifyToken_generateRefreshToken].
Qed.


End TokenFacts.


Section AuthenticateFacts.
Import Js Http Jwt Auth.
Variable env : option string.

Lemma getUser_member id db user :
  Storage.getUser id db = Ok (Some user) -> user ∈ Storage.users db.
Proof.
  unfold Storage.getUser, Storage.bindInteger, Storage.first.
  destruct (parseInt id) as [n|]; simpl; [|done].
  destruct (Storage.int4 n); simpl; [|done].
  intros [= Hhead]. by apply head_Some_elem_of, list_elem_of_filter in Hhead as [_ ?].
Qed.

Lemma first_filter_unique {A B} `{EqDecision B} (f : A -> B) (l : list A) (u : A) :
  NoDup (f <$> l) -> u ∈ l ->
  Storage.first (filter (fun x => f x = f u) l) = Some u.
Proof.
  unfold Storage.first. induction l as [|x l IH]; intros Hnd Hin.
  - by apply elem_of_nil in Hin.
  - rewrite fmap_cons in Hnd. apply NoDup_cons in Hnd as [Hx Hnd].
    apply elem_of_cons in Hin as [-> | Hin].
    + by rewrite filter_cons_True.
    + rewrite filter_cons_False; [by apply IH|].
      intros Heq. apply Hx. rewrite Heq. by apply list_elem_of_fmap_2.
Qed.

Lemma first_filter_none {A} (P : A -> Prop) `{forall x, Decision (P x)} (l : list A) :
  Storage.first (filter P l) = None <-> Forall (fun x => ~ P x) l.
Proof.
  unfold Storage.first. induction l as [|x l IH]; [by split; [constructor|]|].
  destruct (decide (P x)) as [Hx | Hx].
  - rewrite filter_cons_True by done. split; [done|].
    intros Hall. by apply Forall_cons in Hall as [? _].
  - rewrite filter_cons_False by done. rewrite IH. split.
    + by constructor.
    + intros Hall. by apply Forall_cons in Hall as [_ ?].
Qed.

Lemma getUser_found db u :
  NoDup (User.id <$> Storage.users db) -> u ∈ Storage.users db ->
  (0 <= User.id u < 2 ^ 31)%Z ->
  Storage.getUser (decimal (User.id u)) db = Ok (Some u).
Proof.
  intros Hnd Hin Hid. unfold Storage.getUser.
  rewrite parseInt_decimal by lia. unfold Storage.bindInteger, Storage.int4.
  assert ((- 2 ^ 31 <=? User.id u)%Z && (User.id u <? 2 ^ 31)%Z = true) as ->.
  { apply andb_true_iff. split; [apply Z.leb_le | apply Z.ltb_lt]; lia. }
  cbn [bindR]. by rewrite (first_filter_unique User.id).
Qed.

(** X7.  Whoever [authenticate] lets through is a stored, active user with
    a positive id, handed on without the password; and the id is either the
    one in a bearer token that [verifyToken] accepts or the one in the
    session, never one taken from a token that does not verify. *)
Theorem authenticate_sound req now db user :
  authenticate env req now db = Next user ->
  exists row,
    row ∈ Storage.users db /\ User.isActive row = true
    /\ user = withoutPassword row
    /\ (0 < User.id row <= MAX_SAFE_INTEGER)%Z
    /\ ((exists token p, bearer req = Some token
                         /\ verifyToken env token now = Some p
                         /\ userId p = User.id row)
        \/ sessionUserId req = Some (User.id row)).
Proof.
  unfold authenticate, unauthorized, truthy.
  repeat case_match; try discriminate; intros [= <-].
  all: match goal with
       | H : Storage.getUser (decimal ?u) ?d = Ok (Some ?r) |- _ =>
           pose proof (getUser_member _ _ _ H) as Hin;
           pose proof (getUser_id _ _ _ H) as Hid;
           rewrite parseInt_decimal in Hid by lia;
           injection Hid as Hid; exists r
       end.
  all: split; [exact Hin|]; split; [by destruct (User.isActive _)|];
         split; [reflexivity|]; split; [lia|].
  all: simplify_eq/=.
  all: first [ by right
             | match goal with
               | H : userId <$> verifyToken _ _ _ = Some _ |- _ =>
                   apply fmap_Some in H as (p & Hp & Hu)
               end;
               left; eexists _, p; split; [reflexivity|]; split; [exact Hp|];
               by rewrite Hu ].
Qed.

(** X8.  Which credential counts.  A bearer token that fails the format
    tests is answered with 401 whatever the session holds.  A well-formed
    token that [verifyToken] turns down is treated as if no token had been
    sent, so the session decides.  A token that verifies for a user id other
    than 0 decides alone: the session is not looked at. *)
Theorem authenticate_credential_precedence req token now db :
  bearer req = Some token ->
  (tokenFormatOk token = false ->
   authenticate env req now db = unauthorized "Invalid token format")
  /\ (tokenFormatOk token = true -> verifyToken env token now = None ->
      authenticate env req now db = authenticate env (withoutBearer req) now db)
  /\ (tokenFormatOk token = true ->
      forall p, verifyToken env token now = Some p -> userId p <> 0%Z ->
      authenticate env req now db = authenticate env (withoutSession req) now db).
Proof.
  intros Hb. unfold authenticate, withoutBearer, withoutSession.
  cbn [bearer sessionUserId]. rewrite Hb.
  split; [|split].
  - by intros ->.
  - by intros -> ->.
  - intros -> p -> Hp. cbn [negb fmap option_fmap option_map truthy].
    rewrite (proj2 (Z.eqb_neq _ _) Hp). cbn [negb andb].
    destruct (sessionUserId req); cbn [truthy];
      by rewrite (proj2 (Z.eqb_neq _ _) Hp).
Qed.

Lemma authenticate_verified req token p now db u :
  NoDup (User.id <$> Storage.users db) ->
  u ∈ Storage.users db -> User.isActive u = true ->
  (0 < User.id u < 2 ^ 31)%Z ->
  bearer req = Some token -> tokenFormatOk token = true ->
  verifyToken env token now = Some p -> userId p = User.id u ->
  authenticate env req now db = Next (withoutPassword u).
Proof.
  intros Hnd Hin Hactive Hid Hb Hf Hv Hp.
  unfold authenticate. rewrite Hb, Hf, Hv.
  cbn [negb fmap option_fmap option_map truthy]. rewrite Hp.
  rewrite (proj2 (Z.eqb_neq _ _)) by lia. cbn [negb andb].
  replace (match sessionUserId req with
           | Some _ => Some (User.id u)
           | None => Some (User.id u)
           end) with (Some (User.id u)) by (by destruct (sessionUserId req)).
  cbn [truthy]. rewrite (proj2 (Z.eqb_neq _ _)) by lia. cbn [negb].
  assert ((User.id u <=? 0)%Z || (MAX_SAFE_INTEGER <? User.id u)%Z = false) as ->.
  { apply orb_false_iff. unfold MAX_SAFE_INTEGER.
    split; [apply Z.leb_gt | apply Z.ltb_ge]; lia. }
  rewrite getUser_found; [|done|done|lia].
  unfold withoutPassword. by destruct (User.isActive u).
Qed.

Lemma authenticate_session req now db u :
  NoDup (User.id <$> Storage.users db) ->
  u ∈ Storage.users db -> User.isActive u = true ->
  (0 < User.id u < 2 ^ 31)%Z ->
  bearer req = None -> sessionUserId req = Some (User.id u) ->
  authenticate env req now db = Next (withoutPassword u).
Proof.
  intros Hnd Hin Hactive Hid Hb Hs.
  unfold authenticate. rewrite Hb, Hs. cbn [truthy negb andb].
  rewrite (proj2 (Z.eqb_neq _ _)) by lia.
  rewrite (proj2 (Z.ltb_lt _ _)) by lia.
  rewrite (proj2 (Z.ltb_lt _ _)) by (unfold MAX_SAFE_INTEGER; lia).
  cbn [negb andb truthy]. rewrite (proj2 (Z.eqb_neq _ _)) by lia. cbn [negb].
  assert ((User.id u <=? 0)%Z || (MAX_SAFE_INTEGER <? User.id u)%Z = false) as ->.
  { apply orb_false_iff. unfold MAX_SAFE_INTEGER.
    split; [apply Z.leb_gt | apply Z.ltb_ge]; lia. }
  rewrite getUser_found; [|done|done|lia].
  unfold withoutPassword. by destruct (User.isActive u).
Qed.

(** X9.  A token that the server issued for a stored, active user
    authenticates that user: an access token up to twelve hours after its
    second of issue, and a refresh token, sent as the bearer token, up to
    seven days after it. *)
Theorem authenticate_accepts_issued_tokens req now db u ver issued :
  NoDup (User.id <$> Storage.users db) ->
  u ∈ Storage.users db -> User.isActive u = true ->
  (0 < User.id u < 2 ^ 31)%Z ->
  (bearer req = Some (generateToken env (User.id u) ver issued)
   /\ (now <= 1000 * (seconds issued + 12 * 60 * 60))%Z)
  \/ (bearer req = Some (generateRefreshToken env (User.id u) ver issued)
      /\ (seconds now < seconds issued + 7 * 24 * 60 * 60)%Z) ->
  authenticate env req now db = Next (withoutPassword u).
Proof.
  intros Hnd Hin Hactive Hid [[Hb Hnow] | [Hb Hnow]].
  - eapply authenticate_verified; [done..|exact Hb|done| |].
    + by rewrite verifyToken_generateToken, (proj2 (Z.leb_le _ _)) by lia.
    + done.
  - eapply authenticate_verified; [done..|exact Hb|done| |].
    + by rewrite verifyToken_generateRefreshToken, (proj2 (Z.ltb_lt _ _)) by lia.
    + done.
Qed.

End AuthenticateFacts.

Lemma authenticate_sound_witness :
  exists row,
    row ∈ Storage.users Sample.db /\ User.isActive row = true
    /\ withoutPassword Sample.alice = withoutPassword row
    /\ (0 < User.id row <= Auth.MAX_SAFE_INTEGER)%Z
    /\ ((exists token p, Http.bearer Sample.approveByAlice = Some token
                         /\ Auth.verifyToken None token 0 = Some p
                         /\ Jwt.userId p = User.id row)
        \/ Http.sessionUserId Sample.approveByAlice = Some (User.id row)).
Proof.
  apply (authenticate_sound None Sample.approveByAlice 0 Sample.db). reflexivity.
Defined.

Lemma authenticate_credential_precedence_witness :
  Auth.authenticate None
    (Http.mkRequest (Some (Jwt.Malformed "not a token")) (Some 1%Z) true "" ∅)
    0 Sample.db
  = Auth.unauthorized "Invalid token format".
Proof.
  apply (authenticate_credential_precedence None
           (Http.mkRequest (Some (Jwt.Malformed "not a token")) (Some 1%Z) true "" ∅)
           (Jwt.Malformed "not a token") 0 Sample.db); reflexivity.
Defined.

Lemma authenticate_accepts_issued_tokens_witness :
  Auth.authenticate None
    (Http.mkRequest (Some (Auth.generateRefreshToken None 2 None 0)) None false "" ∅)
    (6 * 24 * 60 * 60 * 1000) Sample.db
  = Http.Next (withoutPassword Sample.bob).
Proof.
  apply (authenticate_accepts_issued_tokens None _ _ Sample.db Sample.bob None 0).
  - apply NoDup_cons. split; [|apply NoDup_singleton].
    intros Hin. apply elem_of_cons in Hin as [Hin | Hin]; [done|].
    by apply elem_of_nil in Hin.
  - apply elem_of_cons. right. apply elem_of_cons. by left.
  - reflexivity.
  - simpl; lia.
  - right. split; [reflexivity|]. vm_compute. reflexivity.
Defined.

(** ** Users and registration *)

Section UserFacts.
Import Js Http Jwt Auth Routes.

Lemma filter_none {A} (P : A -> Prop) `{forall x, Decision (P x)} (l : list A) :
  Forall (fun x => ~ P x) l -> filter P l = [].
Proof.
  induction 1 as [|x l Hx _ IH]; [done|].
  by rewrite filter_cons_False.
Qed.



Lemma createUser_fresh data now db :
  usersInvariant db ->
  Storage.getUserByUsername (User.i_username data) db = None ->
  Storage.getUserByEmail (User.i_email data) db = None ->
  Storage.createUser data now db
  = (Ok (newUserRow data now db),
     Storage.set_users (Storage.users db ++ [newUserRow data now db])
                       (Storage.users_seq db + 1) db).
Proof.
  intros (_ & _ & _ & Hseq) Hname Hmail.
  unfold Storage.createUser. rewrite bool_decide_eq_false_2; [done|].
  cbn [User.id User.username User.email].
  apply first_filter_none in Hname, Hmail.
  rewrite Exists_exists. intros (u & Hu & Hdup).
  rewrite Forall_forall in Hseq, Hname, Hmail.
  specialize (Hseq u Hu). specialize (Hname u Hu). specialize (Hmail u Hu).
  cbn beta in *. destruct Hdup as [Hdup | [Hdup | Hdup]]; [lia | done | done].
Qed.


Lemma usersInvariant_append db row :
  usersInvariant db -> (0 < Storage.users_seq db)%Z ->
  User.id row = Storage.users_seq db ->
  Forall (fun u => User.id u <> User.id row /\ User.username u <> User.username row
                   /\ User.email u <> User.email row) (Storage.users db) ->
  usersInvariant (Storage.set_users (Storage.users db ++ [row])
                                    (Storage.users_seq db + 1) db).
Proof.
  intros (Hid & Hname & Hmail & Hseq) Hpos Hrow Hnew.
  rewrite Forall_forall in Hnew.
  assert (forall {B} (f : User.t -> B),
             NoDup (f <$> Storage.users db) ->
             (forall u, u ∈ Storage.users db -> f u <> f row) ->
             NoDup (f <$> (Storage.users db ++ [row]))) as Happend.
  { intros B f Hnd Hne. rewrite fmap_app. apply NoDup_app.
    split; [exact Hnd|]. split; [|apply NoDup_singleton].
    intros x Hx Hx'. apply list_elem_of_fmap in Hx as (u & -> & Hu).
    cbn in Hx'. apply elem_of_cons in Hx' as [Hx' | Hx'].
    - by apply (Hne u Hu).
    - by apply elem_of_nil in Hx'. }
  unfold usersInvariant, Storage.set_users.
  cbn [Storage.users Storage.users_seq].
  split; [apply Happend; [done|]; intros u Hu; by apply Hnew|].
  split; [apply Happend; [done|]; intros u Hu; by apply Hnew|].
  split; [apply Happend; [done|]; intros u Hu; by apply Hnew|].
  apply Forall_app. split.
  - eapply Forall_impl; [exact Hseq|]. intros u Hu. cbn beta in Hu |- *. lia.
  - apply Forall_singleton. lia.
Qed.

Lemma lookup_appended {B} `{EqDecision B} (f : User.t -> B) (rows : list User.t) row :
  Forall (fun u => f u <> f row) rows ->
  Storage.first (filter (fun u => f u = f row) (rows ++ [row])) = Some row.
Proof.
  intros Hnew. rewrite filter_app, (filter_none _ rows) by done.
  cbn [app]. by rewrite filter_cons_True.
Qed.


End UserFacts.

Lemma sample_usersInvariant : usersInvariant Sample.db.
Proof.
  assert (forall {B} (x y : B), x <> y -> NoDup [x; y]) as Hpair.
  { intros B x y Hxy. apply NoDup_cons. split; [|apply NoDup_singleton].
    intros Hin. apply elem_of_cons in Hin as [Hin | Hin]; [done|].
    by apply elem_of_nil in Hin. }
  split; [by apply Hpair|]. split; [by apply Hpair|]. split; [by apply Hpair|].
  repeat constructor.
Qed.


Section RegistrationFacts.
Import Js Http Jwt Auth Routes.
Variable env : option string.
Variable isEmail : string -> bool.
Variable normalizeEmail : string -> option string.
Variable hashPassword : string -> string.

Lemma registerSchema_parse_defaults body validated :
  registerSchema_parse body = Ok validated ->
  User.i_role validated = None /\ User.i_isActive validated = None.
Proof.
  unfold registerSchema_parse, parseResult.
  destruct (requiredString body "username"), (requiredString body "email"),
    (requiredString body "password"), (optionalString body "fullName"),
    (optionalString body "phone"); simpl; intros [= <-]; by split.
Qed.

(** The row that a registration with the parsed fields [validated]
    inserts. *)
Let registered (validated : User.insert) (now : Z) (db : Storage.Db) : User.t :=
  newUserRow
    (User.mkInsert (User.i_username validated) (User.i_email validated)
                   (hashPassword (User.i_password validated))
                   (User.i_fullName validated) (User.i_phone validated) None None)
    now db.

Lemma registerHandler_cases hasSession body now db :
  usersInvariant db ->
  (exists validated,
      registerSchema_parse body = Ok validated
      /\ registerHandler env hashPassword hasSession body now db
         = (mkResponse 201
              (Registered (withoutPassword (registered validated now db))
                 (generateToken env (Storage.users_seq db) None now)
                 "User registered successfully"),
            Storage.set_users (Storage.users db ++ [registered validated now db])
                              (Storage.users_seq db + 1) db,
            if hasSession then Some (Storage.users_seq db) else None)
      /\ Forall (fun u => User.username u <> User.i_username validated
                          /\ User.email u <> User.i_email validated)
                (Storage.users db))
  \/ (exists answer, registerHandler env hashPassword hasSession body now db
                     = (mkResponse 400 answer, db, None)).
Proof.
  intros Hinv. unfold registerHandler.
  destruct (registerSchema_parse body) as [validated | e] eqn:Hparse.
  - destruct (Storage.getUserByUsername _ db) eqn:Hname; [right; by eexists|].
    destruct (Storage.getUserByEmail _ db) eqn:Hmail; [right; by eexists|].
    destruct (registerSchema_parse_defaults _ _ Hparse) as [-> ->].
    rewrite createUser_fresh by done.
    left. exists validated. split; [done|]. split; [done|].
    apply first_filter_none in Hname, Hmail.
    rewrite Forall_forall in Hname, Hmail. apply Forall_forall.
    intros u Hu. split; [by apply Hname | by apply Hmail].
  - right. destruct (registerSchema_parse_throw _ _ Hparse) as (i & issues & ->).
    by eexists.
Qed.

Lemma usersInvariant_registered db validated now :
  usersInvariant db -> (0 < Storage.users_seq db)%Z ->
  Forall (fun u => User.username u <> User.i_username validated
                   /\ User.email u <> User.i_email validated) (Storage.users db) ->
  usersInvariant
    (Storage.set_users (Storage.users db ++ [registered validated now db])
                       (Storage.users_seq db + 1) db).
Proof.
  intros Hinv Hpos Hnew.
  apply usersInvariant_append; [done | done | done |].
  destruct Hinv as (_ & _ & _ & Hseq).
  rewrite Forall_forall in Hseq, Hnew. apply Forall_forall. intros u Hu.
  specialize (Hseq u Hu). specialize (Hnew u Hu). cbn beta in Hseq, Hnew.
  cbn. split; [lia | tauto].
Qed.

Lemma postRegister_created req now db answer db' session :
  usersInvariant db -> (0 < Storage.users_seq db)%Z ->
  postRegister env isEmail normalizeEmail hashPassword req now db
  = (mkResponse 201 answer, db', session) ->
  exists validated,
    answer = Registered (withoutPassword (registered validated now db))
               (generateToken env (Storage.users_seq db) None now)
               "User registered successfully"
    /\ db' = Storage.set_users (Storage.users db ++ [registered validated now db])
                               (Storage.users_seq db + 1) db
    /\ session = (if hasSession req then Some (Storage.users_seq db) else None)
    /\ usersInvariant db'.
Proof.
  intros Hinv Hpos. unfold postRegister.
  destruct (validateRegistration isEmail normalizeEmail (json req))
    as [errors body] eqn:Hvalidate.
  destruct errors as [|e errors]; cbn [sanitizeInput]; [|done].
  destruct (registerHandler_cases (hasSession req) (sanitizeBody body) now db Hinv)
    as [(validated & Hparse & -> & Hnew) | [other ->]]; [|done].
  intros [= <- <- <-]. exists validated. do 3 (split; [done|]).
  by apply usersInvariant_registered.
Qed.


(** X12.  Registration followed by an authenticated request.  On a
    well-formed [users] table whose sequence is within 32 bits, the token
    that a 201 answer carries authenticates the user of that answer on the
    database that the registration left, for twelve hours from the second
    of registration; and so does the session that the registration wrote,
    when the later request carries no bearer token. *)
Theorem register_then_authenticate req now db answer db' session req' later :
  usersInvariant db -> (0 < Storage.users_seq db < 2 ^ 31)%Z ->
  postRegister env isEmail normalizeEmail hashPassword req now db
  = (mkResponse 201 answer, db', session) ->
  exists user token message,
    answer = Registered user token message
    /\ ((bearer req' = Some token
         /\ (later <= 1000 * (seconds now + 12 * 60 * 60))%Z)
        \/ (bearer req' = None /\ hasSession req = true
            /\ sessionUserId req' = session) ->
        authenticate env req' later db' = Next user).
Proof.
  intros Hinv Hseq Hpost.
  destruct (postRegister_created req now db _ _ _ Hinv ltac:(lia) Hpost)
    as (validated & -> & -> & -> & Hnd & _).
  eexists _, _, _. split; [reflexivity|].
  assert (registered validated now db
          ∈ Storage.users
              (Storage.set_users (Storage.users db ++ [registered validated now db])
                                 (Storage.users_seq db + 1) db)) as Hin.
  { cbn [Storage.set_users Storage.users].
    apply elem_of_app. right. apply elem_of_cons. by left. }
  intros [[Hb Hlater] | (Hb & Hsession & Hs)].
  - eapply authenticate_verified; [exact Hnd | exact Hin | done | exact Hseq
                                  | exact Hb | done | | ].
    + by rewrite verifyToken_generateToken, (proj2 (Z.leb_le _ _)) by lia.
    + done.
  - eapply authenticate_session; [exact Hnd | exact Hin | done | exact Hseq
                                 | exact Hb |].
    by rewrite Hs, Hsession.
Qed.

End RegistrationFacts.


Lemma register_then_authenticate_witness :
  exists user token message,
    Http.Registered (withoutPassword Cases.carol)
      (Auth.generateToken None 3 None 1700000000000)
      "User registered successfully"
    = Http.Registered user token message
    /\ ((Http.bearer (Http.mkRequest None (Some 3%Z) true "" ∅) = Some token
         /\ (1700000600000 <= 1000 * (Jwt.seconds 1700000000000 + 12 * 60 * 60))%Z)
        \/ (Http.bearer (Http.mkRequest None (Some 3%Z) true "" ∅) = None
            /\ Http.hasSession Cases.registration = true
            /\ Http.sessionUserId (Http.mkRequest None (Some 3%Z) true "" ∅)
               = Some 3%Z) ->
        Auth.authenticate None (Http.mkRequest None (Some 3%Z) true "" ∅)
          1700000600000
          (Storage.set_users (Storage.users Sample.db ++ [Cases.carol]) 4 Sample.db)
        = Http.Next user).
Proof.
  apply (register_then_authenticate None (fun _ => true) Some (fun p => p)
           Cases.registration 1700000000000 Sample.db _ _ _ _ 1700000600000
           sample_usersInvariant).
  - simpl; lia.
  - vm_compute; reflexivity.
Defined.

(** ** Login *)

Section LoginFacts.
Import Js Http Jwt Auth Routes Login.
Variable env : option string.
Variable isEmail : string -> bool.
Variable normalizeEmail : string -> option string.
Variable hashPassword : string -> string.
Variable comparePassword : string -> string -> bool.



Lemma escape_plain s : forallb isWordChar (chars s) = true -> escape s = s.
Proof.
  induction s as [|c s IH]; simpl; [done|].
  rewrite andb_true_iff. intros [Hc Hs]. rewrite (IH Hs).
  assert (escapeChar c = String c EmptyString) as ->; [|done].
  revert Hc. unfold isWordChar, isLower, isUpper, isDigit, escapeChar, code.
  generalize (nat_of_ascii c); intros n.
  rewrite !orb_true_iff, !andb_true_iff, !Nat.leb_le, Nat.eqb_eq. intros H.
  by rewrite !(proj2 (Nat.eqb_neq n _)) by lia.
Qed.

Lemma sanitizeBody_string body field s :
  sanitizeBody body !! field = Some (JStr s) ->
  exists raw, body !! field = Some (JStr raw) /\ s = encode (trim raw).
Proof.
  unfold sanitizeBody. rewrite lookup_fmap.
  destruct (body !! field) as [[]|]; simpl; intros [= <-]. by eexists.
Qed.

Lemma registerSchema_parse_password body validated :
  registerSchema_parse body = Ok validated ->
  body !! "password" = Some (JStr (User.i_password validated)).
Proof.
  unfold registerSchema_parse, parseResult, requiredString.
  destruct (body !! "username") as [[| | | |?| |]|]; simpl; try done.
  destruct (body !! "email") as [[| | | |?| |]|]; simpl; try done.
  destruct (body !! "password") as [[| | | |?| |]|]; simpl; try done.
  destruct (optionalString body "fullName"); simpl; try done.
  destruct (optionalString body "phone"); simpl; try done.
  by intros [= <-].
Qed.

Lemma validateRegistration_passed body body' u p :
  body !! "username" = Some (JStr u) -> body !! "password" = Some (JStr p) ->
  validateRegistration isEmail normalizeEmail body = ([], body') ->
  isLength 3 50 u = true /\ matchesUsername u = true /\ isLength 8 128 p = true.
Proof.
  unfold validateRegistration, fieldTexts. intros -> ->. intros [= Herrors _].
  apply app_eq_nil in Herrors as [Hlength Herrors].
  apply app_eq_nil in Herrors as [Hmatch Herrors].
  apply app_eq_nil in Herrors as [_ Herrors].
  apply app_eq_nil in Herrors as [Hpassword _].
  unfold check in *. cbn [flat_map render] in *.
  destruct (isLength 3 50 u); [|done]. destruct (matchesUsername u); [|done].
  by destruct (isLength 8 128 p).
Qed.

Lemma postRegister_fields req now db answer db' session :
  usersInvariant db ->
  postRegister env isEmail normalizeEmail hashPassword req now db
  = (mkResponse 201 answer, db', session) ->
  exists u p row,
    json req !! "username" = Some (JStr u) /\ json req !! "password" = Some (JStr p)
    /\ isLength 3 50 u = true /\ matchesUsername u = true /\ isLength 8 128 p = true
    /\ answer = Registered (withoutPassword row)
                  (generateToken env (User.id row) None now)
                  "User registered successfully"
    /\ db' = Storage.set_users (Storage.users db ++ [row]) (Storage.users_seq db + 1) db
    /\ User.username row = u /\ User.isActive row = true
    /\ User.password row = Some (hashPassword (encode (trim p)))
    /\ Forall (fun v => User.username v <> u) (Storage.users db).
Proof.
  intros Hinv. unfold postRegister.
  destruct (validateRegistration isEmail normalizeEmail (json req))
    as [errors body] eqn:Hvalidate.
  destruct errors as [|e errors]; cbn [sanitizeInput]; [|done].
  destruct (registerHandler_cases env hashPassword (hasSession req)
              (sanitizeBody body) now db Hinv)
    as [(validated & Hparse & -> & Hnew) | [other ->]]; [|done].
  intros [= <- <- <-].
  pose proof (registerSchema_parse_username _ _ Hparse) as Hu.
  pose proof (registerSchema_parse_password _ _ Hparse) as Hp.
  assert (body = sanitizeEmail normalizeEmail (json req)) as Hbody
    by (unfold validateRegistration in Hvalidate; congruence).
  rewrite Hbody, sanitizeEmail_other in Hu, Hp by done.
  apply sanitizeBody_string in Hu as (u & Hu & Hname).
  apply sanitizeBody_string in Hp as (p & Hp & Hpass).
  destruct (validateRegistration_passed _ _ _ _ Hu Hp Hvalidate)
    as (Hlength & Hmatch & Hplength).
  rewrite (username_unchanged _ Hmatch) in Hname.
  exists u, p,
    (newUserRow
       (User.mkInsert (User.i_username validated) (User.i_email validated)
                      (hashPassword (User.i_password validated))
                      (User.i_fullName validated) (User.i_phone validated) None None)
       now db).
  do 5 (split; [done|]). split; [reflexivity|].
  split; [reflexivity|]. cbn [newUserRow User.username User.isActive User.password
                              User.i_username User.i_password User.i_isActive default
                              from_option id].
  split; [done|]. split; [done|]. split; [by rewrite Hpass|].
  eapply Forall_impl; [exact Hnew|]. cbn beta. intros v [Hv _]. by rewrite <- Hname.
Qed.

Hypothesis compare_hash : forall p, comparePassword p (hashPassword p) = true.

(** X14.  Registration followed by login.  When [comparePassword] accepts
    every password against its own hash, a login that sends the username
    and the password of a registration that was answered 201 is answered
    200 for the user of that answer, with a fresh access token for the same
    id. *)
Theorem register_then_login req now db answer db' session req' later :
  usersInvariant db ->
  postRegister env isEmail normalizeEmail hashPassword req now db
  = (mkResponse 201 answer, db', session) ->
  json req' !! "username" = json req !! "username" ->
  json req' !! "password" = json req !! "password" ->
  exists user token name,
    answer = Registered user token "User registered successfully"
    /\ postLogin env comparePassword req' later db'
       = (mkResponse 200
            (Registered user (generateToken env (User.id user) None later)
                        "Login successful"),
          (if hasSession req' then Some (User.id user) else None),
          [mkEvent "successful_login" "info" name None (Some (User.id user))]).
Proof.
  intros Hinv Hpost Hsame_u Hsame_p.
  destruct (postRegister_fields _ _ _ _ _ _ Hinv Hpost)
    as (u & p & row & Hu & Hp & Hlength & Hmatch & Hplength & -> & -> & Hname
        & Hactive & Hhash & Hnew).
  rewrite Hu in Hsame_u. rewrite Hp in Hsame_p.
  exists (withoutPassword row), (generateToken env (User.id row) None now), u.
  split; [done|].
  unfold postLogin, validateLogin, fieldTexts, sanitizeUsername.
  rewrite Hsame_u, Hsame_p. unfold check. cbn [flat_map render app].
  rewrite Hlength.
  assert (isLength 1 128 p = true) as ->.
  { revert Hplength. unfold isLength. rewrite !andb_true_iff, !Nat.leb_le. lia. }
  cbn [app sanitizeInput]. unfold loginHandler, loginSchema_parse, requiredString,
    sanitizeBody.
  rewrite !lookup_fmap, lookup_insert_eq, lookup_insert_ne, Hsame_p by done.
  cbn [fmap option_fmap option_map parseResult mbind option_bind issue app].
  assert (forallb isWordChar (chars u) = true) as Hword.
  { revert Hmatch. unfold matchesUsername. rewrite andb_true_iff. tauto. }
  rewrite (escape_plain _ Hword), (username_unchanged _ Hmatch).
  unfold Storage.getUserByUsername. cbn [Storage.set_users Storage.users].
  rewrite <- Hname, (lookup_appended User.username)
    by (eapply Forall_impl; [exact Hnew|]; cbn beta; congruence).
  rewrite Hactive, Hhash, compare_hash. cbn [negb]. by rewrite Hname.
Qed.

End LoginFacts.

Lemma register_then_login_witness :
  exists user token name,
    Http.Registered (withoutPassword Cases.carol)
      (Auth.generateToken None 3 None 1700000000000)
      "User registered successfully"
    = Http.Registered user token "User registered successfully"
    /\ Login.postLogin None String.eqb Cases.login 1700000600000
         (Storage.set_users (Storage.users Sample.db ++ [Cases.carol]) 4 Sample.db)
       = (Http.mkResponse 200
            (Http.Registered user
               (Auth.generateToken None (User.id user) None 1700000600000)
               "Login successful"),
          (if Http.hasSession Cases.login then Some (User.id user) else None),
          [Login.mkEvent "successful_login" "info" name None (Some (User.id user))]).
Proof.
  apply (register_then_login None (fun _ => true) Some (fun p => p) String.eqb
           String.eqb_refl Cases.registration 1700000000000 Sample.db _ _ (Some 3%Z)
           Cases.login 1700000600000 sample_usersInvariant);
    vm_compute; reflexivity.
Defined.

(** ** Categories *)

Section CatalogFacts.
Import Js Http Auth Routes Catalog.
Variable env : option string.

Lemma deleteCategory_cases id db :
  (exists n, id = Some n /\ Storage.int4 n = true
             /\ ~ (Exists (fun c => Category.id c = n) (Storage.categories db)
                   /\ Exists (fun s => Service.categoryId s = n) (Storage.services db))
             /\ deleteCategory id db
                = (Ok tt,
                   Storage.set_categories
                     (filter (fun c => Category.id c <> n) (Storage.categories db))
                     (Storage.categories_seq db) db))
  \/ (exists e, deleteCategory id db = (Throw e, db)).
Proof.
  unfold deleteCategory, Storage.bindInteger.
  destruct id as [n|]; [|right; by eexists].
  destruct (Storage.int4 n) eqn:Hint; [|right; by eexists].
  destruct (bool_decide _ && bool_decide _) eqn:Hfk; [right; by eexists|].
  left. exists n. do 2 (split; [done|]). split; [|done].
  intros [Hc Hs]. apply andb_false_iff in Hfk as [Hfk | Hfk];
    by apply bool_decide_eq_false in Hfk.
Qed.

(** X15.  [DELETE /api/categories/:id] keeps every service inside a stored
    category: when that held before the request it holds after it, whoever
    sent the request and whatever the id.  The request changes nothing but
    the category rows, and it removes a row only when the id is the id of
    that row and no service refers to it. *)
Theorem deleteCategories_keeps_services_in_categories req now db :
  servicesHaveCategories db ->
  servicesHaveCategories (deleteCategories env req now db).2
  /\ Storage.services (deleteCategories env req now db).2 = Storage.services db
  /\ Storage.users (deleteCategories env req now db).2 = Storage.users db
  /\ forall c, c ∈ Storage.categories db ->
       c ∈ Storage.categories (deleteCategories env req now db).2
       \/ (parseInt (params_id req) = Some (Category.id c)
           /\ Forall (fun s => Service.categoryId s <> Category.id c)
                     (Storage.services db)).
Proof.
  intros Hinv.
  assert (forall out : Response * Storage.Db, out.2 = db ->
            servicesHaveCategories out.2
            /\ Storage.services out.2 = Storage.services db
            /\ Storage.users out.2 = Storage.users db
            /\ forall c, c ∈ Storage.categories db ->
                 c ∈ Storage.categories out.2
                 \/ (parseInt (params_id req) = Some (Category.id c)
                     /\ Forall (fun s => Service.categoryId s <> Category.id c)
                               (Storage.services db))) as Hsame.
  { intros out ->. do 3 (split; [done|]). intros c Hc. by left. }
  unfold deleteCategories.
  destruct (authenticate env req now db) as [r | user]; [by apply Hsame|].
  destruct (requireAdmin (Some user)); [by apply Hsame|].
  unfold deleteCategoryHandler.
  destruct (Storage.getUser _ db) as [stored | e]; [|by apply Hsame].
  destruct (negb _); [by apply Hsame|].
  destruct (deleteCategory_cases (parseInt (params_id req)) db)
    as [(n & Hid & _ & Hfk & ->) | [e ->]]; [|by apply Hsame].
  cbn [snd Storage.set_categories Storage.services Storage.users Storage.categories].
  split; [|split; [done|split; [done|]]].
  - unfold servicesHaveCategories in *.
    cbn [Storage.set_categories Storage.services Storage.categories].
    rewrite Forall_forall in Hinv. apply Forall_forall. intros s Hs.
    specialize (Hinv s Hs). cbn beta in Hinv.
    rewrite Exists_exists in Hinv. destruct Hinv as (c & Hc & Hcs).
    apply Exists_exists. exists c. split; [|done].
    apply list_elem_of_filter. split; [|done].
    intros Hn. apply Hfk. split; apply Exists_exists.
    + by exists c.
    + exists s. split; [done|]. by rewrite <- Hcs.
  - intros c Hc. destruct (decide (Category.id c = n)) as [Hn | Hn].
    + right. rewrite Hid, Hn. split; [done|].
      apply Forall_forall. intros s Hs Hsn. apply Hfk.
      split; apply Exists_exists; [by exists c | by exists s].
    + left. by apply list_elem_of_filter.
Qed.

End CatalogFacts.

Lemma deleteCategories_keeps_services_in_categories_witness :
  Catalog.servicesHaveCategories
    (Catalog.deleteCategories None Cases.deleteHogar 1700000000000 Cases.catalog).2
  /\ Catalog.deleteCategories None Cases.deleteHogar 1700000000000 Cases.catalog
     = (Routes.respond 500 "Failed to delete category", Cases.catalog).
Proof.
  split; [|vm_compute; reflexivity].
  apply (deleteCategories_keeps_services_in_categories None Cases.deleteHogar
           1700000000000 Cases.catalog).
  apply Forall_singleton. apply Exists_cons. by left.
Defined.

(** ** Support tickets and services *)

Section MoreTicketFacts.
Import Js Http Routes.

Lemma createSupportTicket_ok ticket now db row db' :
  Storage.createSupportTicket ticket now db = (Ok row, db') ->
  Ticket.ticketNumber row = "ST-" +:+ decimal now
  /\ Storage.supportTickets db' = Storage.supportTickets db ++ [row].
Proof.
  unfold Storage.createSupportTicket.
  destruct (Ticket.i_id ticket); repeat case_match; try discriminate;
    by intros [= <- <-].
Qed.

Lemma createSupportTicket_throw ticket now db e db' :
  Storage.createSupportTicket ticket now db = (Throw e, db') ->
  Storage.supportTickets db' = Storage.supportTickets db.
Proof.
  unfold Storage.createSupportTicket.
  destruct (Ticket.i_id ticket); repeat case_match; try discriminate;
    by intros [= _ <-].
Qed.

(** X16.  [POST /api/support/tickets] asks the body for a [ticketNumber]
    and then does not use it.  A body without a string [ticketNumber] is
    answered 500 and nothing is stored; and the ticket of a 200 answer is
    appended with the number [ST-] followed by the clock reading, whatever
    number the body gave. *)
Theorem postSupportTickets_ticketNumber req now db :
  ((forall s, json req !! "ticketNumber" <> Some (JStr s)) ->
   postSupportTickets req now db
   = (respond 500 "Failed to create support ticket", db))
  /\ (forall ticket db',
        postSupportTickets req now db = (mkResponse 200 (JsonTicket ticket), db') ->
        Ticket.ticketNumber ticket = "ST-" +:+ decimal now
        /\ Storage.supportTickets db' = Storage.supportTickets db ++ [ticket]
        /\ exists given, json req !! "ticketNumber" = Some (JStr given)).
Proof.
  unfold postSupportTickets. split.
  - intros Hnone.
    assert (requiredString (json req) "ticketNumber" = None) as Hrequired.
    { unfold requiredString.
      destruct (json req !! "ticketNumber") as [[| | | |s| |]|] eqn:Hn; try done.
      by destruct (Hnone s). }
    unfold insertSupportTicketSchema_parse. rewrite Hrequired.
    by destruct (optionalId (json req) "id").
  - intros ticket db'.
    destruct (insertSupportTicketSchema_parse (json req)) as [data | e] eqn:Hparse;
      [|done].
    destruct (Storage.createSupportTicket data now db) as [[row | e] db1] eqn:Hcreate;
      [|done].
    intros [= <- <-]. apply createSupportTicket_ok in Hcreate as [Hnumber Hrows].
    do 2 (split; [done|]).
    revert Hparse. unfold insertSupportTicketSchema_parse, requiredString.
    destruct (json req !! "ticketNumber") as [[| | | |s| |]|];
      try (by destruct (optionalId (json req) "id")).
    by eexists.
Qed.

(** X17.  One ticket per clock reading.  After a ticket has been created at
    a clock reading, every further [createSupportTicket] at the same reading
    is refused, whatever the ticket, and leaves the tickets as they are. *)
Theorem createSupportTicket_once_per_clock_reading first second now db row db' :
  Storage.createSupportTicket first now db = (Ok row, db') ->
  (exists e, (Storage.createSupportTicket second now db').1 = Throw e)
  /\ Storage.supportTickets (Storage.createSupportTicket second now db').2
     = Storage.supportTickets db'.
Proof.
  intros Hfirst. apply createSupportTicket_ok in Hfirst as [Hnumber Hrows].
  assert (Exists (fun r => Ticket.ticketNumber r = "ST-" +:+ decimal now)
                 (Storage.supportTickets db')) as Htaken.
  { rewrite Hrows. apply Exists_app. right. by apply Exists_cons_hd. }
  destruct (Storage.createSupportTicket second now db') as [[row2 | e] db2] eqn:Hsecond;
    cbn [fst snd].
  - exfalso. revert Hsecond. unfold Storage.createSupportTicket.
    destruct (Ticket.i_id second) as [id|].
    + destruct (negb (Storage.int4 id)); [done|].
      rewrite (bool_decide_eq_true_2 _); [done|].
      eapply Exists_impl; [exact Htaken|]. cbn beta. tauto.
    + destruct (negb (Storage.int4 _)); [done|].
      rewrite (bool_decide_eq_true_2 _); [done|].
      eapply Exists_impl; [exact Htaken|]. cbn beta. tauto.
  - split; [by eexists|]. by apply createSupportTicket_throw in Hsecond.
Qed.

End MoreTicketFacts.

Lemma postSupportTickets_ticketNumber_witness :
  Routes.postSupportTickets Cases.contactForm 1700000000000 Sample.db
  = (Routes.respond 500 "Failed to create support ticket", Sample.db).
Proof.
  apply (postSupportTickets_ticketNumber Cases.contactForm 1700000000000 Sample.db).
  intros s. vm_compute. discriminate.
Defined.

Lemma createSupportTicket_once_per_clock_reading_witness :
  (exists e,
      (Storage.createSupportTicket Sample.ticketClosed 1700000000000 Sample.created).1
      = Throw e)
  /\ Storage.supportTickets
       (Storage.createSupportTicket Sample.ticketClosed 1700000000000 Sample.created).2
     = Storage.supportTickets Sample.created.
Proof.
  apply (createSupportTicket_once_per_clock_reading Sample.ticket Sample.ticketClosed
           1700000000000 Sample.db
           (Ticket.mk 1 "ST-1700000000000" "Ana" "ana@example.com" "Ayuda"
              "No puedo entrar" (Some Ticket.open) (Some Ticket.medium) None None
              (Some 1700000000000%Z) (Some 1700000000000%Z))
           Sample.created).
  vm_compute. reflexivity.
Defined.

Section MoreServiceFacts.
Import Js Http Routes.

Lemma set_services_same db : Storage.set_services (Storage.services db) db = db.
Proof. by destruct db. Qed.

Lemma map_unchanged {A} (f : A -> A) (l : list A) :
  Forall (fun x => f x = x) l -> map f l = l.
Proof. induction 1 as [|x l Hx _ IH]; [done|]. cbn. by rewrite Hx, IH. Qed.

(** X18.  Approval is a last-writer-wins update.  Approving the same id
    again leaves the database as a single approval at the later clock
    reading would; after an approval every service with the id is approved;
    and for an id that no service has, [approveService] returns [undefined]
    and leaves the database as it was. *)
Theorem approveService_last_writer_wins id earlier later db :
  (Storage.approveService id later (Storage.approveService id earlier db).2).2
  = (Storage.approveService id later db).2
  /\ (forall n, id = Some n -> Storage.int4 n = true ->
      Forall (fun s => Service.id s = n -> Service.isApproved s = Some true)
             (Storage.services (Storage.approveService id later db).2))
  /\ (forall n, id = Some n -> Storage.int4 n = true ->
      Forall (fun s => Service.id s <> n) (Storage.services db) ->
      Storage.approveService id later db = (Ok None, db)).
Proof.
  unfold Storage.approveService, Storage.bindInteger.
  split; [|split].
  - destruct id as [n|]; [|done]. destruct (Storage.int4 n); [|done].
    cbn [snd Storage.set_services Storage.services]. unfold Storage.set_services.
    cbn [Storage.users Storage.users_seq Storage.categories Storage.categories_seq
         Storage.supportCategories Storage.supportTickets Storage.supportTickets_seq].
    f_equal. rewrite map_map. apply map_ext. intros s.
    destruct (decide (Service.id s = n)) as [Hs | Hs].
    + rewrite !(bool_decide_eq_true_2 (Service.id s = n)) by done.
      rewrite ?bool_decide_eq_true_2 by done. reflexivity.
    + rewrite !(bool_decide_eq_false_2 (Service.id s = n)) by done.
      rewrite ?bool_decide_eq_false_2 by done. reflexivity.
  - intros n -> ->. cbn [snd Storage.set_services Storage.services].
    apply Forall_forall. intros s Hs Hid.
    apply list_elem_of_fmap in Hs as (s0 & -> & _).
    by case_bool_decide.
  - intros n -> -> Hnone.
    assert (map (fun s => if bool_decide (Service.id s = n)
                          then Service.approve later s else s) (Storage.services db)
            = Storage.services db) as ->.
    { apply map_unchanged. eapply Forall_impl; [exact Hnone|]. cbn beta.
      intros s Hs. by rewrite bool_decide_eq_false_2. }
    rewrite set_services_same, (filter_none _ _ ) by
      (eapply Forall_impl; [exact Hnone|]; cbn beta; tauto).
    done.
Qed.

End MoreServiceFacts.

Lemma approveService_last_writer_wins_witness :
  Storage.approveService (Some 11%Z) 1700000000000 Sample.db = (Ok None, Sample.db).
Proof.
  apply (proj2 (proj2 (approveService_last_writer_wins
                         (Some 11%Z) 0 1700000000000 Sample.db)) 11%Z);
    [reflexivity | reflexivity |].
  apply Forall_singleton. vm_compute. discriminate.
Defined.

(** ** The WebSocket registry, the handshake and the sending functions *)

Section MessagingFacts.
Import WebSocket Messaging.

Lemma foldl_onClose_connections (fired : list (Socket * UserKey * string)) :
  forall conns users connectionId,
  (foldl (fun cu l => onClose l.1.2 l.2 cu.1 cu.2) (conns, users) fired).1
    !! connectionId
  = if decide (connectionId ∈ map snd fired) then None else conns !! connectionId.
Proof.
  induction fired as [|l fired IH]; intros conns users c.
  - cbn. rewrite decide_False; [done|]. apply not_elem_of_nil.
  - cbn [foldl map]. destruct (onClose l.1.2 l.2 (conns, users).1 (conns, users).2)
      as [conns' users'] eqn:Hclose.
    rewrite IH. unfold onClose in Hclose. cbn [fst snd] in Hclose.
    injection Hclose as <- _.
    destruct (decide (c ∈ map snd fired)) as [Hin | Hnotin].
    + rewrite decide_True; [done|]. apply elem_of_cons. by right.
    + destruct (decide (c = l.2)) as [-> | Hne].
      * rewrite lookup_delete_eq, decide_True; [done|]. apply elem_of_cons. by left.
      * rewrite lookup_delete_ne by done. rewrite decide_False; [done|].
        intros [? | ?]%elem_of_cons; done.
Qed.

Lemma handleConnection_listener ws userId now rnd s :
  everyConnectionHasListener s ->
  everyConnectionHasListener (handleConnection ws userId now rnd s).
Proof.
  intros Hcover c. unfold handleConnection. cbn [connections listeners].
  rewrite map_app. intros Hc. apply elem_of_app.
  destruct (decide (generateConnectionId now rnd = c)) as [<- | Hne].
  - right. cbn. apply elem_of_cons. by left.
  - left. apply Hcover. by rewrite lookup_insert_ne in Hc.
Qed.

Lemma handleClose_listener ws s :
  everyConnectionHasListener s -> everyConnectionHasListener (handleClose ws s).
Proof.
  intros Hcover c. unfold handleClose.
  pose proof (foldl_onClose_connections
                (filter (fun l => l.1.1 = ws) (listeners s))
                (connections s) (userConnections s) c) as Hfold.
  destruct (foldl _ _ _) as [conns users]. cbn [fst connections listeners] in *.
  rewrite Hfold. case_decide as Hfired; [by intros [? ?]|].
  intros Hc. apply Hcover in Hc.
  apply list_elem_of_fmap in Hc as (l & -> & Hl).
  apply list_elem_of_fmap. exists l. split; [done|].
  apply list_elem_of_filter. split; [|done].
  intros Hws. apply Hfired. apply list_elem_of_fmap. exists l. split; [done|].
  by apply list_elem_of_filter.
Qed.

Lemma run_listener events : forall s,
  everyConnectionHasListener s -> everyConnectionHasListener (run s events).
Proof.
  induction events as [|e events IH]; intros s Hcover; [exact Hcover|].
  apply IH. destruct e; [by apply handleConnection_listener
                        | by apply handleClose_listener].
Qed.

Lemma initial_listener : everyConnectionHasListener initial.
Proof.
  intros c [ws Hc]. unfold initial in Hc. cbn [connections] in Hc.
  by rewrite lookup_empty in Hc.
Qed.


Variable isOpen : Socket -> bool.

(** X20.  [sendToUser] reaches a user's own sockets and no others.  In a
    run from the empty registry with ids not in use, [send] is called on a
    socket exactly when the socket is open and has a pending connection
    that was registered under that user id. *)
Theorem sendToUser_reaches_own_sockets_only events userId ws :
  freshIds initial events ->
  ws ∈ sendToUser isOpen userId (run initial events)
  <-> isOpen ws = true
      /\ exists connectionId,
           (ws, Some userId, connectionId) ∈ listeners (run initial events).
Proof.
  intros Hfresh.
  pose proof (run_preserves events initial Hfresh initial_invariant)
    as [(_ & Hunique & _) [Hl _]].
  pose proof (run_listener events initial initial_listener) as Hcover.
  unfold sendToUser. split.
  - destruct (userConnections (run initial events) !! Some userId) as [ids|] eqn:Hids;
      [|by intros ?%elem_of_nil].
    intros [Hopen Hws]%list_elem_of_filter. split; [exact Hopen|].
    apply list_elem_of_omap in Hws as (c & Hc%elem_of_elements & Hconn).
    exists c.
    assert (is_Some (connections (run initial events) !! c)) as Hsome by by eexists.
    pose proof (Hcover c Hsome) as Hin.
    apply list_elem_of_fmap in Hin as ([[ws' u'] c'] & Hc' & Hin). cbn in Hc'. subst c'.
    destruct (Hl _ _ _ Hin) as [Hconn' Howns].
    destruct (Hunique c Hsome) as (u0 & _ & Hu0).
    assert (Some userId = u0) as Hmine by (apply Hu0; by exists ids).
    assert (u' = u0) as Htheirs by by apply Hu0.
    assert (ws' = ws) as Hsame by congruence.
    by rewrite <- Hsame, Hmine, <- Htheirs.
  - intros [Hopen (c & Hin)]. destruct (Hl _ _ _ Hin) as [Hconn (ids & Hids & Hc)].
    replace (userConnections (run initial events) !! Some userId) with (Some ids)
      by (symmetry; exact Hids).
    apply list_elem_of_filter. split; [exact Hopen|].
    apply list_elem_of_omap. exists c. split; [|exact Hconn].
    by apply elem_of_elements.
Qed.

Variable env : option string.

(** X21.  The handshake lets every client in.  [verifyClient] is [async],
    so what the [ws] package tests is a promise, and [handleConnection] runs
    for every request: under the user id of the token when [verifyToken]
    accepts it, and under [undefined] when there is no token or it is turned
    down.  Either way the socket is registered and, while open, is among the
    sockets that [broadcastServiceUpdate] sends to. *)
Theorem handleUpgrade_accepts_every_client token ws now rnd s :
  handleUpgrade env token ws now rnd s
  = Some (handleConnection ws
            (token ≫= fun t => (fun decoded => Js.decimal (Jwt.userId decoded))
                               <$> Auth.verifyToken env t now)
            now rnd s)
  /\ forall userId,
       connections (handleConnection ws userId now rnd s)
         !! generateConnectionId now rnd = Some ws
       /\ (isOpen ws = true ->
           ws ∈ broadcastServiceUpdate isOpen (handleConnection ws userId now rnd s)).
Proof.
  split.
  - unfold handleUpgrade, verifyClient.
    destruct token as [[p key | [|c raw]]|]; cbn [mbind option_bind]; try done.
    all: by destruct (Auth.verifyToken env _ now).
  - intros userId.
    assert (connections (handleConnection ws userId now rnd s)
              !! generateConnectionId now rnd = Some ws) as Hconn.
    { unfold handleConnection. cbn [connections]. apply lookup_insert_eq. }
    split; [exact Hconn|]. intros Hopen. unfold broadcastServiceUpdate.
    apply list_elem_of_filter. split; [exact Hopen|].
    apply list_elem_of_fmap. exists (generateConnectionId now rnd, ws).
    split; [done|]. by apply elem_of_map_to_list.
Qed.

Lemma getUsersByRole_not_defined :
  "getUsersByRole" ∉ Storage.DatabaseStorage_methods.
Proof.
  intros H. apply (bool_decide_eq_true_2 _) in H. vm_compute in H. discriminate.
Qed.

(** X22.  [broadcastToAdmins] reaches nobody.  It calls
    [storage.getUsersByRole], which class [DatabaseStorage] does not define,
    so for every message and every registry the call raises a [TypeError]
    before any socket is sent to.  Over a storage object that has the
    method, the sockets sent to are those that [sendToUser] gives for the
    users the method returns. *)
Theorem broadcastToAdmins_reaches_nobody db s :
  ("getUsersByRole" ∉ Storage.DatabaseStorage_methods)
  /\ broadcastToAdmins isOpen db s
     = Throw (TypeError "storage.getUsersByRole is not a function")
  /\ forall getUsersByRole admins,
       getUsersByRole "admin" db = Ok admins ->
       exists sent,
         broadcastToAdminsWith isOpen (Some getUsersByRole) db s = Ok sent
         /\ forall ws, ws ∈ sent
              <-> exists admin, admin ∈ admins
                    /\ ws ∈ sendToUser isOpen (Js.decimal (User.id admin)) s.
Proof.
  split; [exact getUsersByRole_not_defined|]. split; [reflexivity|].
  intros getUsersByRole admins Hadmins.
  unfold broadcastToAdminsWith, Js.callMethod. cbn [fst]. rewrite Hadmins.
  eexists. split; [reflexivity|]. intros ws. rewrite list_elem_of_In, in_flat_map.
  split; intros (admin & Hadmin & Hws); exists admin.
  - by rewrite <- !list_elem_of_In in *.
  - by rewrite <- !list_elem_of_In.
Qed.

End MessagingFacts.


Lemma sendToUser_reaches_own_sockets_only_witness :
  1 ∈ Messaging.sendToUser (fun _ => true) "1"
        (WebSocket.run WebSocket.initial
           [WebSocket.Connection 1 (Some "1") 1700000000000 "k3x9q";
            WebSocket.Connection 2 None 1700000000001 "a81zc"]).
Proof.
  apply (sendToUser_reaches_own_sockets_only (fun _ => true)
           [WebSocket.Connection 1 (Some "1") 1700000000000 "k3x9q";
            WebSocket.Connection 2 None 1700000000001 "a81zc"] "1" 1).
  - cbn [WebSocket.freshIds]. repeat split; vm_compute; reflexivity.
  - split; [reflexivity|].
    exists (WebSocket.generateConnectionId 1700000000000 "k3x9q").
    apply elem_of_cons. by left.
Defined.

(** ** The health monitor *)

Section HealthFacts.
Import Cache Health.

(** X23.  The overall status follows the number of failing checks and
    never improves when a check fails: it is [healthy] exactly when all four
    checks are healthy, and if every check that fails in one report fails in
    another, the other report is at least as bad. *)
Theorem determineOverallStatus_monotone before after :
  (determineOverallStatus before = Healthy
   <-> before = mkServices CheckHealthy CheckHealthy CheckHealthy CheckHealthy)
  /\ (noCheckRecovers before after ->
      severity (determineOverallStatus before)
      <= severity (determineOverallStatus after)).
Proof.
  split.
  - destruct before as [[] [] [] []]; by split.
  - intros (Hd & Hc & Hs & Ha).
    destruct before as [d c s a], after as [d' c' s' a']. cbn in Hd, Hc, Hs, Ha.
    destruct d, d'; try (by discriminate (Hd eq_refl));
      destruct c, c'; try (by discriminate (Hc eq_refl));
      destruct s, s'; try (by discriminate (Hs eq_refl));
      destruct a, a'; try (by discriminate (Ha eq_refl));
      vm_compute; lia.
Qed.

Context {V : Type}.
Variable truthy : V -> bool.
Variable test : V.
Variable env : option string.

(** X24.  The cache check and the auth check test their own writes.  When
    [{ test: true }] counts as true and the session is read within ten
    seconds of being stored, [checkCache] is healthy and leaves the cache as
    it found it, less any entry under the test key.  When the token is
    verified within twelve hours of the second in which it was made,
    [checkAuth] is healthy.  The overall status is then decided by the two
    database queries alone. *)
Theorem selfchecks_pass keyTime setTime getTime signTime verifyTime
    (data : gmap string (Entry V)) {A B} (getCategories : Result A)
    (getServices : Result B) :
  truthy test = true ->
  (getTime <= setTime + 10 * 1000)%Z ->
  (verifyTime <= 1000 * (Jwt.seconds signTime + 12 * 60 * 60))%Z ->
  checkCache truthy test keyTime setTime getTime data
  = (CheckHealthy, delete ("session:" +:+ "health_check_" +:+ Js.decimal keyTime) data)
  /\ checkAuth env signTime verifyTime = CheckHealthy
  /\ determineOverallStatus
       (mkServices (checkDatabase getCategories)
                   (checkCache truthy test keyTime setTime getTime data).1
                   (checkStorage getServices)
                   (checkAuth env signTime verifyTime))
     = match getCategories, getServices with
       | Ok _, Ok _ => Healthy
       | Throw _, Throw _ => Unhealthy
       | _, _ => Degraded
       end.
Proof.
  intros Htruthy Hcache Hauth.
  assert (checkCache truthy test keyTime setTime getTime data
          = (CheckHealthy,
             delete ("session:" +:+ "health_check_" +:+ Js.decimal keyTime) data))
    as Hcheck.
  { unfold checkCache, CacheManager.getUserSession, CacheManager.setUserSession,
      CacheManager.clearUserSession. cbn [default from_option id].
    rewrite get_set_live by (right; lia). rewrite Htruthy. cbn [negb].
    f_equal. apply map_eq. intros k. rewrite del_lookup. unfold CacheManager.set.
    case_bool_decide as Hk.
    - apply list_elem_of_singleton in Hk as ->. by rewrite lookup_delete_eq.
    - rewrite lookup_delete_ne, lookup_insert_ne; [done | |];
        intros Heq; subst k; apply Hk; apply list_elem_of_here. }
  assert (checkAuth env signTime verifyTime = CheckHealthy) as Hcheck'.
  { unfold checkAuth. rewrite verifyToken_generateToken.
    by rewrite (proj2 (Z.leb_le _ _) Hauth). }
  split; [exact Hcheck|]. split; [exact Hcheck'|].
  rewrite Hcheck, Hcheck'. by destruct getCategories, getServices.
Qed.

End HealthFacts.

Lemma determineOverallStatus_monotone_witness :
  Health.severity
    (Health.determineOverallStatus
       (Health.mkServices Health.CheckUnhealthy Health.CheckHealthy
                          Health.CheckHealthy Health.CheckHealthy))
  <= Health.severity
       (Health.determineOverallStatus
          (Health.mkServices Health.CheckUnhealthy Health.CheckHealthy
                             Health.CheckUnhealthy Health.CheckHealthy)).
Proof.
  apply (proj2 (determineOverallStatus_monotone
                  (Health.mkServices Health.CheckUnhealthy Health.CheckHealthy
                                     Health.CheckHealthy Health.CheckHealthy)
                  (Health.mkServices Health.CheckUnhealthy Health.CheckHealthy
                                     Health.CheckUnhealthy Health.CheckHealthy))).
  repeat split; by intros.
Defined.

Lemma selfchecks_pass_witness :
  Health.checkCache (fun _ : bool => true) true 1700000000000 1700000000001
    1700000000002 ∅
  = (Health.CheckHealthy, delete "session:health_check_1700000000000" ∅)
  /\ Health.checkAuth None 1700000000003 1700000000004 = Health.CheckHealthy
  /\ Health.determineOverallStatus
       (Health.mkServices
          (Health.checkDatabase (Throw (DbError "connection refused") : Result unit))
          (Health.checkCache (fun _ : bool => true) true 1700000000000 1700000000001
             1700000000002 ∅).1
          (Health.checkStorage (Ok tt))
          (Health.checkAuth None 1700000000003 1700000000004))
     = Health.Degraded.
Proof.
  apply (selfchecks_pass (fun _ : bool => true) true None 1700000000000
           1700000000001 1700000000002 1700000000003 1700000000004 ∅
           (Throw (DbError "connection refused") : Result unit) (Ok tt));
    [reflexivity | lia | vm_compute; discriminate].
Defined.

(** ** Switching two-factor login on and off *)

Section TwoFactorSetupFacts.
Import Js Http Routes Monitoring TwoFactor TwoFactorSetup.
Variable env : option string.
Variable totpVerify : string -> string -> Z -> bool.
Variable comparePassword : string -> string -> bool.

Lemma deactivateTwoFactor_not_defined :
  "deactivateTwoFactor" ∉ Storage.DatabaseStorage_methods.
Proof.
  intros H. apply (bool_decide_eq_true_2 _) in H. vm_compute in H. discriminate.
Qed.

Lemma getTempTwoFactorSecret_not_defined :
  "getTempTwoFactorSecret" ∉ Storage.DatabaseStorage_methods.
Proof.
  intros H. apply (bool_decide_eq_true_2 _) in H. vm_compute in H. discriminate.
Qed.

Lemma disable2FA_not_true userId password w :
  exists result, disable2FA comparePassword userId password w = (result, w)
                 /\ result <> Ok true.
Proof.
  unfold disable2FA, disable2FAWith, storage.
  destruct (Storage.getUser userId (db w)) as [[user|]|e]; try by eexists.
  destruct (compare comparePassword password (User.password user)) as [[|]|e];
    by eexists.
Qed.

(** X25.  Two-factor login cannot be switched off.
    [POST /api/auth/2fa/disable] never answers 200 and never logs
    [2fa_disabled], and it leaves the database as it is: [disable2FA] calls
    [storage.deactivateTwoFactor], which class [DatabaseStorage] does not
    define, so the user who sends the right password is answered 500.  Over a
    storage object whose [deactivateTwoFactor] succeeds, that same request is
    answered 200. *)
Theorem postDisable2FA_never_succeeds req now w :
  ("deactivateTwoFactor" ∉ Storage.DatabaseStorage_methods)
  /\ status (postDisable2FA env comparePassword req now w).1 <> 200%Z
  /\ (postDisable2FA env comparePassword req now w).2 = w
  /\ forall user row hash p,
       Auth.authenticate env req now (db w) = Next user ->
       Storage.getUser (decimal (User.id user)) (db w) = Ok (Some row) ->
       User.password row = Some hash ->
       json req !! "password" = Some (JStr p) ->
       comparePassword p hash = true ->
       (postDisable2FA env comparePassword req now w).1
       = respond 500 "Failed to disable 2FA"
       /\ forall deactivate db',
            deactivate (decimal (User.id user)) (db w) = (Ok tt, db') ->
            status (postDisable2FAWith env comparePassword
                      (mkSetupStorage None None None (Some deactivate)) req now w).1
            = 200%Z.
Proof.
  split; [exact deactivateTwoFactor_not_defined|].
  unfold postDisable2FA, postDisable2FAWith.
  destruct (Auth.authenticate env req now (db w)) as [r | user] eqn:Hauth.
  - split; [|split; [done|done]].
    revert Hauth. unfold Auth.authenticate, Auth.unauthorized.
    repeat case_match; try discriminate; by intros [= <-].
  - fold (disable2FA comparePassword).
    destruct (disable2FA_not_true (decimal (User.id user)) (json req !! "password") w)
      as (result & Hresult & Hnot).
    split; [|split].
    + rewrite Hresult. by destruct result as [[|]|].
    + rewrite Hresult. by destruct result as [[|]|].
    + intros user' row hash p [= <-] Hrow Hhash Hp Hcompare.
      unfold disable2FA, disable2FAWith.
      rewrite Hrow, Hhash, Hp. cbn [compare]. rewrite Hcompare.
      cbn [negb storage deactivateTwoFactor callMethod]. split; [done|].
      intros deactivate db' Hdeactivate.
      unfold writing. rewrite Hdeactivate. done.
Qed.

(** X26.  Two-factor login cannot be switched on, and the steps that
    would switch it on are in the right order.  [enable2FA] raises a
    [TypeError] at its first statement, the call of
    [storage.getTempTwoFactorSecret], for every user and token.  Over any
    storage object the body returns [true] only after the one-time password
    has been checked against the stored temporary secret and accepted; when
    it returns [false] the database is as before. *)
Theorem enable2FA_needs_an_accepted_token userId token now w :
  ("getTempTwoFactorSecret" ∉ Storage.DatabaseStorage_methods)
  /\ enable2FA totpVerify userId token now w
     = (Throw (TypeError "storage.getTempTwoFactorSecret is not a function"), w)
  /\ forall store,
       ((enable2FAWith totpVerify store userId token now w).1 = Ok true ->
        exists getTemp tempData,
          getTempTwoFactorSecret store = Some getTemp
          /\ getTemp userId (db w) = Ok (Some tempData)
          /\ totpVerify (secret tempData) token now = true
          /\ (secret tempData, token)
             ∈ totpChecks (enable2FAWith totpVerify store userId token now w).2)
       /\ ((enable2FAWith totpVerify store userId token now w).1 = Ok false ->
           db (enable2FAWith totpVerify store userId token now w).2 = db w).
Proof.
  split; [exact getTempTwoFactorSecret_not_defined|]. split; [reflexivity|].
  intros [getTemp activate deleteTemp deactivate].
  unfold enable2FAWith, callMethod, verify2FAToken, writing.
  cbn [getTempTwoFactorSecret activateTwoFactor deleteTempTwoFactorSecret].
  destruct getTemp as [getTemp|]; [|by split].
  destruct (getTemp userId (db w)) as [[tempData|]|e] eqn:Htemp; [|by split..].
  destruct (totpVerify (secret tempData) token now) eqn:Hverify; cbn [negb];
    [|by split].
  assert (forall w' : World,
             totpChecks w' = totpChecks w ++ [(secret tempData, token)] ->
             (secret tempData, token) ∈ totpChecks w') as Hchecked.
  { intros w' ->. apply elem_of_app. right. apply list_elem_of_here. }
  destruct activate as [activate|]; [|by split].
  cbn [db securityLog totpChecks].
  destruct (activate userId tempData (db w)) as [[[]|e] db1]; cbn [fst snd];
    [|by split].
  destruct deleteTemp as [deleteTemp|]; [|by split].
  cbn [db securityLog totpChecks].
  destruct (deleteTemp userId db1) as [[[]|e] db2]; cbn [fst snd]; [|by split].
  split; [|done]. intros _. exists getTemp, tempData.
  do 3 (split; [done|]). by apply Hchecked.
Qed.

End TwoFactorSetupFacts.

Lemma postDisable2FA_never_succeeds_witness :
  (TwoFactorSetup.postDisable2FA None (fun _ _ => true) Cases.disable2FA
     1700000000000 Sample.world).1
  = Routes.respond 500 "Failed to disable 2FA"
  /\ Http.status
       (TwoFactorSetup.postDisable2FAWith None (fun _ _ => true) Cases.setupStore
          Cases.disable2FA 1700000000000 Sample.world).1
     = 200%Z.
Proof.
  destruct (postDisable2FA_never_succeeds None (fun _ _ => true) Cases.disable2FA
              1700000000000 Sample.world) as (_ & _ & _ & Hright).
  destruct (Hright (withoutPassword Sample.alice) Sample.alice
              "$2b$12$C6UzMDM.H6dfI" "Secreto1!")
    as [Hmissing Hpresent]; try reflexivity.
  split; [exact Hmissing|]. vm_compute. reflexivity.
Defined.

Lemma enable2FA_needs_an_accepted_token_witness :
  exists getTemp tempData,
    TwoFactorSetup.getTempTwoFactorSecret Cases.setupStore = Some getTemp
    /\ getTemp "1" (Monitoring.db Sample.world) = Ok (Some tempData)
    /\ (fun _ _ _ => true) (TwoFactor.secret tempData) "123456" 1700000000000%Z = true
    /\ (TwoFactor.secret tempData, "123456")
       ∈ Monitoring.totpChecks
           (TwoFactorSetup.enable2FAWith (fun _ _ _ => true) Cases.setupStore "1"
              "123456" 1700000000000 Sample.world).2.
Proof.
  apply (proj1 (proj2 (proj2 (enable2FA_needs_an_accepted_token (fun _ _ _ => true)
                                "1" "123456" 1700000000000 Sample.world))
                      Cases.setupStore)).
  reflexivity.
Defined.

(** ** The payment webhook *)

Section WebhookFacts.
Import Js Monitoring Webhook.
Variable key : option string.
Variable secret : option string.
Variable constructEvent :
  gmap string JsVal -> option string -> option string -> Result StripeEvent.

Lemma updatePaymentStatus_not_defined :
  "updatePaymentStatus" ∉ Storage.DatabaseStorage_methods.
Proof.
  intros H. apply (bool_decide_eq_true_2 _) in H. vm_compute in H. discriminate.
Qed.

(** X27.  No payment is ever confirmed.  [POST /api/payments/webhook]
    leaves the database as it is and never logs [payment_confirmed]: it logs
    nothing, or one [webhook_error].  Without a Stripe key every request is
    answered 200 with nothing checked.  With a key, an event that
    [constructEvent] accepts as [payment_intent.succeeded] is answered 400,
    because [storage.updatePaymentStatus] is not defined; events of other
    types are answered 200. *)
Theorem postWebhook_confirms_nothing body signature w :
  ("updatePaymentStatus" ∉ Storage.DatabaseStorage_methods)
  /\ db (postWebhook key secret constructEvent body signature w).2 = db w
  /\ (postWebhook key secret constructEvent body signature w = (200%Z, w)
      \/ postWebhook key secret constructEvent body signature w
         = (400%Z, logSecurityEvent "webhook_error" "" "error" w))
  /\ (stripeConfigured key = false ->
      postWebhook key secret constructEvent body signature w = (200%Z, w))
  /\ (stripeConfigured key = true ->
      forall stripeEvent,
        constructEvent body signature secret = Ok stripeEvent ->
        (postWebhook key secret constructEvent body signature w).1
        = if String.eqb (type stripeEvent) "payment_intent.succeeded"
          then 400%Z else 200%Z).
Proof.
  split; [exact updatePaymentStatus_not_defined|].
  unfold postWebhook, postWebhookWith, handlePaymentWebhook, handlePaymentWebhookWith,
    storage, callMethod. cbn [updatePaymentStatus].
  destruct (stripeConfigured key); [|by repeat split; auto].
  destruct (constructEvent body signature secret) as [stripeEvent | e].
  - destruct (String.eqb (type stripeEvent) "payment_intent.succeeded") eqn:Htype.
    + split; [done|]. split; [by right|]. split; [done|].
      intros _ ev [= <-]. by rewrite Htype.
    + split; [done|]. split; [by left|]. split; [done|].
      intros _ ev [= <-]. by rewrite Htype.
  - split; [done|]. split; [by right|]. split; [done|]. by intros _ ev.
Qed.

End WebhookFacts.

Lemma postWebhook_confirms_nothing_witness :
  Webhook.postWebhook None None
    (fun _ _ _ => Ok (Webhook.mkStripeEvent "payment_intent.succeeded" "pi_1"))
    ∅ None Sample.world
  = (200%Z, Sample.world)
  /\ (Webhook.postWebhook (Some "sk_test") (Some "whsec")
        (fun _ _ _ => Ok (Webhook.mkStripeEvent "payment_intent.succeeded" "pi_1"))
        ∅ (Some "t=1,v1=0") Sample.world).1
     = 400%Z.
Proof.
  split.
  - apply (postWebhook_confirms_nothing None None
             (fun _ _ _ => Ok (Webhook.mkStripeEvent "payment_intent.succeeded" "pi_1"))
             ∅ None Sample.world).
    reflexivity.
  - apply (proj2 (proj2 (proj2 (proj2
             (postWebhook_confirms_nothing (Some "sk_test") (Some "whsec")
                (fun _ _ _ => Ok (Webhook.mkStripeEvent "payment_intent.succeeded" "pi_1"))
                ∅ (Some "t=1,v1=0") Sample.world)))) eq_refl
             (Webhook.mkStripeEvent "payment_intent.succeeded" "pi_1") eq_refl).
Defined.

(** ** The statistics *)

Section StatsFacts.
Import Cache Stats.
Variable orderServices : list Service.t -> list Service.t.
Variable orderCategories : list Category.t -> list Category.t.
Hypothesis orderServices_perm : forall rows, orderServices rows ≡ₚ rows.
Hypothesis orderCategories_perm : forall rows, orderCategories rows ≡ₚ rows.

(** The sum of the review counts, from the right. *)
Let total (rows : list Service.t) : Z :=
  foldr (fun service sum => (default 0 (Service.reviewCount service) + sum)%Z) 0%Z rows.

Lemma foldl_total rows : forall start,
  foldl (fun sum service => (sum + default 0 (Service.reviewCount service))%Z)
        start rows
  = (start + total rows)%Z.
Proof.
  unfold total. induction rows as [|s rows IH]; intros start; cbn [foldl foldr]; [lia|].
  rewrite IH. lia.
Qed.

Lemma total_perm rows rows' : rows ≡ₚ rows' -> total rows = total rows'.
Proof.
  unfold total.
  induction 1 as [|s l l' _ IH|s s' l|l l' l'' _ IH1 _ IH2]; cbn [foldr] in *; lia.
Qed.

Lemma size_list_to_set_le (l : list string) :
  size (list_to_set l : gset string) <= List.length l.
Proof.
  induction l as [|x l IH]; cbn [list_to_set List.length].
  - by rewrite size_empty.
  - rewrite size_union_alt, size_singleton.
    pose proof (subseteq_size (list_to_set l ∖ {[x]}) (list_to_set l : gset string)
                  ltac:(apply subseteq_difference_l; done)).
    lia.
Qed.

Lemma getStats_unordered db :
  getStats orderServices orderCategories db = getStats id id db.
Proof.
  unfold getStats, getServices, getCategories. cbn [id].
  set (approved := filter _ (Storage.services db)).
  set (active := filter _ (Storage.categories db)).
  pose proof (orderServices_perm approved) as Hs.
  pose proof (orderCategories_perm active) as Hc.
  rewrite !foldl_total, (total_perm _ _ Hs).
  rewrite (Permutation_length Hs), (Permutation_length Hc).
  by rewrite (list_to_set_perm_L (C:=gset string) _ _ (fmap_Permutation _ _ _ Hs)).
Qed.

(** X28.  The statistics do not depend on the order in which the database
    returns the rows; the number of providers is at most the number of
    approved services; and no count is negative when no review count is. *)
Theorem getStats_counts db :
  getStats orderServices orderCategories db = getStats id id db
  /\ (0 <= providers (getStats orderServices orderCategories db)
      <= services (getStats orderServices orderCategories db))%Z
  /\ (0 <= categories (getStats orderServices orderCategories db))%Z
  /\ (Forall (fun s => (0 <= default 0 (Service.reviewCount s))%Z) (Storage.services db) ->
      (0 <= reviews (getStats orderServices orderCategories db))%Z).
Proof.
  split; [apply getStats_unordered|]. rewrite getStats_unordered.
  unfold getStats, getServices, getCategories. cbn [id providers services categories reviews].
  split; [|split; [lia|]].
  - pose proof (size_list_to_set_le
                  (Service.userId <$> filter (fun s => Service.isApproved s = Some true)
                                             (Storage.services db))) as Hle.
    rewrite length_fmap in Hle. lia.
  - intros Hcounts. rewrite foldl_total.
    assert (forall rows, Forall (fun s => (0 <= default 0 (Service.reviewCount s))%Z) rows ->
                         (0 <= total rows)%Z) as Htotal.
    { unfold total. induction 1 as [|s rows Hs _ IH]; cbn [foldr]; lia. }
    assert (0 <= total (filter (fun s => Service.isApproved s = Some true)
                               (Storage.services db)))%Z; [|lia].
    apply Htotal. rewrite Forall_forall in Hcounts. apply Forall_forall.
    intros s [_ Hs]%list_elem_of_filter. by apply Hcounts.
Qed.

(** The rows after [approveService] for the id [n]. *)
Let approved (n now : Z) (rows : list Service.t) : list Service.t :=
  map (fun s => if bool_decide (Service.id s = n) then Service.approve now s else s) rows.

Lemma approved_count n now rows :
  List.length (filter (fun s => Service.isApproved s = Some true) (approved n now rows))
  = List.length (filter (fun s => Service.isApproved s = Some true) rows)
    + List.length (filter (fun s => Service.id s = n
                                    /\ Service.isApproved s <> Some true) rows).
Proof.
  unfold approved. induction rows as [|s rows IH]; [done|].
  cbn [map]. rewrite !filter_cons.
  destruct (decide (Service.id s = n)) as [Hn | Hn].
  - rewrite bool_decide_eq_true_2 by done.
    rewrite decide_True by done.
    destruct (decide (Service.isApproved s = Some true)) as [Hs | Hs].
    + rewrite decide_False by tauto. cbn [List.length]. lia.
    + rewrite decide_True by tauto. cbn [List.length]. lia.
  - rewrite bool_decide_eq_false_2 by done.
    rewrite (decide_False (P := _ /\ _)) by tauto.
    destruct (decide (Service.isApproved s = Some true)); cbn [List.length]; lia.
Qed.

Lemma approved_total n now rows :
  total (filter (fun s => Service.isApproved s = Some true) (approved n now rows))
  = (total (filter (fun s => Service.isApproved s = Some true) rows)
     + total (filter (fun s => Service.id s = n
                               /\ Service.isApproved s <> Some true) rows))%Z.
Proof.
  unfold approved, total. induction rows as [|s rows IH]; [done|].
  cbn [map]. rewrite !filter_cons.
  destruct (decide (Service.id s = n)) as [Hn | Hn].
  - rewrite bool_decide_eq_true_2 by done.
    rewrite decide_True by done.
    destruct (decide (Service.isApproved s = Some true)) as [Hs | Hs].
    + rewrite decide_False by tauto. cbn [foldr Service.approve Service.reviewCount]. lia.
    + rewrite decide_True by tauto. cbn [foldr Service.approve Service.reviewCount]. lia.
  - rewrite bool_decide_eq_false_2 by done.
    rewrite (decide_False (P := _ /\ _)) by tauto.
    destruct (decide (Service.isApproved s = Some true)); cbn [foldr]; lia.
Qed.

Lemma approved_providers n now rows :
  (list_to_set (Service.userId
                  <$> filter (fun s => Service.isApproved s = Some true) rows)
   : gset string)
  ⊆ list_to_set (Service.userId
                   <$> filter (fun s => Service.isApproved s = Some true)
                              (approved n now rows)).
Proof.
  intros u. rewrite !elem_of_list_to_set, !list_elem_of_fmap.
  intros (s & -> & [Hs Hin]%list_elem_of_filter).
  exists (if bool_decide (Service.id s = n) then Service.approve now s else s).
  split; [by case_bool_decide|]. apply list_elem_of_filter. split.
  - by case_bool_decide.
  - unfold approved. apply list_elem_of_fmap. by exists s.
Qed.

(** X29.  What an approval does to the statistics.  After
    [approveService] for an id, the number of services has grown by the
    number of services with that id that were not approved before, and the
    number of reviews by their review counts; the number of categories is
    the same, and the number of providers has not gone down. *)
Theorem getStats_after_approveService n now db :
  Storage.int4 n = true ->
  services (getStats orderServices orderCategories
              (Storage.approveService (Some n) now db).2)
  = (services (getStats orderServices orderCategories db)
     + Z.of_nat (List.length
                   (filter (fun s => Service.id s = n
                                     /\ Service.isApproved s <> Some true)
                           (Storage.services db))))%Z
  /\ reviews (getStats orderServices orderCategories
                (Storage.approveService (Some n) now db).2)
     = (reviews (getStats orderServices orderCategories db)
        + foldl (fun sum service => sum + default 0 (Service.reviewCount service))
                0
                (filter (fun s => Service.id s = n
                                  /\ Service.isApproved s <> Some true)
                        (Storage.services db)))%Z
  /\ categories (getStats orderServices orderCategories
                   (Storage.approveService (Some n) now db).2)
     = categories (getStats orderServices orderCategories db)
  /\ (providers (getStats orderServices orderCategories db)
      <= providers (getStats orderServices orderCategories
                      (Storage.approveService (Some n) now db).2))%Z.
Proof.
  intros Hint. rewrite !getStats_unordered.
  unfold Storage.approveService, Storage.bindInteger. rewrite Hint.
  unfold getStats, getServices, getCategories.
  cbn [id snd Storage.set_services Storage.services Storage.categories
       services reviews categories providers].
  fold (approved n now (Storage.services db)).
  rewrite !foldl_total, approved_count, approved_total.
  split; [lia|]. split; [lia|]. split; [done|].
  apply inj_le, subseteq_size, approved_providers.
Qed.

End StatsFacts.

Lemma getStats_counts_witness :
  Stats.getStats reverse id Cases.catalog = Stats.getStats id id Cases.catalog
  /\ (0 <= Stats.providers (Stats.getStats reverse id Cases.catalog)
      <= Stats.services (Stats.getStats reverse id Cases.catalog))%Z.
Proof.
  destruct (getStats_counts reverse id reverse_Permutation
              (fun rows => reflexivity rows) Cases.catalog) as (Horder & Hproviders & _).
  by split.
Defined.

Lemma getStats_after_approveService_witness :
  Stats.services (Stats.getStats reverse id
                    (Storage.approveService (Some 10%Z) 1700000000000 Cases.catalog).2)
  = (Stats.services (Stats.getStats reverse id Cases.catalog) + 1)%Z.
Proof.
  apply (getStats_after_approveService reverse id reverse_Permutation
           (fun rows => reflexivity rows) 10 1700000000000 Cases.catalog).
  reflexivity.
Defined.

Section CachedStatsFacts.
Import Cache Stats.
Variable orderServices : list Service.t -> list Service.t.
Variable orderCategories : list Category.t -> list Category.t.

(** X30.  [getCachedStats] answers from the cache for ten minutes.  Once a
    call has computed the counts, every call within 600 seconds returns
    those counts with their [lastUpdated], whatever the database holds by
    then, and computes nothing.  After [invalidatePattern('stats')], which
    [createService] calls, the next call computes the counts of the database
    as it then is. *)
Theorem getCachedStats_serves_for_ten_minutes now db data later db' :
  data !! "stats:global" = None ->
  (later <= now + 600 * 1000)%Z ->
  getCachedStats orderServices orderCategories now db data
  = (Ok (getStats orderServices orderCategories db, now), true,
     CacheManager.set "stats:global"
       (getStats orderServices orderCategories db, now) 600 now data)
  /\ getCachedStats orderServices orderCategories later db'
       (getCachedStats orderServices orderCategories now db data).2
     = (Ok (getStats orderServices orderCategories db, now), false,
        (getCachedStats orderServices orderCategories now db data).2)
  /\ getCachedStats orderServices orderCategories later db'
       (invalidatePattern "stats"
          (getCachedStats orderServices orderCategories now db data).2)
     = (Ok (getStats orderServices orderCategories db', later), true,
        CacheManager.set "stats:global"
          (getStats orderServices orderCategories db', later) 600 later
          (invalidatePattern "stats"
             (getCachedStats orderServices orderCategories now db data).2)).
Proof.
  intros Hnone Hlater.
  assert (getCachedStats orderServices orderCategories now db data
          = (Ok (getStats orderServices orderCategories db, now), true,
             CacheManager.set "stats:global"
               (getStats orderServices orderCategories db, now) 600 now data))
    as Hfirst.
  { unfold getCachedStats, CacheManager.getServices, CacheManager.get.
    by rewrite Hnone. }
  split; [exact Hfirst|]. rewrite Hfirst. cbn [snd]. split.
  - unfold getCachedStats, CacheManager.getServices.
    by rewrite get_set_live by (right; lia).
  - unfold getCachedStats, CacheManager.getServices, CacheManager.get.
    by rewrite invalidatePattern_lookup.
Qed.

End CachedStatsFacts.

Lemma getCachedStats_serves_for_ten_minutes_witness :
  Stats.getCachedStats id id 1700000600000
    (Storage.approveService (Some 10%Z) 1700000300000 Cases.catalog).2
    (Stats.getCachedStats id id 1700000000000 Cases.catalog ∅).2
  = (Ok (Stats.mk 0 0 0 2, 1700000000000%Z), false,
     (Stats.getCachedStats id id 1700000000000 Cases.catalog ∅).2)
  /\ Stats.getStats id id
       (Storage.approveService (Some 10%Z) 1700000300000 Cases.catalog).2
     = Stats.mk 1 1 0 2.
Proof.
  split; [|vm_compute; reflexivity].
  apply (getCachedStats_serves_for_ten_minutes id id 1700000000000 Cases.catalog ∅
           1700000600000
           (Storage.approveService (Some 10%Z) 1700000300000 Cases.catalog).2);
    [reflexivity | lia].
Defined.

Lemma handleUpgrade_accepts_every_client_witness :
  Messaging.handleUpgrade None (Some (Jwt.Malformed "forged.token.text")) 3
    1700000000000 "k3x9q" WebSocket.initial
  = Some (WebSocket.handleConnection 3 None 1700000000000 "k3x9q" WebSocket.initial)
  /\ 3 ∈ Messaging.broadcastServiceUpdate (fun _ => true)
           (WebSocket.handleConnection 3 None 1700000000000 "k3x9q" WebSocket.initial).
Proof.
  destruct (handleUpgrade_accepts_every_client (fun _ => true) None
              (Some (Jwt.Malformed "forged.token.text")) 3 1700000000000 "k3x9q"
              WebSocket.initial) as [Haccepted Hregistered].
  split; [exact Haccepted|].
  apply (proj2 (Hregistered None)). reflexivity.
Defined.

Lemma broadcastToAdmins_reaches_nobody_witness :
  Messaging.broadcastToAdmins (fun _ => true) Sample.db
    (WebSocket.handleConnection 3 (Some "1") 1700000000000 "k3x9q" WebSocket.initial)
  = Throw (TypeError "storage.getUsersByRole is not a function")
  /\ exists sent,
       Messaging.broadcastToAdminsWith (fun _ => true)
         (Some (fun role db => Ok (filter (fun u => User.role u = role)
                                          (Storage.users db))))
         Sample.db
         (WebSocket.handleConnection 3 (Some "1") 1700000000000 "k3x9q"
            WebSocket.initial)
       = Ok sent
       /\ forall ws, ws ∈ sent
            <-> exists admin, admin ∈ [Sample.alice]
                  /\ ws ∈ Messaging.sendToUser (fun _ => true)
                            (Js.decimal (User.id admin))
                            (WebSocket.handleConnection 3 (Some "1") 1700000000000
                               "k3x9q" WebSocket.initial).
Proof.
  destruct (broadcastToAdmins_reaches_nobody (fun _ => true) Sample.db
              (WebSocket.handleConnection 3 (Some "1") 1700000000000 "k3x9q"
                 WebSocket.initial)) as (_ & Hthrows & Hwith).
  split; [exact Hthrows|].
  apply (Hwith (fun role db => Ok (filter (fun u => User.role u = role)
                                          (Storage.users db)))
               [Sample.alice]).
  reflexivity.
Defined.
